(** * Verification of the ReAct cricket question-answering agent

    Shallow embedding of [react_cricket_agent.py]: the question validator,
    the entity extractor, the action planner, the execution of the
    planned actions with its exception handler, the observation builder,
    the response generator with its fallback, the session loop
    [answer_question], and the data analyzer: phase leaderboard,
    player-name resolution and summary, phase summary, comparison,
    diverse pools and team strategy.  A lookup of the analyzer returns a
    value or raises; what the lookups return is read against the records
    of a player in a phase, counted apart from the code.

    Python [str] values are modelled by [string] (the UTF-8 bytes of the
    text); substring tests on bytes and on code points agree for UTF-8. *)

From Stdlib Require Import String Ascii List Bool Arith ZArith QArith Qround Lia.
From Stdlib Require Import Sorted DecimalString Permutation.
Import ListNotations.
Close Scope Q_scope.
Local Open Scope string_scope.

(** ** Python string operations *)

Module PyStr.

(** The double-quote character. *)
Definition dq : string := String (ascii_of_nat 34) EmptyString.

(** The newline character, as a string. *)
Definition nl : string := String (ascii_of_nat 10) EmptyString.

(** [sub in s] *)
Fixpoint contains (sub s : string) : bool :=
  if String.prefix sub s then true
  else match s with
       | EmptyString => false
       | String _ rest => contains sub rest
       end.

(** [any(w in s for w in words)] *)
Definition any_in (words : list string) (s : string) : bool :=
  existsb (fun w => contains w s) words.

(** [s.startswith(p)] *)
Definition startswith (s p : string) : bool := String.prefix p s.

(** [s.replace(a, b)] for one-character [a] and [b]. *)
Fixpoint replace_char (a b : ascii) (s : string) : string :=
  match s with
  | EmptyString => EmptyString
  | String c rest =>
      String (if Ascii.eqb c a then b else c) (replace_char a b rest)
  end.

(** [sep.join(parts)] *)
Definition join (sep : string) (parts : list string) : string :=
  String.concat sep parts.

(** [str.lower] on ASCII text: the letters A-Z move to a-z, every other
    byte is kept. *)
Definition ascii_lower (c : ascii) : ascii :=
  let n := nat_of_ascii c in
  if (65 <=? n)%nat && (n <=? 90)%nat then ascii_of_nat (n + 32) else c.

Fixpoint lower (s : string) : string :=
  match s with
  | EmptyString => EmptyString
  | String c rest => String (ascii_lower c) (lower rest)
  end.

(** [str.upper] on ASCII text. *)
Definition ascii_upper (c : ascii) : ascii :=
  let n := nat_of_ascii c in
  if (97 <=? n)%nat && (n <=? 122)%nat then ascii_of_nat (n - 32) else c.

Fixpoint upper (s : string) : string :=
  match s with
  | EmptyString => EmptyString
  | String c rest => String (ascii_upper c) (upper rest)
  end.

Definition is_letter (c : ascii) : bool :=
  let n := nat_of_ascii c in
  ((65 <=? n)%nat && (n <=? 90)%nat) || ((97 <=? n)%nat && (n <=? 122)%nat).

(** [str.title] on ASCII text: a letter that follows a letter goes to
    lower case, any other letter to upper case. *)
Fixpoint title_go (after_letter : bool) (s : string) : string :=
  match s with
  | EmptyString => EmptyString
  | String c rest =>
      String (if after_letter then ascii_lower c else ascii_upper c)
             (title_go (is_letter c) rest)
  end.

Definition title (s : string) : string := title_go false s.

(** ASCII white space, as [str.isspace] sees it: tab to carriage return,
    the four separators 28-31, and the space. *)
Definition is_space (c : ascii) : bool :=
  let n := nat_of_ascii c in
  ((9 <=? n)%nat && (n <=? 13)%nat) || ((28 <=? n)%nat && (n <=? 32)%nat).

Fixpoint lstrip (s : string) : string :=
  match s with
  | EmptyString => EmptyString
  | String c rest => if is_space c then lstrip rest else s
  end.

Fixpoint rstrip (s : string) : string :=
  match s with
  | EmptyString => EmptyString
  | String c rest =>
      let rest' := rstrip rest in
      if is_space c && (rest' =? "") then EmptyString else String c rest'
  end.

(** [s.strip()] *)
Definition strip (s : string) : string := rstrip (lstrip s).

(** [s.split(sep)] for a non-empty [sep]: [skip] counts the characters of
    a separator just matched that are still to be passed over, [cur] is the
    piece being read. *)
Fixpoint split_go (sep s : string) (skip : nat) (cur : string) : list string :=
  match s with
  | EmptyString => [cur]
  | String c rest =>
      match skip with
      | S k => split_go sep rest k cur
      | O =>
          if String.prefix sep s
          then cur :: split_go sep rest (String.length sep - 1) EmptyString
          else split_go sep rest 0 (cur ++ String c EmptyString)
      end
  end.

Definition split (sep s : string) : list string := split_go sep s 0 EmptyString.

(** [s.split()]: the maximal runs of non-space characters. *)
Fixpoint split_ws_go (s cur : string) : list string :=
  match s with
  | EmptyString => if cur =? "" then [] else [cur]
  | String c rest =>
      if is_space c
      then (if cur =? "" then split_ws_go rest EmptyString
            else cur :: split_ws_go rest EmptyString)
      else split_ws_go rest (cur ++ String c EmptyString)
  end.

Definition split_ws (s : string) : list string := split_ws_go s EmptyString.

(** [s.split(sep, 1)] when [sep] occurs in [s]: the text before and after
    its first occurrence. *)
Fixpoint partition_first (sep s : string) : string * string :=
  if String.prefix sep s
  then (EmptyString, String.substring (String.length sep) (String.length s) s)
  else match s with
       | EmptyString => (EmptyString, EmptyString)
       | String c rest =>
           let (before, after) := partition_first sep rest in
           (String c before, after)
       end.

End PyStr.
Import PyStr.

(** ** Close matches of [difflib] *)

(** [difflib.get_close_matches] and the [SequenceMatcher] behind it, on
    ASCII text, with [isjunk=None] and [autojunk=True] as the analyzer
    calls them.  A ratio [2.0*M/T] is kept as the rational it rounds: two
    such ratios of strings of any realistic length compare as their
    doubles do, and so does a ratio against the cutoff [0.6]. *)
Module Difflib.

(** A match [(i, j, k)]: [a[i:i+k] == b[j:j+k]]. *)
Definition match3 : Type := (nat * nat * nat)%type.

Definition count_char (c : ascii) (b : list ascii) : nat :=
  List.length (filter (Ascii.eqb c) b).

(** [__chain_b]: with 200 elements or more, an element that makes up more
    than 1% of [b] (plus one) is dropped from the index [b2j]. *)
Definition popular (b : list ascii) (c : ascii) : bool :=
  let n := List.length b in
  (200 <=? n)%nat && (n / 100 + 1 <? count_char c b)%nat.

(** One pass of the inner loop of [find_longest_match] for the element
    [ai = a[i]]: [j2len] is the previous row from index [j] on, [diag] its
    entry at [j-1]; the new row and the best match so far are returned. *)
Fixpoint scan_row (pop : ascii -> bool) (ai : ascii) (i blo bhi : nat)
    (b : list ascii) (j diag : nat) (j2len : list nat) (best : match3)
  : list nat * match3 :=
  match b with
  | [] => ([], best)
  | bj :: b' =>
      let k :=
        if (blo <=? j)%nat && (j <? bhi)%nat && Ascii.eqb ai bj && negb (pop bj)
        then S diag else O in
      let best' :=
        let '(_, _, bestsize) := best in
        if (bestsize <? k)%nat then (i + 1 - k, j + 1 - k, k)%nat else best in
      let (row, best'') :=
        scan_row pop ai i blo bhi b' (S j) (hd O j2len) (tl j2len) best' in
      (k :: row, best'')
  end.

(** The outer loop, over [i] in [range(alo, ahi)]; [a_rest] is [a[i:]]. *)
Fixpoint scan_rows (pop : ascii -> bool) (a_rest : list ascii)
    (i ahi blo bhi : nat) (b : list ascii) (j2len : list nat) (best : match3)
  : match3 :=
  match a_rest with
  | [] => best
  | ai :: a_rest' =>
      if (i <? ahi)%nat then
        let (row, best') := scan_row pop ai i blo bhi b O O j2len best in
        scan_rows pop a_rest' (S i) ahi blo bhi b row best'
      else best
  end.

Definition zero_char : ascii := ascii_of_nat 0.

(** The first [while] loop after the scan: grow the match to the left.
    The loop runs at most [besti] times, which is the fuel. *)
Fixpoint extend_left (fuel : nat) (a b : list ascii) (alo blo : nat)
    (m : match3) : match3 :=
  match fuel with
  | O => m
  | S fuel' =>
      let '(besti, bestj, bestsize) := m in
      if (alo <? besti)%nat && (blo <? bestj)%nat
         && Ascii.eqb (nth (besti - 1) a zero_char) (nth (bestj - 1) b zero_char)
      then extend_left fuel' a b alo blo
             (besti - 1, bestj - 1, bestsize + 1)%nat
      else m
  end.

(** The second [while] loop: grow the match to the right, at most
    [ahi - (besti + bestsize)] times. *)
Fixpoint extend_right (fuel : nat) (a b : list ascii) (ahi bhi : nat)
    (m : match3) : match3 :=
  match fuel with
  | O => m
  | S fuel' =>
      let '(besti, bestj, bestsize) := m in
      if (besti + bestsize <? ahi)%nat && (bestj + bestsize <? bhi)%nat
         && Ascii.eqb (nth (besti + bestsize) a zero_char)
                      (nth (bestj + bestsize) b zero_char)
      then extend_right fuel' a b ahi bhi (besti, bestj, bestsize + 1)%nat
      else m
  end.

(** [find_longest_match(alo, ahi, blo, bhi)].  No element is junk, so the
    two loops that absorb junk around the match never run. *)
Definition find_longest_match (a b : list ascii) (alo ahi blo bhi : nat)
  : match3 :=
  let best :=
    scan_rows (popular b) (skipn alo a) alo ahi blo bhi b [] (alo, blo, O) in
  let best1 := extend_left (fst (fst best)) a b alo blo best in
  let '(besti, _, bestsize) := best1 in
  extend_right (ahi - (besti + bestsize)) a b ahi bhi best1.

(** A match that lies in the range [[alo, ahi)] of [a]. *)
Definition within (alo ahi : nat) (m : match3) : Prop :=
  let '(i, _, k) := m in (alo <= i /\ i + k <= ahi)%nat.

(** The sum of the sizes of the blocks of [get_matching_blocks]: the queue
    of ranges is followed as a recursion, the range in [a] shrinking at
    each step, which [fuel] bounds. *)
Fixpoint matching_total (fuel : nat) (a b : list ascii)
    (alo ahi blo bhi : nat) : nat :=
  match fuel with
  | O => O
  | S fuel' =>
      let '(i, j, k) := find_longest_match a b alo ahi blo bhi in
      if (k =? 0)%nat then O
      else
        (k
         + (if (alo <? i)%nat && (blo <? j)%nat
            then matching_total fuel' a b alo i blo j else O)
         + (if (i + k <? ahi)%nat && (j + k <? bhi)%nat
            then matching_total fuel' a b (i + k) ahi (j + k) bhi else O))%nat
  end.

(** [_calculate_ratio(matches, length)] *)
Definition calculate_ratio (matches length : nat) : Q :=
  match length with
  | O => 1%Q
  | S _ => Qmake (2 * Z.of_nat matches) (Pos.of_nat length)
  end.

(** [ratio()] *)
Definition ratio (a b : list ascii) : Q :=
  let la := List.length a in
  let lb := List.length b in
  calculate_ratio (matching_total (S la) a b O la O lb) (la + lb).

(** Removes the first occurrence of [c]; [None] when there is none. *)
Fixpoint take_one (c : ascii) (l : list ascii) : option (list ascii) :=
  match l with
  | [] => None
  | x :: rest =>
      if Ascii.eqb c x then Some rest
      else match take_one c rest with
           | Some rest' => Some (x :: rest')
           | None => None
           end
  end.

(** The count of [quick_ratio()]: elements of [a] that still find a
    partner among the elements of [b] not used up. *)
Fixpoint multiset_matches (a avail : list ascii) : nat :=
  match a with
  | [] => O
  | elt :: a' =>
      match take_one elt avail with
      | Some avail' => S (multiset_matches a' avail')
      | None => multiset_matches a' avail
      end
  end.

Definition quick_ratio (a b : list ascii) : Q :=
  calculate_ratio (multiset_matches a b) (List.length a + List.length b).

Definition real_quick_ratio (a b : list ascii) : Q :=
  let la := List.length a in
  let lb := List.length b in
  calculate_ratio (Nat.min la lb) (la + lb).

(** Order of the pairs [(score, x)], as Python compares tuples. *)
Definition pair_geb (p1 p2 : Q * string) : bool :=
  match Qcompare (fst p1) (fst p2) with
  | Gt => true
  | Lt => false
  | Eq => String.leb (snd p2) (snd p1)
  end.

Fixpoint insert_pair (p : Q * string) (l : list (Q * string))
  : list (Q * string) :=
  match l with
  | [] => [p]
  | h :: t => if pair_geb p h then p :: h :: t else h :: insert_pair p t
  end.

(** [sorted(result, reverse=True)] *)
Definition sort_pairs (l : list (Q * string)) : list (Q * string) :=
  fold_right insert_pair [] l.

(** [get_close_matches(word, possibilities, n, cutoff)] for [n > 0] and a
    cutoff in [[0, 1]]; [word] is the second sequence of the matcher. *)
Definition get_close_matches (word : string) (possibilities : list string)
    (n : nat) (cutoff : Q) : list string :=
  let b := list_ascii_of_string word in
  let result :=
    flat_map
      (fun x =>
         let a := list_ascii_of_string x in
         if Qle_bool cutoff (real_quick_ratio a b)
            && Qle_bool cutoff (quick_ratio a b)
            && Qle_bool cutoff (ratio a b)
         then [(ratio a b, x)] else [])
      possibilities in
  map snd (firstn n (sort_pairs result)).

End Difflib.

(** ** Data analyzer ([CricketDataAnalyzer]) *)

Module Analyzer.

(** *** Numbers of the table *)

(** A value of a numeric column: a finite number (every [int] and every
    finite [float] is a rational), an infinity, or NaN. *)
Inductive number : Type :=
  | NaN
  | NegInf
  | Finite (q : Q)
  | PosInf.

Definition is_nan (x : number) : bool :=
  match x with NaN => true | _ => false end.

(** [x <= y] as Python evaluates it: false as soon as one side is NaN. *)
Definition num_leb (x y : number) : bool :=
  match x, y with
  | NaN, _ => false
  | _, NaN => false
  | NegInf, _ => true
  | _, PosInf => true
  | Finite a, Finite b => Qle_bool a b
  | _, _ => false
  end.

(** [x >= y] *)
Definition num_geb (x y : number) : bool := num_leb y x.

Definition of_Z (z : Z) : number := Finite (inject_Z z).

(** *** Entry points *)

(** The categorisation of lines 68-70:
    ['Powerplay' if x <= 6 else 'Middle' if x <= 15 else 'Death']. *)
Definition entry_phase (x : number) : string :=
  if num_leb x (of_Z 6) then "Powerplay"
  else if num_leb x (of_Z 15) then "Middle"
  else "Death".

(** A row of [entry_points], with the columns the lookups read.  [Year] is
    the text [astype(str)] gives. *)
Record entry_point : Type := mk_entry_point {
  Player : string;
  Team : string;
  Year : string;
  Entry_Over : number;
  Runs : number;
  Final_Strike_Rate : number;
  Dot_Pct : number;
  Bnd_Pct : number;
  Innings_Duration : number;
  Entry_Phase : string
}.

(** Line 68: the column [Entry_Phase] is computed from [Entry_Over]. *)
Definition set_entry_phase (r : entry_point) : entry_point :=
  mk_entry_point (Player r) (Team r) (Year r) (Entry_Over r) (Runs r)
    (Final_Strike_Rate r) (Dot_Pct r) (Bnd_Pct r) (Innings_Duration r)
    (entry_phase (Entry_Over r)).

Definition categorise (rows : list entry_point) : list entry_point :=
  map set_entry_phase rows.

(** *** Helpers on columns of text *)

Definition mem (s : string) (l : list string) : bool :=
  existsb (String.eqb s) l.

(** [Series.unique()]: the values in order of first appearance. *)
Fixpoint unique_go (seen l : list string) : list string :=
  match l with
  | [] => []
  | x :: rest =>
      if mem x seen then unique_go seen rest
      else x :: unique_go (x :: seen) rest
  end.

Definition unique (l : list string) : list string := unique_go [] l.

Fixpoint insert_asc (s : string) (l : list string) : list string :=
  match l with
  | [] => [s]
  | h :: t => if String.leb s h then s :: h :: t else h :: insert_asc s t
  end.

(** [sorted(l)] *)
Definition sort_asc (l : list string) : list string :=
  fold_right insert_asc [] l.

Fixpoint insert_desc (s : string) (l : list string) : list string :=
  match l with
  | [] => [s]
  | h :: t => if String.leb h s then s :: h :: t else h :: insert_desc s t
  end.

(** [sorted(l, reverse=True)] *)
Definition sort_desc (l : list string) : list string :=
  fold_right insert_desc [] l.

(** [max(l)] on a non-empty list of text, the first of the largest. *)
Definition max_str (l : list string) : option string :=
  fold_left (fun best s =>
               match best with
               | None => Some s
               | Some b => if String.ltb b s then Some s else Some b
               end) l None.

Definition count_rows (p : string) (rows : list entry_point) : nat :=
  List.length (filter (fun r => Player r =? p) rows).

(** The first element with the largest weight: [max(..., key=...)]. *)
Definition first_max (weight : string -> nat) (l : list string) : option string :=
  fold_left (fun best s =>
               match best with
               | None => Some s
               | Some b => if (weight b <? weight s)%nat then Some s else Some b
               end) l None.

(** [Series.mode().iloc[0]]: the most frequent value, the smallest one
    among equals. *)
Definition mode (l : list string) : option string :=
  first_max (fun s => List.length (filter (String.eqb s) l))
            (sort_asc (unique l)).

(** [DataFrame.head(n)] *)
Definition head {A : Type} (n : Z) (l : list A) : list A :=
  if (0 <=? n)%Z then firstn (Z.to_nat n) l
  else firstn (List.length l - Z.to_nat (- n)) l.

(** Truth value of a Python list. *)
Definition truthy_list {A : Type} (l : list A) : bool :=
  match l with [] => false | _ :: _ => true end.

(** *** Leaderboard of a phase ([get_best_players_for_phase]) *)

(** [phase_map.get(phase.lower(), phase)] *)
Definition target_phase_of (phase : string) : string :=
  let key := lower phase in
  if key =? "powerplay" then "Powerplay"
  else if key =? "middle" then "Middle"
  else if key =? "death" then "Death"
  else phase.

(** A row of [player_performance], after [groupby('Player').agg]. *)
Record performance : Type := mk_performance {
  perf_Player : string;
  perf_Final_Strike_Rate : number;
  perf_Runs : number;
  perf_Dot_Pct : number;
  perf_Bnd_Pct : number;
  perf_Entry_Over : Z
}.

(** An entry of the list returned by [get_best_players_for_phase]. *)
Record best_player : Type := mk_best_player {
  player : string;
  avg_strike_rate : number;
  avg_runs : number;
  avg_dot_pct : number;
  avg_bnd_pct : number;
  matches : Z
}.

(** The order of [sort_values(..., ascending=False)]: larger first, NaN
    last. *)
Definition sorts_before (x y : number) : bool :=
  match y with
  | NaN => true
  | _ => match x with
         | NaN => false
         | _ => num_leb y x
         end
  end.

(** Rows in the order of the descending sort of their strike rate. *)
Definition in_order (r1 r2 : performance) : Prop :=
  sorts_before (perf_Final_Strike_Rate r1) (perf_Final_Strike_Rate r2) = true.

Fixpoint insert_performance (r : performance) (l : list performance)
  : list performance :=
  match l with
  | [] => [r]
  | h :: t =>
      if sorts_before (perf_Final_Strike_Rate r) (perf_Final_Strike_Rate h)
      then r :: h :: t
      else h :: insert_performance r t
  end.

(** [sort_values('Final_Strike_Rate', ascending=False)].  Rows with equal
    keys keep their order here; the sort of the library may order them
    otherwise. *)
Definition sort_values_desc (l : list performance) : list performance :=
  fold_right insert_performance [] l.

(** [count] of a column: the values that are not NaN. *)
Definition count_values (l : list number) : Z :=
  Z.of_nat (List.length (filter (fun x => negb (is_nan x)) l)).

(** The rows of a phase. *)
Definition phase_rows (entry_points : list entry_point) (target_phase : string)
  : list entry_point :=
  filter (fun r => Entry_Phase r =? target_phase) entry_points.

(** The rows of a player. *)
Definition player_rows (p : string) (rows : list entry_point) : list entry_point :=
  filter (fun r => Player r =? p) rows.

(** *** Resolving a player name ([get_player_stats], lines 86-141) *)

(** An exception raised, or a value returned. *)
Inductive result (A : Type) : Type :=
  | Raise (e : string)
  | Ok (a : A).
Arguments Raise {A} e.
Arguments Ok {A} a.

(** The metacharacters of the regular expressions of [re]. *)
Definition regex_special (c : ascii) : bool :=
  existsb (Ascii.eqb c) (list_ascii_of_string ".^$*+?{}[]\|()").

Definition is_ascii (s : string) : bool :=
  forallb (fun c => (nat_of_ascii c <? 128)%nat) (list_ascii_of_string s).

(** A name [str.contains] reads as it stands: ASCII text without
    metacharacters.  Any other text is compiled as a pattern, or raises
    [re.error], which is not modelled. *)
Definition plain_text (s : string) : bool :=
  forallb (fun c => (nat_of_ascii c <? 128)%nat && negb (regex_special c))
          (list_ascii_of_string s).

(** A table whose player names are ASCII text: on such names [lower]
    is [str.lower], and bytes are code points. *)
Definition ascii_names (entry_points : list entry_point) : bool :=
  forallb (fun r => is_ascii (Player r)) entry_points.

(** [Series.str.contains(player_name, case=False, na=False)] for a plain
    name, on a player name in ASCII. *)
Definition name_contains (player_name : string) (r : entry_point) : bool :=
  contains (lower player_name) (lower (Player r)).

(** Truth value of [matched_player]: unset, or the empty text, is false. *)
Definition is_set (matched_player : option string) : bool :=
  match matched_player with
  | Some p => negb (p =? "")
  | None => false
  end.

(** [next(p for p in all_players if p.lower() == m)] *)
Definition player_spelled (all_players : list string) (m : string)
  : option string :=
  find (fun p => lower p =? m) all_players.

(** Line 107: [input_words.issubset(match_words) or
    len(input_words & match_words) >= len(input_words)], on sets. *)
Definition words_covered (input_words match_words : list string) : bool :=
  let input_set := nodup string_dec input_words in
  forallb (fun w => mem w match_words) input_set
  || (List.length input_set
      <=? List.length (filter (fun w => mem w match_words) input_set))%nat.

(** Strategy 1, lines 97-113. *)
Definition fuzzy_match (all_players : list string) (player_name : string)
  : option string :=
  let close :=
    Difflib.get_close_matches (lower player_name) (map lower all_players)
                              3 (6 # 10)%Q in
  if truthy_list close then
    let input_words := split_ws (lower player_name) in
    let matched_player :=
      match find (fun m => words_covered input_words (split_ws m)) close with
      | Some m => player_spelled all_players m
      | None => None
      end in
    if is_set matched_player then matched_player
    else player_spelled all_players (hd EmptyString close)
  else None.

(** Line 117: the last word of the name; [split()[-1]] raises on a name
    of white space only. *)
Definition last_name_of (player_name : string) : result string :=
  if contains " " player_name then
    match rev (split_ws player_name) with
    | last_name :: _ => Ok last_name
    | [] => Raise "IndexError: list index out of range"
    end
  else Ok player_name.

(** The last name in lower case, which is all Strategy 2 reads of it. *)
Definition lowered (r : result string) : result string :=
  match r with
  | Raise e => Raise e
  | Ok l => Ok (lower l)
  end.

(** Strategy 2, lines 118-128. *)
Definition last_name_match (entry_points : list entry_point)
    (all_players : list string) (last_name : string) : option string :=
  let candidates :=
    filter (fun p => mem (lower last_name) (split_ws (lower p))) all_players in
  match candidates with
  | [] => None
  | [p] => Some p
  | _ => first_max (fun p => count_rows p entry_points) candidates
  end.

(** Strategy 3, lines 131-135. *)
Definition first_name_match (all_players : list string) (player_name : string)
  : option string :=
  let first_name := hd EmptyString (split_ws player_name) in
  let candidates :=
    filter (fun p => contains (lower first_name) (lower p)) all_players in
  match candidates with
  | [p] => Some p
  | _ => None
  end.

(** Lines 92-138: the name chosen when no row contains the given one. *)
Definition resolve_fuzzy (entry_points : list entry_point) (player_name : string)
  : result (option string) :=
  let all_players := unique (map Player entry_points) in
  let matched_player := fuzzy_match all_players player_name in
  if is_set matched_player then Ok matched_player
  else
    match last_name_of player_name with
    | Raise e => Raise e
    | Ok last_name =>
        let matched_player :=
          match last_name_match entry_points all_players last_name with
          | Some p => Some p
          | None => matched_player
          end in
        if negb (is_set matched_player) && contains " " player_name then
          match first_name_match all_players player_name with
          | Some p => Ok (Some p)
          | None => Ok matched_player
          end
        else Ok matched_player
    end.

(** [player_data] at line 140: the rows the summary is computed from. *)
Definition resolve_player_data (entry_points : list entry_point)
    (player_name : string) : result (list entry_point) :=
  let player_data := filter (name_contains player_name) entry_points in
  match player_data with
  | _ :: _ => Ok player_data
  | [] =>
      match resolve_fuzzy entry_points player_name with
      | Raise e => Raise e
      | Ok matched_player =>
          if is_set matched_player then
            match matched_player with
            | Some p => Ok (player_rows p entry_points)
            | None => Ok player_data
            end
          else Ok player_data
      end
  end.

(** *** The summary of a player ([get_player_stats], lines 143-232) *)

Module PlayerStats.

Record window : Type := mk_window {
  window_years : list string;
  window_matches : Z;
  window_avg_sr : number;
  window_avg_runs : number
}.

Record phase_counts : Type := mk_phase_counts {
  powerplay : Z;
  middle : Z;
  death : Z
}.

(** The dictionary returned by [get_player_stats]. *)
Record player_stats : Type := mk_player_stats {
  name : string;
  total_matches : Z;
  avg_entry_over : number;
  avg_strike_rate : number;
  avg_dot_pct : number;
  avg_bnd_pct : number;
  avg_innings_duration : number;
  total_runs : Z;
  avg_runs_per_match : number;
  best_strike_rate : number;
  teams : list string;
  years : list string;
  years_span : string;
  most_recent_year : string;
  recency_status : string;
  recency_score : number;
  phase_breakdown : phase_counts;
  phase_performance : list (string * list (string * number));
  recent_performance : option window;
  historical_performance : option window
}.

End PlayerStats.

(** Decimal text of an integer, as an f-string writes it. *)
Definition str_of_Z (z : Z) : string :=
  DecimalString.NilZero.string_of_int (Z.to_int z).

Definition len_Z {A : Type} (l : list A) : Z := Z.of_nat (List.length l).

Section Aggregates.

(** Floating-point aggregation is not computed here: the mean of a column
    ([Series.mean], which skips NaN) and the roundings to one decimal
    (the builtin [round(x, 1)] and [DataFrame.round(1)]) are taken as
    given functions. *)
Variable mean : list number -> number.
Variable round1 : number -> number.
Variable frame_round1 : number -> number.
(** [Series.max()] and [int(Series.sum())]. *)
Variable series_max : list number -> number.
Variable int_of_sum : list number -> Z.
(** [int(text)], [None] when it raises. *)
Variable py_int : string -> option Z.

(** [groupby('Player').agg({...}).reset_index()]: one row per player, in
    ascending order of the name. *)
Definition aggregate_players (rows : list entry_point) : list performance :=
  map (fun p =>
         let g := player_rows p rows in
         mk_performance p
           (mean (map Final_Strike_Rate g))
           (mean (map Runs g))
           (mean (map Dot_Pct g))
           (mean (map Bnd_Pct g))
           (count_values (map Entry_Over g)))
      (sort_asc (unique (map Player rows))).

Definition format_best (row : performance) : best_player :=
  mk_best_player (perf_Player row)
    (round1 (perf_Final_Strike_Rate row))
    (round1 (perf_Runs row))
    (round1 (perf_Dot_Pct row))
    (round1 (perf_Bnd_Pct row))
    (perf_Entry_Over row).

(** The frame [player_performance] just before the results are built
    (lines 242-267). *)
Definition best_performance (entry_points : list entry_point) (phase : string)
    (min_matches : Z) (top_n : option Z) (min_sr max_sr : option number)
  : list performance :=
  let target_phase := target_phase_of phase in
  let filtered_data := phase_rows entry_points target_phase in
  let player_performance := aggregate_players filtered_data in
  let player_performance :=
    filter (fun r => (min_matches <=? perf_Entry_Over r)%Z) player_performance in
  let player_performance :=
    match min_sr with
    | Some lo =>
        filter (fun r => num_geb (perf_Final_Strike_Rate r) lo) player_performance
    | None => player_performance
    end in
  let player_performance :=
    match max_sr with
    | Some hi =>
        filter (fun r => num_leb (perf_Final_Strike_Rate r) hi) player_performance
    | None => player_performance
    end in
  let player_performance := sort_values_desc player_performance in
  match top_n with
  | Some n => head n player_performance
  | None => player_performance
  end.

Definition get_best_players_for_phase (entry_points : list entry_point)
    (phase : string) (min_matches : Z) (top_n : option Z)
    (min_sr max_sr : option number) : list best_player :=
  map format_best
      (best_performance entry_points phase min_matches top_n min_sr max_sr).

(** Lines 157-173: the recency of the most recent year against the
    latest year of the table; [None] stands for the handler of the bare
    [except]. *)
Definition recency (current_year most_recent_year : string) : string * number :=
  match py_int current_year, py_int most_recent_year with
  | Some c, Some m =>
      let years_since_last := (c - m)%Z in
      if (years_since_last =? 0)%Z then
        ("ACTIVE - Current season", Finite 1)
      else if (years_since_last =? 1)%Z then
        ("RECENT - Last season", Finite (8 # 10)%Q)
      else if (years_since_last <=? 2)%Z then
        ("SEMI-RECENT - 2 years ago", Finite (6 # 10)%Q)
      else
        ("HISTORICAL - " ++ str_of_Z years_since_last ++ " years ago",
         Finite (3 # 10)%Q)
  | _, _ => ("UNKNOWN", Finite (5 # 10)%Q)
  end.

(** [groupby('Entry_Phase').agg({...}).round(1).to_dict()]: for each of
    the four columns, the rounded mean per phase, phases in ascending
    order. *)
Definition phase_performance_of (player_data : list entry_point)
  : list (string * list (string * number)) :=
  let groups := sort_asc (unique (map Entry_Phase player_data)) in
  let column (label : string) (col : entry_point -> number) :=
    (label,
     map (fun ph =>
            (ph, frame_round1 (mean (map col (phase_rows player_data ph)))))
         groups) in
  [ column "Final_Strike_Rate" Final_Strike_Rate;
    column "Runs" Runs;
    column "Dot_Pct" Dot_Pct;
    column "Bnd_Pct" Bnd_Pct ].

Definition window_of (window_years : list string) (rows : list entry_point)
  : PlayerStats.window :=
  PlayerStats.mk_window window_years (len_Z rows)
    (round1 (mean (map Final_Strike_Rate rows)))
    (round1 (mean (map Runs rows))).

(** Lines 143-232, for a non-empty [player_data]. *)
Definition summarize (entry_points player_data : list entry_point)
  : PlayerStats.player_stats :=
  let full_name :=
    match mode (map Player player_data) with
    | Some p => p
    | None => EmptyString
    end in
  let years := unique (map Year player_data) in
  let years_sorted := sort_desc years in
  let most_recent_year := hd "Unknown" years_sorted in
  let years_span :=
    if (1 <? List.length years_sorted)%nat
    then last years_sorted EmptyString ++ "-" ++ hd EmptyString years_sorted
    else most_recent_year in
  let all_years := unique (map Year entry_points) in
  let current_year :=
    match max_str all_years with
    | Some y => y
    | None => "2026"
    end in
  let (recency_status, recency_score) := recency current_year most_recent_year in
  let recent_years := firstn 2 years_sorted in
  let recent_data := filter (fun r => mem (Year r) recent_years) player_data in
  let historical_data :=
    filter (fun r => negb (mem (Year r) recent_years)) player_data in
  let recent_window := window_of recent_years recent_data in
  PlayerStats.mk_player_stats
    full_name
    (len_Z player_data)
    (round1 (mean (map Entry_Over player_data)))
    (round1 (mean (map Final_Strike_Rate player_data)))
    (round1 (mean (map Dot_Pct player_data)))
    (round1 (mean (map Bnd_Pct player_data)))
    (round1 (mean (map Innings_Duration player_data)))
    (int_of_sum (map Runs player_data))
    (round1 (mean (map Runs player_data)))
    (round1 (series_max (map Final_Strike_Rate player_data)))
    (unique (map Team player_data))
    years_sorted
    years_span
    most_recent_year
    recency_status
    recency_score
    (PlayerStats.mk_phase_counts
       (len_Z (phase_rows player_data "Powerplay"))
       (len_Z (phase_rows player_data "Middle"))
       (len_Z (phase_rows player_data "Death")))
    (phase_performance_of player_data)
    (if truthy_list recent_data then Some recent_window else None)
    (if truthy_list recent_data && truthy_list historical_data
     then Some (window_of
                  (filter (fun y => negb (mem y recent_years)) years_sorted)
                  historical_data)
     else None).

(** [get_player_stats(player_name)]: [None] when no row is found. *)
Definition get_player_stats (entry_points : list entry_point)
    (player_name : string) : result (option PlayerStats.player_stats) :=
  match resolve_player_data entry_points player_name with
  | Raise e => Raise e
  | Ok [] => Ok None
  | Ok player_data => Ok (Some (summarize entry_points player_data))
  end.

End Aggregates.

(** *** Exact arithmetic for worked examples

    Aggregates computed on the rationals, for tables of finite values
    whose means and sums float64 holds exactly. *)
Module Exact.

Definition finite_values (l : list number) : list Q :=
  flat_map (fun x => match x with Finite q => [q] | _ => [] end) l.

Definition total (l : list Q) : Q := fold_right Qplus (inject_Z 0) l.

Definition mean (l : list number) : number :=
  match finite_values l with
  | [] => NaN
  | qs => Finite (Qred (total qs / inject_Z (Z.of_nat (List.length qs))))
  end.

(** Rounding to one decimal, ties to the even digit. *)
Definition round1 (x : number) : number :=
  match x with
  | Finite q =>
      let scaled := (q * inject_Z 10)%Q in
      let low := Qfloor scaled in
      let twice := Qfloor (scaled * inject_Z 2)%Q in
      let tenths :=
        if Qeq_bool (inject_Z twice) (scaled * inject_Z 2)%Q
           && Z.odd twice
        then (if Z.even low then low else low + 1)%Z
        else Qfloor (scaled + (1 # 2))%Q in
      Finite (Qred (Qmake tenths 10))
  | _ => x
  end.

Definition series_max (l : list number) : number :=
  match finite_values l with
  | [] => NaN
  | q :: qs =>
      Finite (fold_left (fun best x => if Qle_bool best x then x else best) qs q)
  end.

Definition int_of_sum (l : list number) : Z :=
  let s := Qred (total (finite_values l)) in
  Z.quot (Qnum s) (Z.pos (Qden s)).

Definition digit_of (c : ascii) : option Z :=
  let n := nat_of_ascii c in
  if (48 <=? n)%nat && (n <=? 57)%nat then Some (Z.of_nat (n - 48)) else None.

Fixpoint parse_digits (s : string) (acc : Z) : option Z :=
  match s with
  | EmptyString => Some acc
  | String c rest =>
      match digit_of c with
      | Some d => parse_digits rest (10 * acc + d)%Z
      | None => None
      end
  end.

(** [int(text)] on a text of decimal digits. *)
Definition py_int (s : string) : option Z :=
  match strip s with
  | EmptyString => None
  | t => parse_digits t 0%Z
  end.

Definition best_players := get_best_players_for_phase mean round1.

Definition player_stats :=
  get_player_stats mean round1 round1 series_max int_of_sum py_int.

End Exact.

(** *** Tables for worked examples *)
Module Samples.

(** An entry of [p] for [team] in [year]: entry over, runs and strike
    rate, with the phase that goes with the over. *)
Definition entry (p team year : string) (over runs sr : Z) : entry_point :=
  set_entry_phase
    (mk_entry_point p team year (of_Z over) (of_Z runs) (of_Z sr)
       (of_Z 30) (of_Z 15) (of_Z 3) EmptyString).

(** One player with three entries in the death overs. *)
Definition test_p : list entry_point :=
  [ entry "Test P" "MI" "2024" 17 20 100;
    entry "Test P" "MI" "2024" 18 30 150;
    entry "Test P" "MI" "2025" 16 40 200 ].

(** A squad in which Virat Kohli has no namesake. *)
Definition squad : list entry_point :=
  [ entry "Virat Kohli" "RCB" "2024" 1 60 140;
    entry "Rohit Sharma" "MI" "2024" 1 35 130;
    entry "Virat Kohli" "RCB" "2025" 2 45 150;
    entry "MS Dhoni" "CSK" "2025" 17 25 180;
    entry "Hardik Pandya" "MI" "2025" 12 30 160 ].

(** The squad with a player whose name is closer to the misspelling. *)
Definition squad_with_kohl : list entry_point :=
  (squad ++ [ entry "Virat Kohl" "DC" "2025" 5 10 90 ])%list.

(** The squad with a player who has the misspelling for a name. *)
Definition squad_with_kohly : list entry_point :=
  (squad ++ [ entry "Virat Kohly" "GT" "2025" 8 12 95 ])%list.

(** The squad with the name written in capitals as well. *)
Definition squad_with_capitals : list entry_point :=
  (squad ++ [ entry "VIRAT KOHLI" "RCB" "2023" 3 50 120 ])%list.

(** A league of four players over two seasons: three of them enter in
    the death overs, one of these in the middle overs as well, and the
    fourth opens the innings. *)
Definition league : list entry_point :=
  [ entry "Andre Russell" "KKR" "2024" 17 30 130;
    entry "MS Dhoni" "CSK" "2024" 18 20 190;
    entry "Rinku Singh" "KKR" "2024" 16 25 210;
    entry "Virat Kohli" "RCB" "2024" 1 60 140;
    entry "Andre Russell" "KKR" "2024" 16 40 140;
    entry "MS Dhoni" "CSK" "2025" 19 15 200;
    entry "Rinku Singh" "KKR" "2025" 10 35 130;
    entry "Virat Kohli" "RCB" "2025" 2 45 150;
    entry "Andre Russell" "KKR" "2025" 18 50 150;
    entry "MS Dhoni" "CSK" "2025" 17 25 210;
    entry "Rinku Singh" "KKR" "2025" 17 20 230;
    entry "Virat Kohli" "RCB" "2025" 3 30 160;
    entry "Rinku Singh" "KKR" "2025" 12 30 140 ].

End Samples.

End Analyzer.


(** A Python dictionary with string keys, in insertion order: assigning to
    a key that is present keeps its place. *)
Fixpoint dict_set {V : Type} (d : list (string * V)) (k : string) (v : V)
  : list (string * V) :=
  match d with
  | [] => [(k, v)]
  | (k', v') :: rest =>
      if k' =? k then (k', v) :: rest else (k', v') :: dict_set rest k v
  end.

(** ** Further lookups of [CricketDataAnalyzer] *)

Module Lookups.
Import Analyzer.

(** *** Selecting rows by a column *)

(** The order of an ascending selection: smaller first, NaN last. *)
Definition sorts_before_asc (x y : number) : bool :=
  match y with
  | NaN => true
  | _ => match x with
         | NaN => false
         | _ => num_leb x y
         end
  end.

Fixpoint insert_row {A : Type} (before : A -> A -> bool) (r : A) (l : list A)
  : list A :=
  match l with
  | [] => [r]
  | h :: t => if before r h then r :: h :: t else h :: insert_row before r t
  end.

(** Rows in the order [before], rows that compare equal in the order
    they had. *)
Definition sort_rows {A : Type} (before : A -> A -> bool) (l : list A)
  : list A :=
  fold_right (insert_row before) [] l.

(** [DataFrame.nlargest(n, column)] for a positive [n] (keep='first'):
    the [n] rows with the largest values, largest first; rows whose value
    is NaN come last and fill the selection only when the other rows are
    fewer than [n]. *)
Definition nlargest {A : Type} (n : nat) (column : A -> number) (l : list A)
  : list A :=
  firstn n (sort_rows (fun r h => sorts_before (column r) (column h)) l).

(** [DataFrame.nsmallest(n, column)] *)
Definition nsmallest {A : Type} (n : nat) (column : A -> number) (l : list A)
  : list A :=
  firstn n (sort_rows (fun r h => sorts_before_asc (column r) (column h)) l).

(** [Series.value_counts().to_dict()] on a column of text: each value
    with the number of its occurrences, the most frequent first. *)
Definition value_counts (l : list string) : list (string * Z) :=
  sort_rows (fun c1 c2 => (snd c2 <=? snd c1)%Z)
            (map (fun v => (v, len_Z (filter (String.eqb v) l))) (unique l)).

(** [Series.str.contains(team_name, case=False, na=False)] for a name
    without regular-expression metacharacters. *)
Definition team_contains (team_name : string) (r : entry_point) : bool :=
  contains (lower team_name) (lower (Team r)).

Module PhaseSummary.

(** The dictionary returned by [get_phase_summary]. *)
Record phase_summary : Type := mk_phase_summary {
  phase : string;
  total_entries : Z;
  unique_players : Z;
  avg_strike_rate : number;
  avg_runs : number;
  avg_dot_pct : number;
  avg_bnd_pct : number
}.

End PhaseSummary.

Module Diverse.

(** An entry of the lists built by [_format_player_list]. *)
Record diverse_player : Type := mk_diverse_player {
  player : string;
  avg_strike_rate : number;
  avg_runs : number;
  matches : Z;
  dot_pct : number;
  bnd_pct : number;
  description : string
}.

(** The dictionary [categories] of [get_diverse_players_for_phase], its
    six keys in the order they are assigned. *)
Record categories : Type := mk_categories {
  aggressive_strikers : list diverse_player;
  consistent_scorers : list diverse_player;
  boundary_hitters : list diverse_player;
  strike_rotators : list diverse_player;
  experienced : list diverse_player;
  balanced : list diverse_player
}.

(** [categories.items()] *)
Definition items (c : categories) : list (string * list diverse_player) :=
  [ ("aggressive_strikers", aggressive_strikers c);
    ("consistent_scorers", consistent_scorers c);
    ("boundary_hitters", boundary_hitters c);
    ("strike_rotators", strike_rotators c);
    ("experienced", experienced c);
    ("balanced", balanced c) ].

End Diverse.

Module TeamStrategy.

(** A record of [top_performers]: the three columns kept at lines
    396-398. *)
Record top_performer : Type := mk_top_performer {
  top_Player : string;
  top_Final_Strike_Rate : number;
  top_Entry_Over : number
}.

(** The dictionary [strategy] of [get_team_strategy]. *)
Record team_strategy : Type := mk_team_strategy {
  team : string;
  total_entries : Z;
  avg_entry_over : number;
  phase_distribution : list (string * Z);
  top_performers : list top_performer
}.

End TeamStrategy.

Section Lookups.

Variable mean : list number -> number.
Variable round1 : number -> number.
Variable frame_round1 : number -> number.
Variable series_max : list number -> number.
Variable int_of_sum : list number -> Z.
Variable py_int : string -> option Z.

(** [get_phase_summary(phase)], lines 282-301. *)
Definition get_phase_summary (entry_points : list entry_point) (phase : string)
  : PhaseSummary.phase_summary :=
  let target_phase := target_phase_of phase in
  let filtered_data := phase_rows entry_points target_phase in
  PhaseSummary.mk_phase_summary
    target_phase
    (len_Z filtered_data)
    (len_Z (unique (map Player filtered_data)))
    (round1 (mean (map Final_Strike_Rate filtered_data)))
    (round1 (mean (map Runs filtered_data)))
    (round1 (mean (map Dot_Pct filtered_data)))
    (round1 (mean (map Bnd_Pct filtered_data))).

(** [compare_players(player_names)], lines 303-312: the summaries found,
    under the name each summary carries; an exception of a lookup ends
    the loop. *)
Definition compare_players (entry_points : list entry_point)
    (player_names : list string)
  : result (list (string * PlayerStats.player_stats)) :=
  fold_left
    (fun comparison name =>
       match comparison with
       | Raise e => Raise e
       | Ok comparison =>
           match get_player_stats mean round1 frame_round1 series_max
                                  int_of_sum py_int entry_points name with
           | Raise e => Raise e
           | Ok (Some stats) =>
               Ok (dict_set comparison (PlayerStats.name stats) stats)
           | Ok None => Ok comparison
           end
       end)
    player_names (Ok []).

(** [_format_player_list(df, description)], lines 367-380. *)
Definition _format_player_list (df : list performance) (description : string)
  : list Diverse.diverse_player :=
  map (fun row =>
         Diverse.mk_diverse_player
           (perf_Player row)
           (round1 (perf_Final_Strike_Rate row))
           (round1 (perf_Runs row))
           (perf_Entry_Over row)
           (round1 (perf_Dot_Pct row))
           (round1 (perf_Bnd_Pct row))
           description)
      df.

(** The frame [player_performance] of [get_diverse_players_for_phase]
    after the filter of line 333. *)
Definition diverse_performance (entry_points : list entry_point)
    (phase : string) (min_matches : Z) : list performance :=
  let target_phase := target_phase_of phase in
  let filtered_data := phase_rows entry_points target_phase in
  let player_performance := aggregate_players mean filtered_data in
  filter (fun r => (min_matches <=? perf_Entry_Over r)%Z) player_performance.

(** [get_diverse_players_for_phase(phase, min_matches)], lines 314-365. *)
Definition get_diverse_players_for_phase (entry_points : list entry_point)
    (phase : string) (min_matches : Z) : Diverse.categories :=
  let player_performance :=
    diverse_performance entry_points phase min_matches in
  let aggressive := nlargest 15 perf_Final_Strike_Rate player_performance in
  let consistent := nlargest 15 perf_Runs player_performance in
  let boundary := nlargest 15 perf_Bnd_Pct player_performance in
  let rotators := nsmallest 15 perf_Dot_Pct player_performance in
  let experienced :=
    nlargest 15 (fun r => of_Z (perf_Entry_Over r)) player_performance in
  let balanced :=
    nlargest 15 perf_Runs
      (filter (fun r => num_geb (perf_Final_Strike_Rate r) (of_Z 120)
                        && num_leb (perf_Final_Strike_Rate r) (of_Z 150))
              player_performance) in
  Diverse.mk_categories
    (_format_player_list aggressive "High strike rate")
    (_format_player_list consistent "High average runs")
    (_format_player_list boundary "High boundary %")
    (_format_player_list rotators "Low dot %, good rotation")
    (_format_player_list experienced "Most matches played")
    (_format_player_list balanced "Balanced SR 120-150").

(** [get_team_strategy(team_name)], lines 382-401; [None] stands for the
    empty dictionary returned when no row is of the team. *)
Definition get_team_strategy (entry_points : list entry_point)
    (team_name : string) : option TeamStrategy.team_strategy :=
  let team_data := filter (team_contains team_name) entry_points in
  match team_data with
  | [] => None
  | first_row :: _ =>
      Some (TeamStrategy.mk_team_strategy
              (Team first_row)
              (len_Z team_data)
              (round1 (mean (map Entry_Over team_data)))
              (value_counts (map Entry_Phase team_data))
              (map (fun r => TeamStrategy.mk_top_performer
                               (Player r) (Final_Strike_Rate r) (Entry_Over r))
                   (nlargest 5 Final_Strike_Rate team_data)))
  end.

End Lookups.

(** The lookups on exact aggregates, for worked examples. *)
Definition exact_phase_summary := get_phase_summary Exact.mean Exact.round1.

Definition exact_compare_players :=
  compare_players Exact.mean Exact.round1 Exact.round1 Exact.series_max
                  Exact.int_of_sum Exact.py_int.

Definition exact_diverse_players :=
  get_diverse_players_for_phase Exact.mean Exact.round1.

Definition exact_team_strategy := get_team_strategy Exact.mean Exact.round1.

End Lookups.


(** ** Question validator ([ReActCricketAgent._validate_question]) *)

(** The dictionary returned by [_validate_question]: the key [is_valid]
    and the key [message] (a [str] or [None]). *)
Record validation : Type := mk_validation {
  is_valid : bool;
  message : option string
}.

(** [available_data], source lines 416-421. *)
Definition available_data : list string :=
  [ "player names"; "teams"; "matches"; "overs"; "years";
    "runs"; "balls faced"; "strike rate"; "dot percentage";
    "boundary percentage"; "entry phase (powerplay/middle/death)";
    "innings duration"; "entry over"; "exit over" ].

(** [unavailable_concepts], source lines 424-434; the dictionary is read in
    insertion order, so it is kept as an association list. *)
Definition unavailable_concepts : list (string * list string) :=
  [ ("bowling_type", ["spin"; "pace"; "fast"; "seam"; "off-spin"; "leg-spin";
                      "left-arm"; "right-arm"]);
    ("bowler_identity", ["bowler"; "against"; "facing"]);
    ("ball_by_ball", ["ball-by-ball"; "delivery"; "specific ball"]);
    ("fielding", ["fielding"; "catches"; "run-outs"; "field placement"]);
    ("bowling_stats", ["wickets taken"; "economy rate"; "bowling average";
                       "bowling strike rate"]);
    ("match_outcome", ["win"; "loss"; "result"; "victory"]);
    ("venue", ["ground"; "stadium"; "venue"; "pitch"]);
    ("weather", ["weather"; "rain"; "dew"]);
    ("toss", ["toss"; "bat first"; "chase"]) ].

(** Words that excuse the keyword [against]: team words (line 443) and the
    player-comparison test (line 446). *)
Definition team_words : list string :=
  ["team"; "mi"; "csk"; "rcb"; "kkr"; "dc"; "pbks"; "rr"; "srh"; "gt"; "lsg"].

Definition comparison_names : list string :=
  ["kohli"; "rohit"; "dhoni"; "pandya"; "sharma"].

Definition against_allowed (question_lower : string) : bool :=
  any_in team_words question_lower
  || (contains "compare" question_lower
      || any_in comparison_names question_lower).

(** Lines 441-447: the keyword [against] is passed over ([continue]) when
    the question also has a team word or compares players. *)
Definition excused (keyword question_lower : string) : bool :=
  (keyword =? "against") && against_allowed question_lower.

(** The three message templates, source lines 453-475, 480-499, 504-518. *)
Definition bowling_type_message (keyword : string) : string :=
"
⚠️ **Question Out of Bounds**

Your question mentions **bowling type** (" ++ dq ++ keyword ++ dq ++ "), but our dataset doesn't contain this information.

**What we CAN analyze:**
- Player performance by **entry phase** (Powerplay overs 1-6, Middle overs 7-15, Death overs 16-20)
- Strike rates, runs, balls faced, dot%, boundary%
- Performance by team, year, and match
- Entry timing and innings duration

**What we CANNOT analyze:**
- Performance against specific bowling types (spin/pace)
- Performance against specific bowlers
- Ball-by-ball details

**Try asking instead:**
- " ++ dq ++ "Which players perform best in middle overs?" ++ dq ++ " (instead of " ++ dq ++ "against spin" ++ dq ++ ")
- " ++ dq ++ "Who are the best death-overs finishers?" ++ dq ++ "
- " ++ dq ++ "How does [player] perform in the powerplay?" ++ dq ++ "

**Available data fields:** " ++ join ", " available_data ++ "
".

Definition bowler_identity_message : string :=
"
⚠️ **Question Out of Bounds**

Your question asks about **specific bowlers or bowling matchups**, but our dataset only contains batting statistics.

**What we CAN analyze:**
- Batting performance by entry phase (Powerplay/Middle/Death)
- Player strike rates, runs, efficiency metrics
- Team and year-based analysis

**What we CANNOT analyze:**
- Performance against specific bowlers
- Bowler vs batsman matchups

**Try asking instead:**
- " ++ dq ++ "Which batsmen perform best in [phase]?" ++ dq ++ "
- " ++ dq ++ "How does [player] perform when entering in the death overs?" ++ dq ++ "

**Available data fields:** " ++ join ", " available_data ++ "
".

Definition other_concept_message (concept_type : string) : string :=
"
⚠️ **Question Out of Bounds**

Your question asks about **" ++ replace_char "_" " " concept_type ++ "**, which is not available in our dataset.

**What we CAN analyze:**
- Player batting performance by entry phase (Powerplay/Middle/Death)
- Strike rates, runs, balls faced, dot%, boundary%
- Performance by team, year, and match
- Entry timing and innings duration

**Available data fields:** " ++ join ", " available_data ++ "

**Try rephrasing your question** to focus on batting performance metrics and entry phases.
".

(** The rejection built at lines 450-519 for a keyword of [concept_type]. *)
Definition rejection (concept_type keyword : string) : validation :=
  if concept_type =? "bowling_type" then
    mk_validation false (Some (bowling_type_message keyword))
  else if concept_type =? "bowler_identity" then
    mk_validation false (Some bowler_identity_message)
  else
    mk_validation false (Some (other_concept_message concept_type)).

(** The inner loop over the keywords of one concept (lines 438-519):
    [None] when the loop falls through, [Some v] when it returns [v]. *)
Fixpoint scan_keywords (concept_type : string) (keywords : list string)
                       (question_lower : string) : option validation :=
  match keywords with
  | [] => None
  | keyword :: rest =>
      if contains keyword question_lower then
        if excused keyword question_lower
        then scan_keywords concept_type rest question_lower
        else Some (rejection concept_type keyword)
      else scan_keywords concept_type rest question_lower
  end.

(** The outer loop over the concepts (line 437). *)
Fixpoint scan_concepts (concepts : list (string * list string))
                       (question_lower : string) : option validation :=
  match concepts with
  | [] => None
  | (concept_type, keywords) :: rest =>
      match scan_keywords concept_type keywords question_lower with
      | Some v => Some v
      | None => scan_concepts rest question_lower
      end
  end.

Section Validator.

(** [str.lower]; the validator is read for every lower-casing function,
    [PyStr.lower] being the one of ASCII text. *)
Variable lower : string -> string.

Definition _validate_question (question : string) : validation :=
  let question_lower := lower question in
  match scan_concepts unavailable_concepts question_lower with
  | Some v => v
  | None => mk_validation true None
  end.

End Validator.

(** Every keyword of [unavailable_concepts]. *)
Definition forbidden_keywords : list string :=
  flat_map snd unavailable_concepts.

(** ** Entity extractor ([ReActCricketAgent._extract_entities]) *)

(** The dictionary built by [_extract_entities]. *)
Record entities : Type := mk_entities {
  players : list string;
  teams : list string;
  bowling_types : list string;
  phases : list string;
  intent : string
}.

(** [player_patterns], source lines 536-544. *)
Definition player_patterns : list string :=
  [ "\b(hardik\s*pandya?|pandya)\b";
    "\b(virat\s*kohli|kohli)\b";
    "\b(ms\s*dhoni|dhoni)\b";
    "\b(rohit\s*sharma|rohit)\b";
    "\b(kl\s*rahul|rahul)\b";
    "\b(david\s*warner|warner)\b";
    "\b(ab\s*de\s*villiers|abd)\b" ].

Section Extractor.

Variable lower : string -> string.
(** [re.findall(pattern, text)] of Python's [re] module, for a pattern
    with one group: the texts matched by the group. *)
Variable re_findall : string -> string -> list string.

Definition _extract_entities (question : string) : entities :=
  let question_lower := lower question in
  let players :=
    flat_map (fun pattern => re_findall pattern question_lower)
             player_patterns in
  let bowling_types :=
    ((if contains "spin" question_lower then ["spin"] else [])
     ++ (if contains "pace" question_lower || contains "fast" question_lower
         then ["pace"] else []))%list in
  let phases :=
    ((if contains "powerplay" question_lower
         || contains "power play" question_lower
      then ["powerplay"] else [])
     ++ (if contains "death" question_lower
            || contains "death over" question_lower
            || contains "final over" question_lower
            || contains "last over" question_lower
         then ["death"] else [])
     ++ (if contains "middle" question_lower
            || contains "middle over" question_lower
         then ["middle"] else []))%list in
  let intent :=
    if any_in ["when"; "should"; "deploy"; "play"] question_lower
    then "deployment"
    else if any_in ["best"; "top"; "who"] question_lower
    then "recommendation"
    else if any_in ["compare"; "vs"; "versus"] question_lower
    then "comparison"
    else "general" in
  mk_entities players [] bowling_types phases intent.

End Extractor.

(** ** Action planner ([ReActCricketAgent._reason_and_plan]) *)

Definition general_recommendation_phrases : list string :=
  [ "who are"; "who is best"; "best players"; "top players"; "best batsmen";
    "best bowlers"; "top performers"; "which players" ].

Definition batting_order_phrases : list string :=
  [ "batting order"; "batting lineup"; "batting line up"; "order for";
    "who should open"; "who should bat"; "lineup for"; "line up for";
    "optimal order"; "best order"; "batting positions"; "who bats where";
    "chasing"; "chase"; "defending"; "defend" ].

(** Truth value of a Python list. *)
Definition truthy {A : Type} (l : list A) : bool :=
  match l with [] => false | _ :: _ => true end.

Section Planner.

Variable lower : string -> string.

Definition is_general_recommendation (question : string) : bool :=
  any_in general_recommendation_phrases (lower question).

Definition is_batting_order_question (question : string) : bool :=
  any_in batting_order_phrases (lower question).

(** Lines 594-597: one statistics lookup per extracted player. *)
Definition player_actions (question : string) (e : entities) : list string :=
  if truthy (players e) && negb (is_general_recommendation question)
  then map (fun player => "get_player_stats:" ++ player) (players e)
  else [].

(** Lines 601-603: the note on bowling types. *)
Definition note_actions (e : entities) : list string :=
  if truthy (bowling_types e) then ["note:bowling_type_unavailable"] else [].

(** Lines 606-622: batting order, phases, or general recommendation. *)
Definition phase_actions (question : string) (e : entities) : list string :=
  if is_batting_order_question question then
    [ "get_diverse_players_for_phase:powerplay";
      "get_diverse_players_for_phase:middle";
      "get_diverse_players_for_phase:death" ]
  else if truthy (phases e) then
    map (fun phase => "get_best_players_for_phase:" ++ phase) (phases e)
  else if is_general_recommendation question
          || ((intent e =? "recommendation") && negb (truthy (players e)))
  then
    (if truthy (phases e)
     then map (fun phase => "get_best_players_for_phase:" ++ phase) (phases e)
     else ["get_best_players_for_phase:death"])
  else [].

Definition _reason_and_plan (question : string) (e : entities) : list string :=
  let actions :=
    (player_actions question e ++ note_actions e
     ++ phase_actions question e)%list in
  if negb (truthy actions)
  then (actions ++ ["get_best_players_for_phase:powerplay"])%list
  else actions.

End Planner.

(** ** Executing actions, generating the response, the session loop *)

(** What a call of the generative model's [generate_content] followed by
    reading [response.text] comes to: an exception (its [str]) or the text. *)
Inductive reply : Type :=
  | Raises (e : string)
  | Text (response_text : string).

(** The values [_execute_action] returns: [None], a text (the note on
    bowling types, or the text the handler of lines 663-664 makes of an
    exception), or what a lookup of the analyzer returned. *)
Inductive action_result : Type :=
  | RNone
  | RText (text : string)
  | RStats (stats : Analyzer.PlayerStats.player_stats)
  | RBest (rows : list Analyzer.best_player)
  | RDiverse (pools : Lookups.Diverse.categories)
  | RCompare (c : list (string * Analyzer.PlayerStats.player_stats))
  | RTeam (t : option Lookups.TeamStrategy.team_strategy).

(** Truth value of a result: [None], the empty text, the empty list and
    the empty dictionary are false.  A summary has its eighteen keys and
    the pools their six. *)
Definition truthy_result (result : action_result) : bool :=
  match result with
  | RNone => false
  | RText text => negb (text =? "")
  | RStats _ => true
  | RBest rows => truthy rows
  | RDiverse _ => true
  | RCompare c => truthy c
  | RTeam t => match t with Some _ => true | None => false end
  end.

(** [d.get(k)] on a dictionary in insertion order. *)
Fixpoint dict_get {V : Type} (d : list (string * V)) (k : string) : option V :=
  match d with
  | [] => None
  | (k', v) :: rest => if k' =? k then Some v else dict_get rest k
  end.

(** [enumerate(l, start)] *)
Fixpoint enumerate {A : Type} (start : Z) (l : list A) : list (Z * A) :=
  match l with
  | [] => []
  | x :: rest => (start, x) :: enumerate (start + 1) rest
  end.

(** [text * n] *)
Fixpoint repeat_text (text : string) (n : nat) : string :=
  match n with
  | O => EmptyString
  | S k => text ++ repeat_text text k
  end.

(** ** Observation builder ([ReActCricketAgent._analyze_results]) *)

Section Observations.

Import Analyzer Lookups.

(** [str.upper] and [str.title]. *)
Variable upper : string -> string.
Variable title : string -> string.
(** The text an f-string writes for a float. *)
Variable str_of_float : number -> string.
(** The text an f-string writes for the dictionary [phase_performance]. *)
Variable repr_phase_performance : list (string * list (string * number)) -> string.
(** [str(result)] for a result that is a list or a dictionary. *)
Variable repr_value : action_result -> string.

(** [str(result)] *)
Definition str_of_result (result : action_result) : string :=
  match result with
  | RText text => text
  | _ => repr_value result
  end.

(** Lines 709-713. *)
Definition limitation_notice (entities : entities) : string :=
"
⚠️ DATA LIMITATION NOTICE:
The question mentions bowling type (" ++ (join ", " (bowling_types entities)) ++ "), but the dataset does not contain bowling type information.
Analysis is based on ENTRY PHASE (Powerplay/Middle/Death) only, not specific bowling matchups.
".

(** Lines 749-754 and 757-762. *)
Definition recent_lines (w : PlayerStats.window) : string :=
"
- RECENT PERFORMANCE (" ++ (join ", " (PlayerStats.window_years w)) ++ "):
  * Matches: " ++ str_of_Z (PlayerStats.window_matches w) ++ "
  * Avg Strike Rate: " ++ str_of_float (PlayerStats.window_avg_sr w) ++ "
  * Avg Runs: " ++ str_of_float (PlayerStats.window_avg_runs w) ++ "
".

Definition historical_lines (w : PlayerStats.window) : string :=
"
- HISTORICAL PERFORMANCE (" ++ (join ", " (PlayerStats.window_years w)) ++ "):
  * Matches: " ++ str_of_Z (PlayerStats.window_matches w) ++ "
  * Avg Strike Rate: " ++ str_of_float (PlayerStats.window_avg_sr w) ++ "
  * Avg Runs: " ++ str_of_float (PlayerStats.window_avg_runs w) ++ "
".

(** Lines 727-762: the block of a player. *)
Definition player_block (result : PlayerStats.player_stats) : string :=
  let player := PlayerStats.name result in
  let obs :=
"
PLAYER DATA FOR " ++ upper player ++ ":
- Total Matches: " ++ str_of_Z (PlayerStats.total_matches result) ++ "
- Years Active: " ++ PlayerStats.years_span result ++ " (Most Recent: " ++ PlayerStats.most_recent_year result ++ ")
- Recency Status: " ++ PlayerStats.recency_status result ++ " (Score: " ++ str_of_float (PlayerStats.recency_score result) ++ ")
- Average Entry Over: " ++ str_of_float (PlayerStats.avg_entry_over result) ++ "
- Average Innings Duration: " ++ str_of_float (PlayerStats.avg_innings_duration result) ++ " overs
- Average Strike Rate: " ++ str_of_float (PlayerStats.avg_strike_rate result) ++ "
- Average Dot Ball %: " ++ str_of_float (PlayerStats.avg_dot_pct result) ++ "%
- Average Boundary %: " ++ str_of_float (PlayerStats.avg_bnd_pct result) ++ "%
- Total Runs: " ++ str_of_Z (PlayerStats.total_runs result) ++ "
- Avg Runs per Match: " ++ str_of_float (PlayerStats.avg_runs_per_match result) ++ "
- Best Strike Rate: " ++ str_of_float (PlayerStats.best_strike_rate result) ++ "
- Phase Breakdown: Powerplay=" ++ str_of_Z (PlayerStats.powerplay (PlayerStats.phase_breakdown result)) ++ ", Middle=" ++ str_of_Z (PlayerStats.middle (PlayerStats.phase_breakdown result)) ++ ", Death=" ++ str_of_Z (PlayerStats.death (PlayerStats.phase_breakdown result)) ++ "
- Phase Performance: " ++ repr_phase_performance (PlayerStats.phase_performance result) ++ "
" in
  let obs :=
    match PlayerStats.recent_performance result with
    | Some w => obs ++ recent_lines w
    | None => obs
    end in
  match PlayerStats.historical_performance result with
  | Some w => obs ++ historical_lines w
  | None => obs
  end.

(** Lines 767-776: the block of a leaderboard. *)
Definition top_performers_block (phase : string) (result : list best_player)
  : string :=
  let player_list :=
    map (fun p =>
           player p ++ " (SR: " ++ str_of_float (avg_strike_rate p) ++ ", "
           ++ str_of_Z (matches p) ++ " matches, Avg Runs: "
           ++ str_of_float (avg_runs p) ++ ")")
        result in
"
TOP PERFORMERS FOR " ++ upper phase ++ " PHASE:
" ++ join nl (map (fun ip => "  " ++ str_of_Z (fst ip) ++ ". " ++ snd ip)
                  (enumerate 1 player_list)) ++ "

Total players analyzed: " ++ str_of_Z (len_Z result) ++ "
".

(** Lines 789-791: the line of a player of a pool. *)
Definition pool_line (ip : Z * Diverse.diverse_player) : string :=
  let (i, p) := ip in
  "  " ++ str_of_Z i ++ ". " ++ Diverse.player p
  ++ " - SR: " ++ str_of_float (Diverse.avg_strike_rate p)
  ++ ", Runs: " ++ str_of_float (Diverse.avg_runs p) ++ ", "
  ++ "Matches: " ++ str_of_Z (Diverse.matches p)
  ++ ", Dot%: " ++ str_of_float (Diverse.dot_pct p)
  ++ ", Bnd%: " ++ str_of_float (Diverse.bnd_pct p) ++ nl.

(** Lines 786-791: the heading of a category and the lines of its
    players. *)
Definition category_lines (item : string * list Diverse.diverse_player)
  : string :=
  let (category, players) := item in
  let category_name := title (replace_char "_" " " category) in
  nl ++ category_name ++ ":" ++ nl
  ++ String.concat EmptyString (map pool_line (enumerate 1 players)).

(** Lines 780-795: the block of the pools of a phase. *)
Definition diverse_pool_block (phase : string) (result : Diverse.categories)
  : string :=
  nl ++ "DIVERSE PLAYER POOL FOR " ++ upper phase ++ " PHASE:" ++ nl
  ++ repeat_text "=" 60 ++ nl
  ++ String.concat EmptyString (map category_lines (Diverse.items result))
  ++ nl ++ "Total categories: " ++ str_of_Z (len_Z (Diverse.items result)) ++ nl
  ++ "Note: Players may appear in multiple categories based on their strengths"
  ++ nl.

(** One turn of the loop of lines 715-795: nothing to append ([Ok None]),
    a block to append, or the exception raised, named by its class.  A
    result of another kind than its action asks for is indexed or
    iterated as the code does it: the text of the handler, a list and a
    dictionary without the key raise. *)
Definition observe (action : string) (result : action_result)
  : Analyzer.result (option string) :=
  match result with
  | RNone => Ok None
  | _ =>
      if startswith action "note:" then Ok (Some (str_of_result result))
      else
        let action_type := hd EmptyString (split ":" action) in
        if (action_type =? "get_player_stats") && truthy_result result then
          match result with
          | RStats stats => Ok (Some (player_block stats))
          | RText _ | RBest _ => Raise "TypeError"
          | RCompare c =>
              match dict_get c "name" with
              | Some _ => Raise "AttributeError"
              | None => Raise "KeyError"
              end
          | RDiverse _ | RTeam _ => Raise "KeyError"
          | RNone => Ok None
          end
        else if (action_type =? "get_best_players_for_phase")
                && truthy_result result then
          match nth_error (split ":" action) 1 with
          | None => Raise "IndexError"
          | Some phase =>
              match result with
              | RBest rows => Ok (Some (top_performers_block phase rows))
              | _ => Raise "TypeError"
              end
          end
        else if (action_type =? "get_diverse_players_for_phase")
                && truthy_result result then
          match nth_error (split ":" action) 1 with
          | None => Raise "IndexError"
          | Some phase =>
              match result with
              | RDiverse pools => Ok (Some (diverse_pool_block phase pools))
              | RText _ | RBest _ => Raise "AttributeError"
              | _ => Raise "TypeError"
              end
          end
        else Ok None
  end.

(** The loop over [results.items()]: the blocks appended, or the first
    exception. *)
Fixpoint observe_all (results : list (string * action_result))
  : Analyzer.result (list string) :=
  match results with
  | [] => Ok []
  | (action, result) :: rest =>
      match observe action result with
      | Raise e => Raise e
      | Ok appended =>
          match observe_all rest with
          | Raise e => Raise e
          | Ok blocks =>
              Ok (match appended with
                  | Some obs => obs :: blocks
                  | None => blocks
                  end)
          end
      end
  end.

(** [_analyze_results(results, entities)], lines 703-797. *)
Definition _analyze_results (results : list (string * action_result))
    (entities : entities) : Analyzer.result string :=
  let notice :=
    if truthy (bowling_types entities) then [limitation_notice entities]
    else [] in
  match observe_all results with
  | Raise e => Raise e
  | Ok blocks =>
      let observations := (notice ++ blocks)%list in
      Ok (if truthy observations then join nl observations
          else "No specific data retrieved")
  end.

End Observations.

Section Agent.

Import Analyzer Lookups.

Variable lower : string -> string.
Variable re_findall : string -> string -> list string.
(** [json.dumps(entities, indent=2)] *)
Variable json_dumps : entities -> string.
Variable upper : string -> string.
Variable title : string -> string.
Variable str_of_float : number -> string.
Variable repr_phase_performance : list (string * list (string * number)) -> string.
Variable repr_value : action_result -> string.

(** The analyzer held by the agent: its lookups, with [min_matches] left
    at its default, are functions of the loaded dataset that return a
    value or raise; [Raise e] is an exception whose [str] is [e]. *)
Variable analyzer_get_player_stats
  : string -> Analyzer.result (option PlayerStats.player_stats).
Variable analyzer_get_best_players_for_phase
  : string -> Analyzer.result (list best_player).
Variable analyzer_get_diverse_players_for_phase
  : string -> Analyzer.result Diverse.categories.
Variable analyzer_compare_players
  : list string -> Analyzer.result (list (string * PlayerStats.player_stats)).
Variable analyzer_get_team_strategy
  : string -> Analyzer.result (option TeamStrategy.team_strategy).

(** The generative model: its state and its [generate_content]. *)
Variable AI : Type.
Variable generate_content : AI -> string -> AI * reply.

(** Lines 646-652: retry on the parts of the name; the loop ends at the
    first summary found, or with the exception of a lookup. *)
Fixpoint first_found (name_parts : list string)
  : Analyzer.result (option PlayerStats.player_stats) :=
  match name_parts with
  | [] => Ok None
  | name_part :: rest =>
      match analyzer_get_player_stats name_part with
      | Raise e => Raise e
      | Ok (Some stats) => Ok (Some stats)
      | Ok None => first_found rest
      end
  end.

(** Line 664: the text the handler returns. *)
Definition error_text (action e : string) : string :=
  "Error executing " ++ action ++ ": " ++ e.

(** What is returned for the outcome of a lookup: its value, or the text
    of the handler when it raised. *)
Definition returned {A : Type} (action : string) (wrap : A -> action_result)
    (outcome : Analyzer.result A) : action_result :=
  match outcome with
  | Raise e => RText (error_text action e)
  | Ok value => wrap value
  end.

(** [_execute_action], lines 630-666. *)
Definition _execute_action (action : string) : action_result :=
  if negb (contains ":" action) then RNone
  else
    let (action_type, param) := partition_first ":" action in
    if action_type =? "note" then
      if param =? "bowling_type_unavailable"
      then RText "IMPORTANT: Bowling type data (spin/pace) is not available in the dataset. Analysis is based on entry phase (Powerplay/Middle/Death) only."
      else RNone
    else if action_type =? "get_player_stats" then
      returned action
        (fun result => match result with
                       | Some stats => RStats stats
                       | None => RNone
                       end)
        (match analyzer_get_player_stats param with
         | Raise e => Raise e
         | Ok (Some stats) => Ok (Some stats)
         | Ok None => first_found (split_ws param)
         end)
    else if action_type =? "get_best_players_for_phase" then
      returned action RBest (analyzer_get_best_players_for_phase param)
    else if action_type =? "get_diverse_players_for_phase" then
      returned action RDiverse (analyzer_get_diverse_players_for_phase param)
    else if action_type =? "compare_players" then
      returned action RCompare (analyzer_compare_players (split "," param))
    else if action_type =? "get_team_strategy" then
      returned action RTeam (analyzer_get_team_strategy param)
    else RNone.

(** The handler of lines 663-664 made the result of [action]: a lookup
    raised an exception whose [str] is [e]. *)
Definition handler_returned (action e : string) : Prop :=
  _execute_action action = RText (error_text action e).

(** Lines 803-804: the names after the marker, up to the colon. *)
Definition players_with_data_of (observations : string) : list string :=
  let player_data_sections :=
    filter (fun line => contains "PLAYER DATA FOR" line)
           (split nl observations) in
  map (fun section =>
         strip (hd EmptyString
                  (split ":" (nth 1 (split "PLAYER DATA FOR" section)
                                    EmptyString))))
      player_data_sections.

Definition data_availability_of (observations : string) : string :=
  let players_with_data := players_with_data_of observations in
  if truthy players_with_data then join ", " players_with_data
  else if contains "TOP PERFORMERS FOR" observations
  then "Top performers data available (see observations)"
  else "None - general analysis only".

(** The prompt, source lines 817-912. *)
Definition prompt_of (question : string) (entities : entities)
                     (observations : string) : string :=
  let data_availability := data_availability_of observations in
"
You are an expert cricket strategy coach using ReAct methodology (Reasoning + Acting).

QUESTION: " ++ question ++ "

EXTRACTED ENTITIES: " ++ json_dumps entities ++ "

DATA ANALYSIS OBSERVATIONS:
" ++ observations ++ "

PLAYERS WITH ACTUAL DATA AVAILABLE: " ++ data_availability ++ "

⚠️ DATASET LIMITATIONS:
- The dataset contains: Player, Team, Match, Over, Runs, BF, Strike Rate, Dot%, Bnd%, Entry Phase
- The dataset DOES NOT contain: Bowling type (spin/pace), bowler names, ball-by-ball details
- If the question asks about " ++ dq ++ "spin" ++ dq ++ " or " ++ dq ++ "pace" ++ dq ++ ", you MUST clarify that we can only analyze by phase (Powerplay/Middle/Death)
- Analysis is based on WHEN players enter (phase), not WHO they face (bowling type)

🚨 CRITICAL VALIDATION RULES - YOU MUST FOLLOW THESE:

1. **MANDATORY DATA USAGE**: 
   - If " ++ dq ++ "PLAYER DATA FOR [NAME]" ++ dq ++ " appears, you MUST use that player's specific statistics
   - If " ++ dq ++ "TOP PERFORMERS FOR [PHASE]" ++ dq ++ " appears, you MUST reference those players and their stats
   - Quote ACTUAL numbers from the observations (strike rates, matches, etc.)
   - Base ALL recommendations on the data provided in observations
   - **FOR BATTING ORDER QUESTIONS**: Use players from ALL THREE phases (Powerplay, Middle, Death)

2. **BATTING ORDER SPECIFIC RULES**:
   - If the question asks for a " ++ dq ++ "batting order" ++ dq ++ " or " ++ dq ++ "lineup" ++ dq ++ ", you MUST recommend players for ALL positions (1-11)
   - You will receive DIVERSE PLAYER POOLS with different categories:
     * Aggressive Strikers: High strike rate players for quick scoring
     * Consistent Scorers: High average runs, reliable performers
     * Boundary Hitters: High boundary %, power hitters
     * Strike Rotators: Low dot %, good at rotating strike
     * Experienced: Most matches, proven track record
     * Balanced: SR 120-150, all-round contributors
   - Mix and match from these categories based on the match situation
   - For chasing 180+: Prioritize aggressive strikers and boundary hitters
   - For building innings: Use balanced players and strike rotators
   - For death overs: Use experienced finishers with high SR
   - DO NOT only pick from one category - create a balanced lineup

3. **FORBIDDEN REASONING PATTERNS**:
   ❌ " ++ dq ++ "No data available" ++ dq ++ " when observations contain TOP PERFORMERS
   ❌ " ++ dq ++ "Player X is not in the top 3, so they're not suitable" ++ dq ++ "
   ❌ Claiming to analyze " ++ dq ++ "against spin" ++ dq ++ " when we only have phase data
   ❌ Making recommendations without citing actual statistics from observations
   ❌ Ignoring the TOP PERFORMERS data when answering " ++ dq ++ "who is best" ++ dq ++ " questions
   ❌ Stopping at position 3 when asked for a full batting order

4. **REQUIRED REASONING PATTERNS**:
   ✅ " ++ dq ++ "Based on the data, the top death over performers are [names from observations]..." ++ dq ++ "
   ✅ " ++ dq ++ "Player X has SR [NUMBER] across [NUMBER] matches (from observations)..." ++ dq ++ "
   ✅ " ++ dq ++ "The TOP PERFORMERS data shows [specific players and their stats]..." ++ dq ++ "
   ✅ " ++ dq ++ "Comparing the provided statistics: [reference actual numbers]..." ++ dq ++ "
   ✅ " ++ dq ++ "For the middle order (positions 4-7), the data shows [list players with stats]..." ++ dq ++ "

5. **DATA-DRIVEN ANALYSIS FRAMEWORK**:
   - Start with the player's ACTUAL statistics
   - Analyze what those numbers mean for different match situations
   - Compare to phase averages or benchmarks (not just top performers)
   - Identify scenarios where their stats indicate effectiveness
   - Provide nuanced tactical recommendations based on their data

6. **RECENCY CONSIDERATION**:
   - ALWAYS note the player's recency status (ACTIVE, RECENT, HISTORICAL)
   - If player is HISTORICAL (retired/inactive), clearly state this upfront
   - For HISTORICAL players, acknowledge data is from past years
   - For ACTIVE players, emphasize current relevance
   - Compare recent vs historical performance when available

7. **SAMPLE SIZE CONSIDERATION**:
   - Always mention the number of matches in the player's data
   - Higher sample sizes (20+ matches) = more reliable patterns
   - Lower sample sizes (3-10 matches) = acknowledge limited data but still analyze what's there

8. **VALIDATION CHECK** (You must pass this):
   - If player data exists in observations, your response MUST quote at least 3 specific numbers from their data
   - Your response MUST explain what those numbers mean tactically
   - Your response MUST NOT rely solely on " ++ dq ++ "top performers" ++ dq ++ " comparisons
   - For batting order questions, you MUST recommend at least 11 players across all phases

EXAMPLE OF CORRECT RESPONSE (ACTIVE PLAYER):
" ++ dq ++ "Based on the data, [Player Name] is currently active (2025 season) with 45 matches and an 
average strike rate of 125.3. Their recent performance (2024-2025) shows 25 matches with SR 
130.2, indicating improving form. This makes them a strong current option for scenarios 
requiring 7-8 runs per over during middle overs." ++ dq ++ "

EXAMPLE OF CORRECT RESPONSE (RETIRED PLAYER):
" ++ dq ++ "Important Note: [Player Name] last played in 2022 (HISTORICAL status), so this analysis is 
based on past performance. During their career, they had 45 matches with SR 125.3. While they 
were effective for middle-over consolidation, you'll need to consider current squad members 
for active deployment decisions." ++ dq ++ "

Now provide your comprehensive, data-driven answer following ALL the rules above.
".

(** The simplified prompt, source lines 925-939. *)
Definition simplified_prompt_of (question observations : string) : string :=
"
You are a cricket coach. Answer this question using the player data below:

QUESTION: " ++ question ++ "

PLAYER DATA:
" ++ observations ++ "

Provide a clear answer that:
1. States the player's actual statistics (matches, strike rate, entry over)
2. Explains what those numbers mean for cricket strategy
3. Recommends when/how to use the player based on their data

Keep it conversational and practical.
".

(** The data-only answer of the handler, source lines 954-960. *)
Definition fallback_response (observations e : string) : string :=
"Based on the data analysis:

" ++ observations ++ "

Strategic Recommendation: The data shows specific performance metrics that should guide deployment decisions. Consider the player's actual strike rate, entry patterns, and match situations where their statistics indicate effectiveness.

(Note: Full AI analysis unavailable due to: " ++ e ++ ")".

(** The body of the [try] statement (lines 915-950): the model after the
    calls, and either the exception raised inside or the value returned. *)
Definition generate_response_try (ai : AI) (question : string)
    (entities : entities) (observations : string) : AI * (string + string) :=
  let players_with_data := players_with_data_of observations in
  match generate_content ai (prompt_of question entities observations) with
  | (ai1, Raises e) => (ai1, inl e)
  | (ai1, Text response_text) =>
      if truthy players_with_data then
        let response_lower := lower response_text in
        let second :=
          if startswith response_text "Based on the data analysis:"
             && contains observations response_text
          then generate_content ai1 (simplified_prompt_of question observations)
          else (ai1, Text response_text) in
        match second with
        | (ai2, Raises e) => (ai2, inl e)
        | (ai2, Text response_text2) =>
            if negb (existsb (fun player => contains (lower player) response_lower)
                             players_with_data)
            then (ai2, inr ("Analyzing " ++ join ", " players_with_data
                            ++ ":" ++ nl ++ nl ++ response_text2))
            else (ai2, inr response_text2)
        end
      else (ai1, inr response_text)
  end.

(** A call of [generate_content] made by [_generate_response] raises
    [exn]: the call on the prompt, or the second call, made on the
    simplified prompt when the first reply echoes the observations. *)
Inductive raises_in_generate (ai : AI) (question : string)
    (entities : entities) (observations : string) (exn : string) : Prop :=
  | first_call_raises (ai1 : AI) :
      generate_content ai (prompt_of question entities observations)
      = (ai1, Raises exn) ->
      raises_in_generate ai question entities observations exn
  | second_call_raises (ai1 ai2 : AI) (response_text : string) :
      generate_content ai (prompt_of question entities observations)
      = (ai1, Text response_text) ->
      truthy (players_with_data_of observations) = true ->
      startswith response_text "Based on the data analysis:"
      && contains observations response_text = true ->
      generate_content ai1 (simplified_prompt_of question observations)
      = (ai2, Raises exn) ->
      raises_in_generate ai question entities observations exn.

Definition _generate_response (ai : AI) (question : string)
    (entities : entities) (observations : string) : AI * string :=
  match generate_response_try ai question entities observations with
  | (ai', inr response_text) => (ai', response_text)
  | (ai', inl e) => (ai', fallback_response observations e)
  end.

(** One entry of [conversation_history], lines 693-699. *)
Record turn : Type := mk_turn {
  turn_question : string;
  turn_entities : entities;
  turn_actions : list string;
  turn_results : list (string * action_result);
  turn_answer : string
}.

(** The mutable part of the agent object. *)
Record agent : Type := mk_agent {
  ai_model : AI;
  conversation_history : list turn
}.

(** Lines 681-684: the results dictionary, filled action by action. *)
Definition run_actions (planned_actions : list string)
  : list (string * action_result) :=
  fold_left (fun action_results action =>
               dict_set action_results action (_execute_action action))
            planned_actions [].

(** [answer_question]: the agent after the call, and the value returned
    (a [str], or the [message] entry of the validation, which may be
    [None]) or the exception that leaves the method: nothing catches what
    [_analyze_results] raises, and then no turn is stored. *)
Definition answer_question (self : agent) (question : string)
  : agent * Analyzer.result (option string) :=
  let validation_result := _validate_question lower question in
  if negb (is_valid validation_result) then
    (self, Ok (message validation_result))
  else
    let entities := _extract_entities lower re_findall question in
    let planned_actions := _reason_and_plan lower question entities in
    let action_results := run_actions planned_actions in
    match _analyze_results upper title str_of_float repr_phase_performance
                           repr_value action_results entities with
    | Raise e => (self, Raise e)
    | Ok observations =>
        let (ai', final_answer) :=
          _generate_response (ai_model self) question entities observations in
        (mk_agent ai'
           (conversation_history self
            ++ [mk_turn question entities planned_actions action_results
                        final_answer])%list,
         Ok (Some final_answer))
    end.

(** What [answer_question] passes on: the entities, the plan, the results
    and the observations of a question. *)
Definition observations_of (question : string) : Analyzer.result string :=
  let entities := _extract_entities lower re_findall question in
  _analyze_results upper title str_of_float repr_phase_performance repr_value
    (run_actions (_reason_and_plan lower question entities)) entities.

End Agent.

Arguments mk_agent {AI}.
Arguments ai_model {AI}.
Arguments conversation_history {AI}.

(** *** A session to run

    An agent whose analyzer finds no player and no row, with a matcher
    that finds no name in the question, and two models: one that is out
    of quota and raises on every call, one that answers and counts its
    calls.  A second analyzer stands for a table without the column
    [Dot_Pct]: its leaderboards and pools raise [KeyError]. *)
Module Session.

Import Analyzer Lookups.

Definition no_names (pattern text : string) : list string := [].

Definition dumps (e : entities) : string := intent e.

(** Never called in a session whose analyzer has no row: there is no
    number to write. *)
Definition no_number (x : number) : string := EmptyString.

Definition no_performance (d : list (string * list (string * number))) : string :=
  EmptyString.

Definition no_value (result : action_result) : string := EmptyString.

Definition no_pools : Diverse.categories :=
  Diverse.mk_categories [] [] [] [] [] [].


Definition answering (calls : nat) (prompt : string) : nat * reply :=
  (S calls, Text "Based on the data, use the top performers listed.").


Definition ask (generate_content : nat -> string -> nat * reply) :=
  answer_question lower no_names dumps upper title no_number no_performance
    no_value
    (fun _ => Ok None) (fun _ => Ok []) (fun _ => Ok no_pools)
    (fun _ => Ok []) (fun _ => Ok None)
    nat generate_content.

(** The same agent on a processed table without the column [Dot_Pct]:
    the aggregation of lines 245-251 and 325-331 raises [KeyError], whose
    [str] is [key_error]. *)
Definition ask_without_dot_pct (key_error : string)
    (generate_content : nat -> string -> nat * reply) :=
  answer_question lower no_names dumps upper title no_number no_performance
    no_value
    (fun _ => Ok None) (fun _ => Raise key_error)
    (fun _ => Raise key_error)
    (fun _ => Ok []) (fun _ => Ok None)
    nat generate_content.

Definition fresh : agent nat := mk_agent O [].

End Session.

(** ** Questions asked one after another ([test_react_agent], lines 994-997) *)

Section Questions.

Import Analyzer Lookups.

Variable lower : string -> string.
Variable re_findall : string -> string -> list string.
Variable json_dumps : entities -> string.
Variable upper : string -> string.
Variable title : string -> string.
Variable str_of_float : number -> string.
Variable repr_phase_performance : list (string * list (string * number)) -> string.
Variable repr_value : action_result -> string.
Variable analyzer_get_player_stats
  : string -> Analyzer.result (option PlayerStats.player_stats).
Variable analyzer_get_best_players_for_phase
  : string -> Analyzer.result (list best_player).
Variable analyzer_get_diverse_players_for_phase
  : string -> Analyzer.result Diverse.categories.
Variable analyzer_compare_players
  : list string -> Analyzer.result (list (string * PlayerStats.player_stats)).
Variable analyzer_get_team_strategy
  : string -> Analyzer.result (option TeamStrategy.team_strategy).
Variable AI : Type.
Variable generate_content : AI -> string -> AI * reply.

(** [for question in test_questions: answer = agent.answer_question(question)]:
    the agent after the loop, the answers in the order they are printed,
    and the exception that ended the loop, if one did. *)
Fixpoint answer_questions (self : agent AI) (test_questions : list string)
  : agent AI * (list (option string) * option string) :=
  match test_questions with
  | [] => (self, ([], None))
  | question :: rest =>
      match answer_question lower re_findall json_dumps upper title
              str_of_float repr_phase_performance repr_value
              analyzer_get_player_stats analyzer_get_best_players_for_phase
              analyzer_get_diverse_players_for_phase analyzer_compare_players
              analyzer_get_team_strategy AI generate_content self question with
      | (self1, Raise e) => (self1, ([], Some e))
      | (self1, Ok answer) =>
          let (self2, rest_outcome) := answer_questions self1 rest in
          (self2, (answer :: fst rest_outcome, snd rest_outcome))
      end
  end.

End Questions.

(** *** A session with player data

    Observations that hold one line of player data, an analyzer that
    knows one surname of the sample squad, and two models that count
    their calls: one whose first reply has the format of the data-only
    answer, one that answers without naming anybody. *)
Module Replay.

Import Analyzer.

Definition observed : string :=
  "PLAYER DATA FOR VIRAT KOHLI:" ++ nl ++ "- Total Matches: 2".

Definition surname_only (player_name : string)
  : Analyzer.result (option PlayerStats.player_stats) :=
  if player_name =? "Kohli" then Exact.player_stats Samples.squad "Kohli"
  else Ok None.

(** The same lookup on a processed table without the column [Dot_Pct]:
    once the rows of a player are found, the aggregation of lines 202-207
    raises [KeyError]. *)
Definition without_dot_pct (player_name : string)
  : Analyzer.result (option PlayerStats.player_stats) :=
  match surname_only player_name with
  | Ok (Some _) => Raise "'Dot_Pct'"
  | outcome => outcome
  end.

Definition echoing (calls : nat) (prompt : string) : nat * reply :=
  (S calls,
   Text (if (calls =? 0)%nat then fallback_response observed "timeout"
         else "Kohli suits the powerplay.")).

Definition terse (calls : nat) (prompt : string) : nat * reply :=
  (S calls, Text "Use him early.").

End Replay.

(** ** What the lookups are read against

    The records of a player in a phase and the descending order of two
    numbers, written down from the description of the lookups, apart
    from the code that selects and sorts the rows. *)
Module Expected.
Import Analyzer.

(** The names the phases are asked by, and their values in the column
    [Entry_Phase]. *)
Definition phase_names : list (string * string) :=
  [ ("powerplay", "Powerplay"); ("middle", "Middle"); ("death", "Death") ].

(** The value of [Entry_Phase] meant by [phase]: letter case aside, one
    of the three names; any other text stands for itself. *)
Definition phase_name_of (phase : string) : string :=
  match find (fun entry => fst entry =? lower phase) phase_names with
  | Some entry => snd entry
  | None => phase
  end.

(** The entry-point records of player [p] in the phase [phase_name]. *)
Definition records_in_phase (entry_points : list entry_point)
    (phase_name p : string) : list entry_point :=
  filter (fun r => (Player r =? p) && (Entry_Phase r =? phase_name))
         entry_points.

(** [x] may stand before [y] in a descending order: [y] is not larger,
    and a NaN stands behind every number. *)
Definition descending (x y : number) : Prop :=
  match x, y with
  | _, NaN => True
  | NaN, _ => False
  | PosInf, _ => True
  | _, NegInf => True
  | Finite a, Finite b => (b <= a)%Q
  | _, _ => False
  end.

End Expected.

(** * Properties *)

(** ** Substrings *)

Module PyStrFacts.

Lemma prefix_app (p t : string) : String.prefix p (p ++ t) = true.
Proof.
  induction p as [|c p IH]; simpl.
  - now destruct t.
  - destruct (ascii_dec c c) as [_|ne]; [exact IH | now elim ne].
Qed.

Lemma prefix_inv (p s : string) :
  String.prefix p s = true -> exists t, s = p ++ t.
Proof.
  revert s; induction p as [|c p IH]; intros s H.
  - now exists s.
  - destruct s as [|d s]; simpl in H; [discriminate|].
    destruct (ascii_dec c d) as [->|]; [|discriminate].
    destruct (IH s H) as [t ->]. now exists t.
Qed.

Lemma contains_empty (sub : string) :
  contains sub "" = String.prefix sub "".
Proof. unfold contains. now destruct (String.prefix sub ""). Qed.

Lemma contains_cons (sub : string) (c : ascii) (s : string) :
  contains sub (String c s)
  = String.prefix sub (String c s) || contains sub s.
Proof.
  change (contains sub (String c s)) with
    (if String.prefix sub (String c s) then true else contains sub s).
  now destruct (String.prefix sub (String c s)).
Qed.

(** [contains] is the substring test: [sub in s]. *)
Lemma contains_iff (sub s : string) :
  contains sub s = true <-> exists a b, s = a ++ sub ++ b.
Proof.
  split.
  - induction s as [|c s IH]; intros H.
    + rewrite contains_empty in H.
      destruct (prefix_inv _ _ H) as [t Ht]. now exists "", t.
    + rewrite contains_cons in H. apply orb_true_iff in H as [H|H].
      * destruct (prefix_inv _ _ H) as [t Ht]. now exists "", t.
      * destruct (IH H) as (a & b & ->). now exists (String c a), b.
  - intros (a & b & ->). induction a as [|c a IH].
    + assert (E : String.prefix sub (sub ++ b) = true) by apply prefix_app.
      simpl. destruct (sub ++ b) as [|d r].
      * now rewrite contains_empty.
      * now rewrite contains_cons, E.
    + cbn [append]. rewrite contains_cons, IH. apply orb_true_r.
Qed.

Lemma contains_middle (a sub b : string) : contains sub (a ++ sub ++ b) = true.
Proof. apply contains_iff. now exists a, b. Qed.

Lemma any_in_true (words : list string) (s w : string) :
  In w words -> contains w s = true -> any_in words s = true.
Proof.
  intros Hin Hc. unfold any_in. apply existsb_exists. now exists w.
Qed.

Lemma any_in_false (words : list string) (s : string) :
  (forall w, In w words -> contains w s = false) -> any_in words s = false.
Proof.
  intros H. unfold any_in.
  destruct (existsb _ words) eqn:E; [|reflexivity].
  apply existsb_exists in E as (w & Hin & Hc).
  rewrite (H w Hin) in Hc. discriminate.
Qed.

Lemma lower_app (s t : string) : lower (s ++ t) = lower s ++ lower t.
Proof. induction s as [|c s IH]; simpl; [reflexivity | now rewrite IH]. Qed.

(** Lower-casing keeps what a text contains. *)
Lemma contains_lower (sub s : string) :
  contains sub s = true -> contains (lower sub) (lower s) = true.
Proof.
  intros H. apply contains_iff in H as (a & b & ->).
  rewrite !lower_app. apply contains_middle.
Qed.

End PyStrFacts.

(** * Further properties *)

(** ** Text *)

Module PyStrMore.

Lemma app_assoc_str (a b c : string) : (a ++ b) ++ c = a ++ b ++ c.
Proof. induction a as [|x a IH]; simpl; [reflexivity | now rewrite IH]. Qed.

Lemma app_empty_r (a : string) : a ++ "" = a.
Proof. induction a as [|x a IH]; simpl; [reflexivity | now rewrite IH]. Qed.

Lemma contains_app_r (sub a b : string) :
  contains sub b = true -> contains sub (a ++ b) = true.
Proof.
  intros H. apply PyStrFacts.contains_iff in H as (x & y & ->).
  apply PyStrFacts.contains_iff. exists (a ++ x), y.
  now rewrite app_assoc_str.
Qed.

Lemma contains_app_l (sub a b : string) :
  contains sub a = true -> contains sub (a ++ b) = true.
Proof.
  intros H. apply PyStrFacts.contains_iff in H as (x & y & ->).
  apply PyStrFacts.contains_iff. exists x, (y ++ b).
  now rewrite !app_assoc_str.
Qed.

Lemma contains_self_app (a b : string) : contains a (a ++ b) = true.
Proof. apply PyStrFacts.contains_iff. now exists "", b. Qed.

Lemma contains_trans (a b c : string) :
  contains a b = true -> contains b c = true -> contains a c = true.
Proof.
  intros Hab Hbc. apply PyStrFacts.contains_iff in Hbc as (x & y & ->).
  now apply contains_app_r, contains_app_l.
Qed.

(** Every piece of [s.split(sep)] is a part of [s]. *)
Lemma split_go_piece (sep s : string) (skip : nat) (cur piece : string) :
  skip = O \/ cur = "" ->
  In piece (split_go sep s skip cur) ->
  contains piece (cur ++ s) = true.
Proof.
  revert skip cur. induction s as [|c rest IH]; intros skip cur Hinv Hin.
  - simpl in Hin. destruct Hin as [<-|[]]. apply contains_self_app.
  - cbn [split_go] in Hin. destruct skip as [|k].
    + destruct (String.prefix sep (String c rest)).
      * destruct Hin as [<-|Hin]; [apply contains_self_app|].
        apply contains_app_r. rewrite PyStrFacts.contains_cons.
        apply orb_true_iff. right.
        apply (IH _ "" (or_intror eq_refl) Hin).
      * apply (IH _ _ (or_introl eq_refl)) in Hin.
        now rewrite app_assoc_str in Hin.
    + destruct Hinv as [Hk| ->]; [discriminate|].
      apply (IH _ "" (or_intror eq_refl)) in Hin. cbn [append] in *.
      rewrite PyStrFacts.contains_cons. apply orb_true_iff. now right.
Qed.

Lemma split_piece (sep s piece : string) :
  In piece (split sep s) -> contains piece s = true.
Proof. intros H. apply (split_go_piece sep s O "" piece (or_introl eq_refl) H). Qed.

(** A text is part of the join of a list that holds it. *)
Lemma join_contains (sep : string) (parts : list string) (p : string) :
  In p parts -> contains p (join sep parts) = true.
Proof.
  unfold join. induction parts as [|x l IH]; intros Hin; [destruct Hin|].
  destruct l as [|y l].
  - destruct Hin as [->|[]]. simpl.
    apply PyStrFacts.contains_iff. exists "", "". simpl.
    now rewrite app_empty_r.
  - change (String.concat sep (x :: y :: l))
      with (x ++ sep ++ String.concat sep (y :: l)).
    destruct Hin as [->|Hin]; [apply contains_self_app|].
    now apply contains_app_r, contains_app_r, IH.
Qed.

Lemma substring_all (s : string) (n : nat) :
  (String.length s <= n)%nat -> String.substring 0 n s = s.
Proof.
  revert n. induction s as [|c s IH]; intros [|n] H; simpl in *;
    try reflexivity; try lia.
  rewrite IH; [reflexivity | lia].
Qed.

Lemma partition_first_cons (sep : string) (c : ascii) (s : string) :
  partition_first sep (String c s)
  = if String.prefix sep (String c s)
    then ("", String.substring (String.length sep)
                (String.length (String c s)) (String c s))
    else let (before, after) := partition_first sep s in
         (String c before, after).
Proof. reflexivity. Qed.

Lemma prefix_colon (c : ascii) (s : string) :
  String.prefix ":" (String c s) = Ascii.eqb c ":".
Proof.
  change (String.prefix ":" (String c s))
    with (if ascii_dec ":" c then String.prefix "" s else false).
  destruct (ascii_dec ":" c) as [<-|ne].
  - now destruct s.
  - symmetry. apply Ascii.eqb_neq. congruence.
Qed.

(** Splitting [kind ++ ":" ++ param] at the first colon gives back the
    kind and the parameter, when the kind has no colon. *)
Lemma partition_first_colon (kind param : string) :
  contains ":" kind = false ->
  partition_first ":" (kind ++ ":" ++ param) = (kind, param).
Proof.
  induction kind as [|c kind IH]; intros H.
  - cbn [append]. rewrite partition_first_cons, prefix_colon.
    cbn [Ascii.eqb Bool.eqb]. f_equal.
    change (String.substring (String.length ":")
              (String.length (String ":" param)) (String ":" param))
      with (String.substring 0 (S (String.length param)) param).
    apply substring_all. lia.
  - rewrite PyStrFacts.contains_cons in H.
    apply orb_false_iff in H as [Hp Hr].
    change (String c kind ++ ":" ++ param)
      with (String c (kind ++ ":" ++ param)).
    rewrite partition_first_cons.
    rewrite prefix_colon in Hp |- *. rewrite Hp, (IH Hr). reflexivity.
Qed.

End PyStrMore.

(** ** The question validator *)

Lemma rejection_is_invalid (concept_type keyword : string) :
  is_valid (rejection concept_type keyword) = false.
Proof.
  unfold rejection.
  destruct (concept_type =? "bowling_type");
    [|destruct (concept_type =? "bowler_identity")]; reflexivity.
Qed.

Lemma rejection_has_message (concept_type keyword : string) :
  exists m, message (rejection concept_type keyword) = Some m /\ m <> "".
Proof.
  unfold rejection.
  destruct (concept_type =? "bowling_type");
    [|destruct (concept_type =? "bowler_identity")];
    (eexists; split; [reflexivity | discriminate]).
Qed.

(** The inner loop returns as soon as a keyword occurs that is not
    excused. *)
Lemma scan_keywords_hit (concept_type : string) (keywords : list string)
    (ql keyword : string) :
  In keyword keywords ->
  contains keyword ql = true ->
  excused keyword ql = false ->
  exists k, scan_keywords concept_type keywords ql = Some (rejection concept_type k).
Proof.
  induction keywords as [|k rest IH]; intros Hin Hc Hx; [destruct Hin|].
  simpl. destruct Hin as [->|Hin].
  - rewrite Hc, Hx. now exists keyword.
  - destruct (contains k ql); [destruct (excused k ql)|]; eauto.
Qed.


Lemma scan_keywords_some (concept_type : string) (keywords : list string)
    (ql : string) (v : validation) :
  scan_keywords concept_type keywords ql = Some v ->
  exists k, v = rejection concept_type k.
Proof.
  induction keywords as [|k rest IH]; simpl; [discriminate|].
  destruct (contains k ql); [destruct (excused k ql)|]; auto.
  intros [= <-]. now exists k.
Qed.

Lemma scan_concepts_some (concepts : list (string * list string))
    (ql : string) (v : validation) :
  scan_concepts concepts ql = Some v ->
  exists c k, v = rejection c k.
Proof.
  induction concepts as [|[c kws] rest IH]; simpl; [discriminate|].
  destruct (scan_keywords c kws ql) eqn:E; auto.
  intros [= <-]. apply scan_keywords_some in E as [k ->]. now exists c, k.
Qed.

Lemma scan_concepts_hit (concepts : list (string * list string))
    (ql keyword : string) :
  In keyword (flat_map snd concepts) ->
  contains keyword ql = true ->
  excused keyword ql = false ->
  exists c k, scan_concepts concepts ql = Some (rejection c k).
Proof.
  induction concepts as [|[c kws] rest IH]; intros Hin Hc Hx; [destruct Hin|].
  simpl in Hin. apply in_app_or in Hin. simpl.
  destruct (scan_keywords c kws ql) eqn:E.
  - apply scan_keywords_some in E as [k ->]. now exists c, k.
  - destruct Hin as [Hin|Hin]; [|now apply IH].
    destruct (scan_keywords_hit c kws ql keyword Hin Hc Hx) as [k Hk].
    rewrite Hk in E. discriminate.
Qed.


Section ValidatorFacts.

Variable lower : string -> string.

(** A keyword that occurs and is not excused makes the question invalid,
    with a message. *)
Lemma validate_question_hit (question keyword : string) :
  In keyword forbidden_keywords ->
  contains keyword (lower question) = true ->
  (keyword = "against" -> against_allowed (lower question) = false) ->
  is_valid (_validate_question lower question) = false
  /\ exists m, message (_validate_question lower question) = Some m /\ m <> "".
Proof.
  unfold _validate_question, forbidden_keywords. intros Hin Hc Hx.
  assert (Hx' : excused keyword (lower question) = false).
  { unfold excused. destruct (keyword =? "against") eqn:E; [|reflexivity].
    apply String.eqb_eq in E. now rewrite (Hx E). }
  destruct (scan_concepts_hit _ _ _ Hin Hc Hx') as (c & k & ->).
  split; [apply rejection_is_invalid | apply rejection_has_message].
Qed.


(** Only the keyword [against] is ever excused. *)
Lemma excused_only_against (keyword ql : string) :
  keyword <> "against" -> excused keyword ql = false.
Proof.
  intros H. unfold excused.
  destruct (keyword =? "against") eqn:E; [|reflexivity].
  apply String.eqb_eq in E. contradiction.
Qed.

End ValidatorFacts.

(** On ASCII text the keywords are in lower case already, so a keyword
    other than [against] that stands in the question as it was typed makes
    it invalid. *)
Lemma typed_keyword_rejected (question keyword : string) :
  In keyword forbidden_keywords ->
  keyword <> "against" ->
  contains keyword question = true ->
  is_valid (_validate_question lower question) = false.
Proof.
  intros Hin Hne Hc.
  assert (Hl : lower keyword = keyword).
  { unfold forbidden_keywords in Hin. cbn [flat_map snd unavailable_concepts app] in Hin.
    repeat (destruct Hin as [<-|Hin]; [reflexivity|]). destruct Hin. }
  apply (validate_question_hit lower question keyword Hin).
  - rewrite <- Hl. now apply PyStrFacts.contains_lower.
  - intros E. contradiction.
Qed.


(** C6 (as stated, refuted).  The question about the economy rate of
    Test Bowler is rejected, but its message names neither the bowling
    type nor the economy, in any letter case: the keyword [bowler] of the
    concept [bowler_identity] is met before [economy rate]. *)
Lemma economy_question_message_counterexample :
  ~ (is_valid (_validate_question lower "What is the economy rate of Test Bowler?")
     = false
     /\ exists m,
         message (_validate_question lower "What is the economy rate of Test Bowler?")
         = Some m
         /\ (contains "bowling type" (lower m) = true
             \/ contains "economy" (lower m) = true)).
Proof.
  intros (_ & m & Hm & H).
  vm_compute in Hm. injection Hm as <-.
  destruct H as [H|H]; vm_compute in H; discriminate H.
Qed.

(** C6 (amended).  The question is rejected, and the message returned is
    the one of the concept [bowler_identity]: it says that specific
    bowlers or bowling matchups are not in the dataset. *)
Theorem economy_question_rejected_as_bowler_identity :
  _validate_question lower "What is the economy rate of Test Bowler?"
  = mk_validation false (Some bowler_identity_message)
  /\ contains "asks about **specific bowlers or bowling matchups**, but our dataset only contains batting statistics"
              bowler_identity_message = true.
Proof. split; vm_compute; reflexivity. Qed.

(** ** The action planner *)

(** C2 (as stated, refuted).  No rule plans a lookup for this question
    and these entities, a note on the bowling type is inserted, and the
    plan is that note alone: no Powerplay lookup is added. *)
Lemma plan_note_only_counterexample :
  let question := "How do I handle spin?" in
  let e := mk_entities [] [] ["spin"] [] "general" in
  _extract_entities lower (fun _ _ => []) question = e
  /\ player_actions lower question e = []
  /\ phase_actions lower question e = []
  /\ _reason_and_plan lower question e = ["note:bowling_type_unavailable"]
  /\ ~ In "get_best_players_for_phase:powerplay"
          (_reason_and_plan lower question e).
Proof.
  repeat split; try (vm_compute; reflexivity).
  vm_compute. intros [H|[]]. discriminate H.
Qed.

Section PlannerFacts.

Variable lower : string -> string.

(** C2 (amended).  When none of the rules plans a lookup, the plan is the
    single Powerplay lookup if no bowling type was extracted, and the
    single note on the bowling type otherwise: the default is added only
    to an empty list of actions. *)
Theorem plan_default_when_no_rule_fires (question : string) (e : entities) :
  player_actions lower question e = [] ->
  phase_actions lower question e = [] ->
  _reason_and_plan lower question e
  = if truthy (bowling_types e)
    then ["note:bowling_type_unavailable"]
    else ["get_best_players_for_phase:powerplay"].
Proof.
  intros Hp Hph. unfold _reason_and_plan. rewrite Hp, Hph.
  unfold note_actions. now destruct (truthy (bowling_types e)).
Qed.

End PlannerFacts.

Lemma plan_default_when_no_rule_fires_witness :
  _reason_and_plan lower "Tell me about the season"
                   (mk_entities [] [] [] [] "general")
  = ["get_best_players_for_phase:powerplay"]
  /\ _reason_and_plan lower "How do I handle spin?"
                      (mk_entities [] [] ["spin"] [] "general")
     = ["note:bowling_type_unavailable"].
Proof.
  split.
  - apply (plan_default_when_no_rule_fires lower "Tell me about the season"
             (mk_entities [] [] [] [] "general")); reflexivity.
  - apply (plan_default_when_no_rule_fires lower "How do I handle spin?"
             (mk_entities [] [] ["spin"] [] "general")); reflexivity.
Defined.

(** ** From the question to the planned actions *)

Module PipelineMore.
Import PyStrMore.

Lemma truthy_false_nil {A : Type} (l : list A) : truthy l = false -> l = [].
Proof. destruct l; [reflexivity | discriminate]. Qed.

Section Plans.

Variable lower : string -> string.
Variable re_findall : string -> string -> list string.

Local Abbreviation extract := (_extract_entities lower re_findall).
Local Abbreviation plan := (_reason_and_plan lower).

(** A valid question holds no keyword other than [against]. *)
Lemma valid_question_keyword_free (question keyword : string) :
  is_valid (_validate_question lower question) = true ->
  In keyword forbidden_keywords ->
  keyword <> "against" ->
  contains keyword (lower question) = false.
Proof.
  intros Hv Hin Hne. destruct (contains keyword (lower question)) eqn:E;
    [|reflexivity].
  destruct (validate_question_hit lower question keyword Hin E) as [H _].
  - intros ->. contradiction.
  - rewrite H in Hv. discriminate.
Qed.

Lemma extracted_phases (question phase : string) :
  In phase (phases (extract question)) ->
  In phase ["powerplay"; "middle"; "death"].
Proof.
  unfold _extract_entities. cbn [phases]. intros H.
  repeat (apply in_app_or in H as [H|H]);
    match type of H with
    | In _ (if ?c then _ else _) => destruct c
    end; simpl in *; tauto.
Qed.

Lemma extracted_players (question p : string) :
  In p (players (extract question)) ->
  exists pattern, In pattern player_patterns
                  /\ In p (re_findall pattern (lower question)).
Proof.
  unfold _extract_entities. cbn [players]. intros H.
  apply in_flat_map in H as (pattern & Hp & Hin). now exists pattern.
Qed.

(** Where each action of a plan comes from. *)
Lemma plan_In (question : string) (e : entities) (action : string) :
  In action (plan question e) ->
  (exists p, In p (players e) /\ action = "get_player_stats:" ++ p)
  \/ (bowling_types e <> [] /\ action = "note:bowling_type_unavailable")
  \/ (is_batting_order_question lower question = true
      /\ In action [ "get_diverse_players_for_phase:powerplay";
                     "get_diverse_players_for_phase:middle";
                     "get_diverse_players_for_phase:death" ])
  \/ (is_batting_order_question lower question = false
      /\ exists phase, In phase (phases e)
                       /\ action = "get_best_players_for_phase:" ++ phase)
  \/ (is_batting_order_question lower question = false
      /\ phases e = []
      /\ In action [ "get_best_players_for_phase:death";
                     "get_best_players_for_phase:powerplay" ]).
Proof.
  unfold _reason_and_plan. cbv zeta.
  assert (Hcore :
    In action (player_actions lower question e ++ note_actions e
               ++ phase_actions lower question e)%list ->
    (exists p, In p (players e) /\ action = "get_player_stats:" ++ p)
    \/ (bowling_types e <> [] /\ action = "note:bowling_type_unavailable")
    \/ (is_batting_order_question lower question = true
        /\ In action [ "get_diverse_players_for_phase:powerplay";
                       "get_diverse_players_for_phase:middle";
                       "get_diverse_players_for_phase:death" ])
    \/ (is_batting_order_question lower question = false
        /\ exists phase, In phase (phases e)
                         /\ action = "get_best_players_for_phase:" ++ phase)
    \/ (is_batting_order_question lower question = false
        /\ phases e = []
        /\ In action [ "get_best_players_for_phase:death";
                       "get_best_players_for_phase:powerplay" ])).
  { intros H. apply in_app_or in H as [H|H]; [|apply in_app_or in H as [H|H]].
    - left. unfold player_actions in H.
      destruct (truthy (players e) && negb (is_general_recommendation lower question));
        [|destruct H].
      apply in_map_iff in H as (p & <- & Hp). now exists p.
    - right; left. unfold note_actions in H.
      destruct (bowling_types e) as [|b bs]; [destruct H|].
      destruct H as [<-|[]]. split; [discriminate | reflexivity].
    - right; right. unfold phase_actions in H.
      destruct (is_batting_order_question lower question) eqn:Eb;
        [left; now split|].
      right. destruct (truthy (phases e)) eqn:Ep.
      + left. split; [reflexivity|].
        apply in_map_iff in H as (ph & <- & Hph). now exists ph.
      + right. apply truthy_false_nil in Ep.
        destruct (is_general_recommendation lower question
                  || (intent e =? "recommendation") && negb (truthy (players e)));
          [|destruct H].
        destruct H as [<-|[]]. repeat split; [exact Ep | now left]. }
  destruct (negb (truthy (player_actions lower question e ++ note_actions e
                          ++ phase_actions lower question e))) eqn:Et;
    [|exact Hcore].
  apply negb_true_iff, truthy_false_nil in Et. rewrite Et. cbn [app].
  intros [<-|[]].
  apply app_eq_nil in Et as [_ Et]. apply app_eq_nil in Et as [_ Et].
  unfold phase_actions in Et.
  destruct (is_batting_order_question lower question); [discriminate|].
  destruct (truthy (phases e)) eqn:Ep.
  - destruct (phases e); discriminate.
  - apply truthy_false_nil in Ep. right; right; right; right.
    repeat split; [exact Ep | right; now left].
Qed.

Lemma plan_not_nil (question : string) (e : entities) : plan question e <> [].
Proof.
  unfold _reason_and_plan. cbv zeta.
  destruct (player_actions lower question e ++ note_actions e
            ++ phase_actions lower question e)%list eqn:E; simpl;
    discriminate.
Qed.

(** A valid question mentions no bowling type. *)
Lemma valid_question_no_bowling_types (question : string) :
  is_valid (_validate_question lower question) = true ->
  bowling_types (extract question) = [].
Proof.
  intros Hv.
  assert (Hk : forall k, In k ["spin"; "pace"; "fast"] ->
                         contains k (lower question) = false).
  { intros k Hk. apply valid_question_keyword_free; [exact Hv| |].
    - unfold forbidden_keywords. cbn [flat_map snd unavailable_concepts app].
      simpl in Hk. simpl. tauto.
    - simpl in Hk. intros ->.
      repeat (destruct Hk as [Hk|Hk]; [discriminate Hk|]). exact Hk. }
  unfold _extract_entities. cbn [bowling_types].
  rewrite (Hk "spin"), (Hk "pace"), (Hk "fast") by (simpl; tauto).
  reflexivity.
Qed.

(** X4.  A valid question mentions no bowling type, so the extractor
    finds none and the plan of the session loop never holds the note on
    bowling types. *)
Theorem valid_question_plans_no_note (question : string) :
  is_valid (_validate_question lower question) = true ->
  bowling_types (extract question) = []
  /\ ~ In "note:bowling_type_unavailable" (plan question (extract question)).
Proof.
  intros Hv.
  pose proof (valid_question_no_bowling_types question Hv) as Hb.
  split; [exact Hb|]. intros Hin.
  apply plan_In in Hin
    as [(p & _ & H) | [[H _] | [[_ H] | [(_ & ph & _ & H) | (_ & _ & H)]]]].
  - discriminate H.
  - now apply H.
  - simpl in H. repeat (destruct H as [H|H]; [discriminate H|]). exact H.
  - discriminate H.
  - simpl in H. repeat (destruct H as [H|H]; [discriminate H|]). exact H.
Qed.

(** X5.  The plan made for the extracted entities is never empty, and
    each of its actions is a statistics lookup for a name the patterns
    found in the lower-cased question, or one of seven fixed actions: the
    note, and a best-players or a diverse-players lookup for [powerplay],
    [middle] or [death]. *)
Theorem planned_actions_shape (question : string) :
  plan question (extract question) <> []
  /\ forall action,
       In action (plan question (extract question)) ->
       (exists pattern p,
           In pattern player_patterns
           /\ In p (re_findall pattern (lower question))
           /\ action = "get_player_stats:" ++ p)
       \/ In action [ "note:bowling_type_unavailable";
                      "get_diverse_players_for_phase:powerplay";
                      "get_diverse_players_for_phase:middle";
                      "get_diverse_players_for_phase:death";
                      "get_best_players_for_phase:powerplay";
                      "get_best_players_for_phase:middle";
                      "get_best_players_for_phase:death" ].
Proof.
  split; [apply plan_not_nil|]. intros action Hin.
  apply plan_In in Hin
    as [(p & Hp & ->) | [[_ ->] | [[_ H] | [(_ & ph & Hph & ->) | (_ & _ & H)]]]].
  - left. apply extracted_players in Hp as (pattern & H1 & H2).
    now exists pattern, p.
  - right. simpl. tauto.
  - right. simpl in *. tauto.
  - right. apply extracted_phases in Hph. simpl in Hph.
    destruct Hph as [<-|[<-|[<-|[]]]]; simpl; tauto.
  - right. simpl in *. tauto.
Qed.

(** X6.  A batting-order question gets the three diverse-players lookups,
    for powerplay, middle and death in this order, at the end of its
    plan, and no best-players lookup, even when it names a phase; any
    other question gets no diverse-players lookup. *)
Theorem batting_order_plans_diverse_pools (question : string) (e : entities) :
  (is_batting_order_question lower question = true ->
   (exists before,
       plan question e
       = (before ++ [ "get_diverse_players_for_phase:powerplay";
                      "get_diverse_players_for_phase:middle";
                      "get_diverse_players_for_phase:death" ])%list)
   /\ forall action, In action (plan question e) ->
                     startswith action "get_best_players_for_phase:" = false)
  /\ (is_batting_order_question lower question = false ->
      forall action, In action (plan question e) ->
                     startswith action "get_diverse_players_for_phase:" = false).
Proof.
  split; intros Hb.
  - split.
    + exists (player_actions lower question e ++ note_actions e)%list.
      unfold _reason_and_plan, phase_actions. cbv zeta. rewrite Hb.
      destruct (player_actions lower question e ++ note_actions e ++ _)%list
        eqn:E.
      * apply app_eq_nil in E as [_ E]. apply app_eq_nil in E as [_ E].
        discriminate E.
      * cbn [truthy negb]. rewrite <- E. apply app_assoc.
    + intros action Hin.
      apply plan_In in Hin
        as [(p & _ & ->) | [[_ ->] | [[_ H] | [(H & _) | (H & _)]]]];
        try reflexivity; try congruence.
      simpl in H. destruct H as [<-|[<-|[<-|[]]]]; reflexivity.
  - intros action Hin.
    apply plan_In in Hin
      as [(p & _ & ->) | [[_ ->] | [[H _] | [(_ & ph & _ & ->) | (_ & _ & H)]]]];
      try reflexivity; try congruence.
    simpl in H. destruct H as [<-|[<-|[]]]; reflexivity.
Qed.

(** The loop over the phases inside the general-recommendation branch is
    never entered: that branch runs only when no phase was extracted,
    and then plans the single lookup for [death]. *)
Lemma phase_actions_branches (question : string) (e : entities) :
  phase_actions lower question e
  = if is_batting_order_question lower question then
      [ "get_diverse_players_for_phase:powerplay";
        "get_diverse_players_for_phase:middle";
        "get_diverse_players_for_phase:death" ]
    else match phases e with
         | _ :: _ =>
             map (fun phase => "get_best_players_for_phase:" ++ phase) (phases e)
         | [] =>
             if is_general_recommendation lower question
                || ((intent e =? "recommendation") && negb (truthy (players e)))
             then ["get_best_players_for_phase:death"]
             else []
         end.
Proof.
  unfold phase_actions.
  destruct (is_batting_order_question lower question); [reflexivity|].
  destruct (phases e); reflexivity.
Qed.

End Plans.

Lemma valid_question_plans_no_note_witness :
  bowling_types (_extract_entities lower Session.no_names
                   "When should Kohli bat in the death overs?") = []
  /\ ~ In "note:bowling_type_unavailable"
          (_reason_and_plan lower "When should Kohli bat in the death overs?"
             (_extract_entities lower Session.no_names
                "When should Kohli bat in the death overs?")).
Proof.
  apply (valid_question_plans_no_note lower Session.no_names
           "When should Kohli bat in the death overs?").
  reflexivity.
Defined.

Lemma batting_order_plans_diverse_pools_witness :
  ((exists before,
       _reason_and_plan lower "Best batting order for the death overs?"
                        (mk_entities [] [] [] ["death"] "recommendation")
       = (before ++ [ "get_diverse_players_for_phase:powerplay";
                      "get_diverse_players_for_phase:middle";
                      "get_diverse_players_for_phase:death" ])%list)
   /\ forall action,
        In action (_reason_and_plan lower "Best batting order for the death overs?"
                     (mk_entities [] [] [] ["death"] "recommendation")) ->
        startswith action "get_best_players_for_phase:" = false)
  /\ forall action,
       In action (_reason_and_plan lower "Who is best in the death overs?"
                    (mk_entities [] [] [] ["death"] "recommendation")) ->
       startswith action "get_diverse_players_for_phase:" = false.
Proof.
  split.
  - apply (proj1 (batting_order_plans_diverse_pools lower
                    "Best batting order for the death overs?"
                    (mk_entities [] [] [] ["death"] "recommendation"))).
    reflexivity.
  - apply (proj2 (batting_order_plans_diverse_pools lower
                    "Who is best in the death overs?"
                    (mk_entities [] [] [] ["death"] "recommendation"))).
    reflexivity.
Defined.

End PipelineMore.

(** ** Executing the plan: dictionaries, actions and observations *)

Module ExecutionFacts.
Import PyStrMore.

(** *** Dictionaries in insertion order *)

Lemma dict_set_keys {V : Type} (d : list (string * V)) (k : string) (v : V) :
  map fst (dict_set d k v)
  = if existsb (fun k' => k' =? k) (map fst d) then map fst d
    else (map fst d ++ [k])%list.
Proof.
  induction d as [|[k' v'] d IH]; [reflexivity|].
  simpl. destruct (k' =? k) eqn:E; simpl; [reflexivity|].
  rewrite IH. now destruct (existsb _ (map fst d)).
Qed.

Lemma existsb_eqb_In (k : string) (l : list string) :
  existsb (fun k' => k' =? k) l = true <-> In k l.
Proof.
  rewrite existsb_exists. split.
  - intros (x & Hx & E). apply String.eqb_eq in E. now subst.
  - intros H. exists k. split; [exact H | apply String.eqb_refl].
Qed.

Lemma dict_set_NoDup {V : Type} (d : list (string * V)) (k : string) (v : V) :
  NoDup (map fst d) -> NoDup (map fst (dict_set d k v)).
Proof.
  intros H. rewrite dict_set_keys.
  destruct (existsb _ (map fst d)) eqn:E; [exact H|].
  apply NoDup_app; [exact H | repeat constructor; intros [] |].
  intros x Hx [<-|[]]. apply existsb_eqb_In in Hx. congruence.
Qed.

Lemma dict_set_In {V : Type} (d : list (string * V)) (k : string) (v : V)
    (k0 : string) (v0 : V) :
  In (k0, v0) (dict_set d k v) ->
  (k0 = k /\ v0 = v) \/ In (k0, v0) d.
Proof.
  induction d as [|[k' v'] d IH]; simpl.
  - intros [[= <- <-]|[]]. now left.
  - destruct (k' =? k) eqn:E; simpl.
    + apply String.eqb_eq in E. subst k'.
      intros [[= <- <-]|H]; [now left | right; now right].
    + intros [H|H]; [right; now left|].
      apply IH in H as [H|H]; [now left | right; now right].
Qed.

Lemma dict_set_length {V : Type} (d : list (string * V)) (k : string) (v : V) :
  (List.length (dict_set d k v) <= S (List.length d))%nat.
Proof.
  induction d as [|[k' v'] d IH]; simpl; [lia|].
  destruct (k' =? k); simpl; lia.
Qed.

(** *** Actions taken apart at a colon *)

(** An action [kind:param] is taken apart at its first colon. *)
Lemma action_parts (kind param : string) :
  contains ":" kind = false ->
  contains ":" (kind ++ ":" ++ param) = true
  /\ partition_first ":" (kind ++ ":" ++ param) = (kind, param).
Proof.
  intros H. split; [|now apply partition_first_colon].
  apply contains_app_r, contains_self_app.
Qed.

Lemma split_go_colon (kind rest cur : string) :
  contains ":" kind = false ->
  split_go ":" (kind ++ ":" ++ rest) 0 cur
  = (cur ++ kind) :: split_go ":" rest 0 "".
Proof.
  revert cur. induction kind as [|c kind IH]; intros cur H.
  - rewrite app_empty_r. cbn [append split_go]. rewrite prefix_colon.
    reflexivity.
  - rewrite PyStrFacts.contains_cons, prefix_colon in H.
    apply orb_false_iff in H as [Hc Hk].
    change (String c kind ++ ":" ++ rest) with (String c (kind ++ ":" ++ rest)).
    cbn [split_go]. rewrite prefix_colon, Hc, (IH _ Hk).
    now rewrite app_assoc_str.
Qed.

(** [action.split(':')[0]] and [action.split(':')[1]] *)
Lemma split_colon (kind rest : string) :
  contains ":" kind = false ->
  split ":" (kind ++ ":" ++ rest) = kind :: split ":" rest.
Proof. intros H. apply (split_go_colon kind rest "" H). Qed.

Lemma split_go_not_nil (sep s : string) (skip : nat) (cur : string) :
  split_go sep s skip cur <> [].
Proof.
  revert skip cur. induction s as [|c s IH]; intros skip cur;
    cbn [split_go].
  - discriminate.
  - destruct skip; [|apply IH].
    destruct (String.prefix sep (String c s)); [discriminate | apply IH].
Qed.

Section Actions.

Import Analyzer Lookups.

Variable analyzer_get_player_stats
  : string -> Analyzer.result (option PlayerStats.player_stats).
Variable analyzer_get_best_players_for_phase
  : string -> Analyzer.result (list best_player).
Variable analyzer_get_diverse_players_for_phase
  : string -> Analyzer.result Diverse.categories.
Variable analyzer_compare_players
  : list string -> Analyzer.result (list (string * PlayerStats.player_stats)).
Variable analyzer_get_team_strategy
  : string -> Analyzer.result (option TeamStrategy.team_strategy).

Local Abbreviation execute :=
  (_execute_action analyzer_get_player_stats
     analyzer_get_best_players_for_phase
     analyzer_get_diverse_players_for_phase analyzer_compare_players
     analyzer_get_team_strategy).
Local Abbreviation run :=
  (run_actions analyzer_get_player_stats analyzer_get_best_players_for_phase
     analyzer_get_diverse_players_for_phase analyzer_compare_players
     analyzer_get_team_strategy).
Local Abbreviation found := (first_found analyzer_get_player_stats).

(** The lookups of a player: the name, then its words. *)
Lemma execute_player_stats (param : string) :
  execute ("get_player_stats:" ++ param)
  = match analyzer_get_player_stats param with
    | Raise e => RText (error_text ("get_player_stats:" ++ param) e)
    | Ok (Some stats) => RStats stats
    | Ok None =>
        match found (split_ws param) with
        | Raise e => RText (error_text ("get_player_stats:" ++ param) e)
        | Ok (Some stats) => RStats stats
        | Ok None => RNone
        end
    end.
Proof.
  destruct (action_parts "get_player_stats" param eq_refl) as [Hc Hp].
  change ("get_player_stats" ++ ":" ++ param)
    with ("get_player_stats:" ++ param) in Hc, Hp.
  unfold _execute_action. rewrite Hc, Hp.
  now destruct (analyzer_get_player_stats param) as [e|[stats|]].
Qed.

Lemma execute_best_players (param : string) :
  execute ("get_best_players_for_phase:" ++ param)
  = match analyzer_get_best_players_for_phase param with
    | Raise e => RText (error_text ("get_best_players_for_phase:" ++ param) e)
    | Ok rows => RBest rows
    end.
Proof.
  destruct (action_parts "get_best_players_for_phase" param eq_refl)
    as [Hc Hp].
  change ("get_best_players_for_phase" ++ ":" ++ param)
    with ("get_best_players_for_phase:" ++ param) in Hc, Hp.
  unfold _execute_action. rewrite Hc, Hp. reflexivity.
Qed.

Lemma execute_diverse_players (param : string) :
  execute ("get_diverse_players_for_phase:" ++ param)
  = match analyzer_get_diverse_players_for_phase param with
    | Raise e =>
        RText (error_text ("get_diverse_players_for_phase:" ++ param) e)
    | Ok pools => RDiverse pools
    end.
Proof.
  destruct (action_parts "get_diverse_players_for_phase" param eq_refl)
    as [Hc Hp].
  change ("get_diverse_players_for_phase" ++ ":" ++ param)
    with ("get_diverse_players_for_phase:" ++ param) in Hc, Hp.
  unfold _execute_action. rewrite Hc, Hp. reflexivity.
Qed.

(** The loop over the words of a name ends with nothing exactly when
    every word is looked up and none is found. *)
Lemma first_found_None (name_parts : list string) :
  found name_parts = Ok None
  <-> forall part, In part name_parts ->
                   analyzer_get_player_stats part = Ok None.
Proof.
  induction name_parts as [|p l IH]; simpl.
  - split; [intros _ part [] | reflexivity].
  - destruct (analyzer_get_player_stats p) as [e|[stats|]] eqn:E.
    + split; [discriminate|]. intros H.
      rewrite (H p (or_introl eq_refl)) in E. discriminate.
    + split; [discriminate|]. intros H.
      rewrite (H p (or_introl eq_refl)) in E. discriminate.
    + rewrite IH. split.
      * intros H part [<-|Hin]; auto.
      * intros H part Hin. apply H. now right.
Qed.

Lemma first_found_Some (name_parts : list string)
    (stats : PlayerStats.player_stats) :
  found name_parts = Ok (Some stats) ->
  exists part, In part name_parts
               /\ analyzer_get_player_stats part = Ok (Some stats).
Proof.
  induction name_parts as [|p l IH]; simpl; [discriminate|].
  destruct (analyzer_get_player_stats p) as [e|[s|]] eqn:E.
  - discriminate.
  - intros [= <-]. exists p. split; [now left | exact E].
  - intros H. apply IH in H as (part & Hin & H). exists part.
    split; [now right | exact H].
Qed.

Lemma first_found_Raise (name_parts : list string) (e : string) :
  found name_parts = Raise e ->
  exists part, In part name_parts /\ analyzer_get_player_stats part = Raise e.
Proof.
  induction name_parts as [|p l IH]; simpl; [discriminate|].
  destruct (analyzer_get_player_stats p) as [e'|[s|]] eqn:E.
  - intros [= <-]. exists p. split; [now left | exact E].
  - discriminate.
  - intros H. apply IH in H as (part & Hin & H). exists part.
    split; [now right | exact H].
Qed.

(** The results dictionary, from any dictionary the loop starts with. *)
Lemma run_actions_from (planned_actions : list string)
    (d : list (string * action_result)) :
  NoDup (map fst d) ->
  (forall a r, In (a, r) d -> r = execute a) ->
  let d' := fold_left (fun action_results action =>
                         dict_set action_results action (execute action))
                      planned_actions d in
  NoDup (map fst d')
  /\ (forall a, In a (map fst d') <-> In a (map fst d) \/ In a planned_actions)
  /\ (forall a r, In (a, r) d' -> r = execute a)
  /\ (List.length d' <= List.length d + List.length planned_actions)%nat.
Proof.
  revert d. induction planned_actions as [|x l IH]; intros d Hnd Hval; simpl.
  - split; [exact Hnd|]. split; [intros a; split; [now left | now intros [H|[]]]|].
    split; [exact Hval | lia].
  - destruct (IH (dict_set d x (execute x))) as (H1 & H2 & H3 & H4).
    + now apply dict_set_NoDup.
    + intros a r Hin. apply dict_set_In in Hin as [[-> ->]|Hin]; auto.
    + split; [exact H1|]. split; [|split; [exact H3|]].
      * intros a. rewrite H2, dict_set_keys.
        destruct (existsb _ (map fst d)) eqn:E.
        -- apply existsb_eqb_In in E. split.
           ++ intros [H|H]; [now left | right; now right].
           ++ intros [H|[<-|H]]; [now left | now left | now right].
        -- rewrite in_app_iff. simpl. split.
           ++ intros [[H|[<-|[]]]|H];
                [now left | right; now left | right; now right].
           ++ intros [H|[<-|H]];
                [left; now left | left; right; now left | now right].
      * pose proof (dict_set_length d x (execute x)). lia.
Qed.

Lemma run_actions_In (planned_actions : list string) (action : string)
    (result : action_result) :
  In (action, result) (run planned_actions) ->
  In action planned_actions /\ result = execute action.
Proof.
  destruct (run_actions_from planned_actions [])
    as (_ & H2 & H3 & _); [constructor | intros a r [] |].
  intros H. split; [|now apply H3].
  apply (in_map fst) in H. apply H2 in H as [[]|H]. exact H.
Qed.

End Actions.

(** *** What the observation builder makes of a result *)

Lemma error_text_not_empty (action e : string) : error_text action e <> "".
Proof. discriminate. Qed.

Section Observed.

Import Analyzer Lookups.

Variable upper : string -> string.
Variable title : string -> string.
Variable str_of_float : number -> string.
Variable repr_phase_performance : list (string * list (string * number)) -> string.
Variable repr_value : action_result -> string.

Local Abbreviation see :=
  (observe upper title str_of_float repr_phase_performance repr_value).
Local Abbreviation see_all :=
  (observe_all upper title str_of_float repr_phase_performance repr_value).

Lemma observe_player_stats (p : string) (stats : PlayerStats.player_stats) :
  see ("get_player_stats:" ++ p) (RStats stats)
  = Ok (Some (player_block upper str_of_float repr_phase_performance stats)).
Proof.
  unfold observe.
  change ("get_player_stats:" ++ p) with ("get_player_stats" ++ ":" ++ p).
  rewrite (split_colon "get_player_stats" p eq_refl). reflexivity.
Qed.

(** A text where a summary is expected: [result['name']] raises. *)
Lemma observe_player_text (p text : string) :
  text <> "" ->
  see ("get_player_stats:" ++ p) (RText text) = Raise "TypeError".
Proof.
  intros H. apply String.eqb_neq in H. unfold observe.
  change ("get_player_stats:" ++ p) with ("get_player_stats" ++ ":" ++ p).
  rewrite (split_colon "get_player_stats" p eq_refl).
  cbn [startswith String.prefix hd truthy_result]. rewrite H. reflexivity.
Qed.

Lemma second_piece (kind rest : string) :
  contains ":" kind = false ->
  nth_error (split ":" (kind ++ ":" ++ rest)) 1
  = Some (hd "" (split ":" rest)).
Proof.
  intros H. rewrite (split_colon kind rest H). unfold split.
  pose proof (split_go_not_nil ":" rest 0 "") as Hne.
  now destruct (split_go ":" rest 0 "").
Qed.

Lemma observe_best (phase : string) (rows : list best_player) :
  see ("get_best_players_for_phase:" ++ phase) (RBest rows)
  = Ok (if truthy rows
        then Some (top_performers_block upper str_of_float
                     (hd "" (split ":" phase)) rows)
        else None).
Proof.
  unfold observe.
  change ("get_best_players_for_phase:" ++ phase)
    with ("get_best_players_for_phase" ++ ":" ++ phase).
  rewrite (second_piece "get_best_players_for_phase" phase eq_refl).
  rewrite (split_colon "get_best_players_for_phase" phase eq_refl).
  cbn [hd truthy_result]. now destruct rows.
Qed.

(** A text where a leaderboard is expected: [p['player']] raises on its
    first character. *)
Lemma observe_best_text (phase text : string) :
  text <> "" ->
  see ("get_best_players_for_phase:" ++ phase) (RText text)
  = Raise "TypeError".
Proof.
  intros H. apply String.eqb_neq in H. unfold observe.
  change ("get_best_players_for_phase:" ++ phase)
    with ("get_best_players_for_phase" ++ ":" ++ phase).
  rewrite (second_piece "get_best_players_for_phase" phase eq_refl).
  rewrite (split_colon "get_best_players_for_phase" phase eq_refl).
  cbn [hd truthy_result]. rewrite H. reflexivity.
Qed.

Lemma observe_diverse (phase : string) (pools : Diverse.categories) :
  see ("get_diverse_players_for_phase:" ++ phase) (RDiverse pools)
  = Ok (Some (diverse_pool_block upper title str_of_float
                (hd "" (split ":" phase)) pools)).
Proof.
  unfold observe.
  change ("get_diverse_players_for_phase:" ++ phase)
    with ("get_diverse_players_for_phase" ++ ":" ++ phase).
  rewrite (second_piece "get_diverse_players_for_phase" phase eq_refl).
  rewrite (split_colon "get_diverse_players_for_phase" phase eq_refl).
  reflexivity.
Qed.

(** A text where the pools are expected: a [str] has no [items]. *)
Lemma observe_diverse_text (phase text : string) :
  text <> "" ->
  see ("get_diverse_players_for_phase:" ++ phase) (RText text)
  = Raise "AttributeError".
Proof.
  intros H. apply String.eqb_neq in H. unfold observe.
  change ("get_diverse_players_for_phase:" ++ phase)
    with ("get_diverse_players_for_phase" ++ ":" ++ phase).
  rewrite (second_piece "get_diverse_players_for_phase" phase eq_refl).
  rewrite (split_colon "get_diverse_players_for_phase" phase eq_refl).
  cbn [hd truthy_result]. rewrite H. reflexivity.
Qed.

(** The loop over the results goes through when every turn does. *)
Lemma observe_all_ok (results : list (string * action_result)) :
  (forall action result, In (action, result) results ->
                         exists appended, see action result = Ok appended) ->
  exists blocks, see_all results = Ok blocks.
Proof.
  induction results as [|[a r] l IH]; intros H; simpl; [eauto|].
  destruct (H a r (or_introl eq_refl)) as [appended ->].
  destruct IH as [blocks ->]; [|eauto].
  intros a' r' Hin. apply (H a' r'). now right.
Qed.

(** The loop raises what one of its turns raises. *)
Lemma observe_all_raises (results : list (string * action_result))
    (action : string) (result : action_result) (exn : string) :
  In (action, result) results ->
  see action result = Raise exn ->
  exists action' result' exn',
    In (action', result') results
    /\ see action' result' = Raise exn'
    /\ see_all results = Raise exn'.
Proof.
  induction results as [|[a r] l IH]; intros Hin Hr; [destruct Hin|].
  simpl. destruct (see a r) as [e|appended] eqn:E.
  - exists a, r, e. split; [now left | now split].
  - destruct Hin as [[= -> ->]|Hin]; [congruence|].
    destruct (IH Hin Hr) as (a' & r' & e' & Hin' & Hr' & ->).
    exists a', r', e'. split; [now right | now split].
Qed.

Lemma analyze_results_of (results : list (string * action_result))
    (entities : entities) :
  _analyze_results upper title str_of_float repr_phase_performance repr_value
    results entities
  = match see_all results with
    | Raise exn => Raise exn
    | Ok blocks =>
        let observations :=
          ((if truthy (bowling_types entities)
            then [limitation_notice entities] else []) ++ blocks)%list in
        Ok (if truthy observations then join nl observations
            else "No specific data retrieved")
    end.
Proof. reflexivity. Qed.

End Observed.

(** *** The plan of a question, executed and observed *)

Section Planned.

Import Analyzer Lookups.

Variable lower : string -> string.
Variable re_findall : string -> string -> list string.
Variable upper : string -> string.
Variable title : string -> string.
Variable str_of_float : number -> string.
Variable repr_phase_performance : list (string * list (string * number)) -> string.
Variable repr_value : action_result -> string.
Variable analyzer_get_player_stats
  : string -> Analyzer.result (option PlayerStats.player_stats).
Variable analyzer_get_best_players_for_phase
  : string -> Analyzer.result (list best_player).
Variable analyzer_get_diverse_players_for_phase
  : string -> Analyzer.result Diverse.categories.
Variable analyzer_compare_players
  : list string -> Analyzer.result (list (string * PlayerStats.player_stats)).
Variable analyzer_get_team_strategy
  : string -> Analyzer.result (option TeamStrategy.team_strategy).

Local Abbreviation execute :=
  (_execute_action analyzer_get_player_stats
     analyzer_get_best_players_for_phase
     analyzer_get_diverse_players_for_phase analyzer_compare_players
     analyzer_get_team_strategy).
Local Abbreviation run :=
  (run_actions analyzer_get_player_stats analyzer_get_best_players_for_phase
     analyzer_get_diverse_players_for_phase analyzer_compare_players
     analyzer_get_team_strategy).
Local Abbreviation caught :=
  (handler_returned analyzer_get_player_stats
     analyzer_get_best_players_for_phase
     analyzer_get_diverse_players_for_phase analyzer_compare_players
     analyzer_get_team_strategy).
Local Abbreviation see :=
  (observe upper title str_of_float repr_phase_performance repr_value).
Local Abbreviation observations_for :=
  (observations_of lower re_findall upper title str_of_float
     repr_phase_performance repr_value analyzer_get_player_stats
     analyzer_get_best_players_for_phase analyzer_get_diverse_players_for_phase
     analyzer_compare_players analyzer_get_team_strategy).

(** What the observation builder makes of a planned action: a turn of
    its loop goes through unless the handler made the result, and then it
    raises. *)
Lemma observe_planned (question : string) (e : entities) (action : string) :
  In action (_reason_and_plan lower question e) ->
  ((exists appended, see action (execute action) = Ok appended)
   /\ forall exn, ~ caught action exn)
  \/ (exists exn exn',
         caught action exn
         /\ see action (execute action) = Raise exn'
         /\ (exn' = "TypeError" \/ exn' = "AttributeError")).
Proof.
  intros Hin. unfold handler_returned.
  apply PipelineMore.plan_In in Hin
    as [(p & _ & ->) | [[_ ->] | [[_ H] | [(_ & ph & _ & ->) | (_ & _ & H)]]]].
  - rewrite execute_player_stats.
    destruct (analyzer_get_player_stats p) as [exn|[stats|]].
    + right. exists exn, "TypeError". split; [reflexivity|].
      split; [|now left].
      apply observe_player_text, error_text_not_empty.
    + left. rewrite observe_player_stats. split; [eauto | discriminate].
    + destruct (first_found _ _) as [exn|[stats|]].
      * right. exists exn, "TypeError". split; [reflexivity|].
        split; [|now left].
        apply observe_player_text, error_text_not_empty.
      * left. rewrite observe_player_stats. split; [eauto | discriminate].
      * left. split; [eexists; reflexivity | discriminate].
  - left. split; [eexists; reflexivity | discriminate].
  - assert (Hd : exists ph, action = "get_diverse_players_for_phase:" ++ ph).
    { simpl in H. destruct H as [<-|[<-|[<-|[]]]]; eexists; reflexivity. }
    destruct Hd as [ph ->]. rewrite execute_diverse_players.
    destruct (analyzer_get_diverse_players_for_phase ph) as [exn|pools].
    + right. exists exn, "AttributeError". split; [reflexivity|].
      split; [|now right].
      apply observe_diverse_text, error_text_not_empty.
    + left. rewrite observe_diverse. split; [eauto | discriminate].
  - rewrite execute_best_players.
    destruct (analyzer_get_best_players_for_phase ph) as [exn|rows].
    + right. exists exn, "TypeError". split; [reflexivity|].
      split; [|now left].
      apply observe_best_text, error_text_not_empty.
    + left. rewrite observe_best. split; [eauto | discriminate].
  - assert (Hb : exists ph, action = "get_best_players_for_phase:" ++ ph).
    { simpl in H. destruct H as [<-|[<-|[]]]; eexists; reflexivity. }
    destruct Hb as [ph ->]. rewrite execute_best_players.
    destruct (analyzer_get_best_players_for_phase ph) as [exn|rows].
    + right. exists exn, "TypeError". split; [reflexivity|].
      split; [|now left].
      apply observe_best_text, error_text_not_empty.
    + left. rewrite observe_best. split; [eauto | discriminate].
Qed.

(** The observations of a question are built exactly when the handler
    made none of the results; otherwise the builder raises. *)
Lemma observations_built (question : string) :
  (forall action exn,
      In action (_reason_and_plan lower question
                   (_extract_entities lower re_findall question)) ->
      ~ caught action exn) ->
  exists observations, observations_for question = Ok observations.
Proof.
  intros H. unfold observations_of. rewrite analyze_results_of.
  match goal with
  | |- context [observe_all _ _ _ _ _ ?results] =>
      destruct (observe_all_ok upper title str_of_float
                  repr_phase_performance repr_value results) as [blocks ->];
        [|eauto]
  end.
  intros action result Hin.
  apply run_actions_In in Hin as [Hin ->].
  destruct (observe_planned _ _ _ Hin) as [[Hok _]|(exn & exn' & Hc & _)];
    [exact Hok|].
  elim (H action exn Hin Hc).
Qed.

Lemma observations_not_built (question action exn : string) :
  In action (_reason_and_plan lower question
               (_extract_entities lower re_findall question)) ->
  caught action exn ->
  exists exn', observations_for question = Raise exn'
               /\ (exn' = "TypeError" \/ exn' = "AttributeError").
Proof.
  intros Hin Hc. unfold observations_of. rewrite analyze_results_of.
  set (plan := _reason_and_plan lower question
                 (_extract_entities lower re_findall question)) in *.
  assert (Hkey : In action (map fst (run plan))).
  { destruct (run_actions_from analyzer_get_player_stats
                analyzer_get_best_players_for_phase
                analyzer_get_diverse_players_for_phase
                analyzer_compare_players analyzer_get_team_strategy plan [])
      as (_ & H2 & _); [constructor | intros a r [] |].
    apply H2. now right. }
  apply in_map_iff in Hkey as ([a r] & E & Hkey). simpl in E. subst a.
  pose proof (run_actions_In _ _ _ _ _ _ _ _ Hkey) as [_ ->].
  destruct (observe_planned _ _ _ Hin)
    as [[_ Hno]|(exn1 & exn2 & _ & Hr & _)]; [elim (Hno exn Hc)|].
  destruct (observe_all_raises upper title str_of_float repr_phase_performance
              repr_value _ _ _ _ Hkey Hr)
    as (a' & r' & e' & Hin' & Hr' & ->).
  exists e'. split; [reflexivity|].
  apply run_actions_In in Hin' as [Hin' ->].
  destruct (observe_planned _ _ _ Hin')
    as [[[appended Hok] _]|(_ & exn3 & _ & Hr3 & Hk)]; congruence.
Qed.

End Planned.

End ExecutionFacts.

(** ** The response generator and the session loop *)

Lemma fallback_contains_observations (observations e : string) :
  contains observations (fallback_response observations e) = true.
Proof. unfold fallback_response. apply PyStrFacts.contains_middle. Qed.


Section AgentFacts.

Import Analyzer Lookups.

Variable lower : string -> string.
Variable re_findall : string -> string -> list string.
Variable json_dumps : entities -> string.
Variable upper : string -> string.
Variable title : string -> string.
Variable str_of_float : number -> string.
Variable repr_phase_performance : list (string * list (string * number)) -> string.
Variable repr_value : action_result -> string.
Variable analyzer_get_player_stats
  : string -> Analyzer.result (option PlayerStats.player_stats).
Variable analyzer_get_best_players_for_phase
  : string -> Analyzer.result (list best_player).
Variable analyzer_get_diverse_players_for_phase
  : string -> Analyzer.result Diverse.categories.
Variable analyzer_compare_players
  : list string -> Analyzer.result (list (string * PlayerStats.player_stats)).
Variable analyzer_get_team_strategy
  : string -> Analyzer.result (option TeamStrategy.team_strategy).
Variable AI : Type.
Variable generate_content : AI -> string -> AI * reply.

Local Abbreviation validate := (_validate_question lower).
Local Abbreviation extract := (_extract_entities lower re_findall).
Local Abbreviation generate :=
  (_generate_response lower json_dumps AI generate_content).
Local Abbreviation try_block :=
  (generate_response_try lower json_dumps AI generate_content).
Local Abbreviation raises := (raises_in_generate json_dumps AI generate_content).
Local Abbreviation caught :=
  (handler_returned analyzer_get_player_stats
     analyzer_get_best_players_for_phase
     analyzer_get_diverse_players_for_phase analyzer_compare_players
     analyzer_get_team_strategy).
Local Abbreviation run :=
  (run_actions analyzer_get_player_stats analyzer_get_best_players_for_phase
     analyzer_get_diverse_players_for_phase analyzer_compare_players
     analyzer_get_team_strategy).
Local Abbreviation answer :=
  (answer_question lower re_findall json_dumps upper title str_of_float
     repr_phase_performance repr_value analyzer_get_player_stats
     analyzer_get_best_players_for_phase analyzer_get_diverse_players_for_phase
     analyzer_compare_players analyzer_get_team_strategy AI generate_content).
Local Abbreviation observations_for :=
  (observations_of lower re_findall upper title str_of_float
     repr_phase_performance repr_value analyzer_get_player_stats
     analyzer_get_best_players_for_phase analyzer_get_diverse_players_for_phase
     analyzer_compare_players analyzer_get_team_strategy).




(** A validated question whose observations are built is answered with
    the text of [_generate_response]; the agent keeps the model as the
    calls left it, and the turn is stored. *)
Lemma answer_question_valid (self : agent AI) (question observations : string) :
  is_valid (validate question) = true ->
  observations_for question = Ok observations ->
  let e := extract question in
  let plan := _reason_and_plan lower question e in
  let r := generate (ai_model self) question e observations in
  answer self question
  = (mk_agent (fst r)
       (conversation_history self
        ++ [mk_turn question e plan (run plan) (snd r)])%list,
     Ok (Some (snd r))).
Proof.
  intros Hv Ho. unfold answer_question. unfold observations_of in Ho.
  rewrite Hv, Ho. simpl. now destruct (generate _ _ _ _).
Qed.

(** When the observation builder raises, the exception leaves
    [answer_question]: nothing is returned and nothing is stored. *)
Lemma answer_question_raises (self : agent AI) (question exn : string) :
  is_valid (validate question) = true ->
  observations_for question = Raise exn ->
  answer self question = (self, Raise exn).
Proof.
  intros Hv Ho. unfold answer_question. unfold observations_of in Ho.
  rewrite Hv, Ho. reflexivity.
Qed.

(** A rejected question is answered with the message of the validator,
    and nothing else happens. *)
Lemma answer_question_rejected (self : agent AI) (question : string) :
  is_valid (validate question) = false ->
  answer self question = (self, Ok (message (validate question))).
Proof. intros Hv. unfold answer_question. now rewrite Hv. Qed.


(** C9 (amended).  A question whose lower-cased text contains [chase],
    [bat first] or [toss] is rejected with a non-empty message, which is
    the message of the toss concept when no earlier concept rejects the
    question; [answer_question] returns that message and leaves the agent
    as it was, so that nothing is planned for such a question. *)
Theorem toss_keywords_rejected (self : agent AI) (question : string) :
  contains "chase" (lower question) = true
  \/ contains "bat first" (lower question) = true
  \/ contains "toss" (lower question) = true ->
  is_valid (validate question) = false
  /\ (exists m, message (validate question) = Some m /\ m <> "")
  /\ (scan_concepts (removelast unavailable_concepts) (lower question) = None ->
      message (validate question) = Some (other_concept_message "toss"))
  /\ answer self question = (self, Ok (message (validate question))).
Proof.
  intros H.
  assert (Hk : exists keyword,
             In keyword ["toss"; "bat first"; "chase"]
             /\ contains keyword (lower question) = true).
  { destruct H as [H|[H|H]]; eexists; (split; [|exact H]); simpl; tauto. }
  destruct Hk as (keyword & Hin & Hc).
  assert (Hne : keyword <> "against").
  { destruct Hin as [<-|[<-|[<-|[]]]]; discriminate. }
  destruct (validate_question_hit lower question keyword) as [Hv Hm]; auto.
  { unfold forbidden_keywords. simpl.
    destruct Hin as [<-|[<-|[<-|[]]]]; repeat (try (now left); right). }
  { intros E. contradiction. }
  repeat split; auto.
  - intros Hearly. unfold _validate_question.
    change unavailable_concepts with
      (removelast unavailable_concepts
       ++ [("toss", ["toss"; "bat first"; "chase"])])%list.
    assert (Happ : forall l1 l2 ql,
               scan_concepts l1 ql = None ->
               scan_concepts (l1 ++ l2) ql = scan_concepts l2 ql).
    { induction l1 as [|[c kws] l1 IH]; intros l2 ql; simpl; auto.
      destruct (scan_keywords c kws ql); [discriminate|auto]. }
    rewrite (Happ _ _ _ Hearly). cbn [scan_concepts].
    destruct (scan_keywords_hit "toss" ["toss"; "bat first"; "chase"]
                (lower question) keyword Hin Hc
                (excused_only_against keyword (lower question) Hne))
      as [k ->].
    reflexivity.
  - now apply answer_question_rejected.
Qed.

End AgentFacts.


(** C10 (the code at the failing input).  On a processed table without
    the column [Dot_Pct] the leaderboard of a phase raises; the handler
    of [_execute_action] returns a text for it, which [_analyze_results]
    indexes as a leaderboard: the question passes validation, yet
    [answer_question] ends in [TypeError] and the history is as it
    was. *)
Theorem valid_question_leaves_no_turn (key_error : string) :
  let question := "Who are the best death over batsmen?" in
  is_valid (_validate_question lower question) = true
  /\ _reason_and_plan lower question
       (_extract_entities lower Session.no_names question)
     = ["get_best_players_for_phase:death"]
  /\ Session.ask_without_dot_pct key_error Session.answering Session.fresh
       question
     = (Session.fresh, Analyzer.Raise "TypeError")
  /\ conversation_history
       (fst (Session.ask_without_dot_pct key_error Session.answering
               Session.fresh question)) = [].
Proof.
  assert (H : Session.ask_without_dot_pct key_error Session.answering
                Session.fresh "Who are the best death over batsmen?"
              = (Session.fresh, Analyzer.Raise "TypeError")).
  { apply (answer_question_raises lower Session.no_names Session.dumps upper
             title Session.no_number Session.no_performance Session.no_value
             (fun _ => Analyzer.Ok None) (fun _ => Analyzer.Raise key_error)
             (fun _ => Analyzer.Raise key_error) (fun _ => Analyzer.Ok [])
             (fun _ => Analyzer.Ok None) nat Session.answering Session.fresh
             "Who are the best death over batsmen?" "TypeError");
      reflexivity. }
  cbv zeta. rewrite H. repeat split; reflexivity.
Qed.

(** C9 (as stated, refuted).  The word [chasing] does not contain [chase]:
    a question about the batting order for chasing a total is valid, and
    the planner answers it with the three lookups of diverse players. *)
Lemma chasing_question_counterexample :
  let question := "What is the optimal batting order for chasing 180+ runs?" in
  contains "chasing" (lower question) = true
  /\ contains "chase" (lower question) = false
  /\ _validate_question lower question = mk_validation true None
  /\ _reason_and_plan lower question
       (_extract_entities lower Session.no_names question)
     = [ "get_diverse_players_for_phase:powerplay";
         "get_diverse_players_for_phase:middle";
         "get_diverse_players_for_phase:death" ]
  /\ exists t,
       conversation_history
         (fst (Session.ask Session.answering Session.fresh question)) = [t]
       /\ turn_actions t
          = [ "get_diverse_players_for_phase:powerplay";
              "get_diverse_players_for_phase:middle";
              "get_diverse_players_for_phase:death" ].
Proof.
  repeat split; try (vm_compute; reflexivity).
  eexists. split; vm_compute; reflexivity.
Qed.


Lemma toss_keywords_rejected_witness :
  is_valid (_validate_question lower "Should we chase or bat first?") = false
  /\ (exists m, message (_validate_question lower "Should we chase or bat first?")
                = Some m /\ m <> "")
  /\ message (_validate_question lower "Should we chase or bat first?")
     = Some (other_concept_message "toss")
  /\ Session.ask Session.answering Session.fresh "Should we chase or bat first?"
     = (Session.fresh,
        Analyzer.Ok
          (message (_validate_question lower "Should we chase or bat first?"))).
Proof.
  destruct (toss_keywords_rejected lower Session.no_names Session.dumps
              upper title Session.no_number Session.no_performance
              Session.no_value
              (fun _ => Analyzer.Ok None) (fun _ => Analyzer.Ok [])
              (fun _ => Analyzer.Ok Session.no_pools)
              (fun _ => Analyzer.Ok []) (fun _ => Analyzer.Ok None)
              nat Session.answering
              Session.fresh "Should we chase or bat first?")
    as (H1 & H2 & H3 & H4).
  - left. reflexivity.
  - split; [exact H1 | split; [exact H2 | split; [|exact H4]]].
    apply H3. reflexivity.
Defined.

(** ** The data analyzer *)

Module AnalyzerFacts.
Import Analyzer.

(** *** Entry phase *)

Lemma six_below_seven : ~ (inject_Z 7 <= inject_Z 6)%Q.
Proof. intros H. now apply Qle_bool_iff in H. Qed.

Lemma fifteen_below_sixteen : ~ (inject_Z 16 <= inject_Z 15)%Q.
Proof. intros H. now apply Qle_bool_iff in H. Qed.

Lemma six_below_sixteen : ~ (inject_Z 16 <= inject_Z 6)%Q.
Proof. intros H. now apply Qle_bool_iff in H. Qed.

Lemma Qle_bool_false_above (lo hi q : Q) :
  ~ (lo <= hi)%Q -> Qle_bool lo q = true -> Qle_bool q hi = false.
Proof.
  intros Hn Hlo. destruct (Qle_bool q hi) eqn:E; [|reflexivity].
  apply Qle_bool_iff in Hlo, E. elim Hn. now apply Qle_trans with q.
Qed.

(** C5.  The phase of an entry over depends on the over alone: at most 6
    gives Powerplay, from 7 to 15 gives Middle, 16 or more gives Death,
    for every value of the column (an integer, a float, an infinity or
    NaN), and the column [Entry_Phase] is that function of [Entry_Over]. *)
Theorem entry_phase_thresholds (x : number) :
  (num_leb x (of_Z 6) = true -> entry_phase x = "Powerplay")
  /\ (num_leb (of_Z 7) x = true -> num_leb x (of_Z 15) = true ->
      entry_phase x = "Middle")
  /\ (num_leb (of_Z 16) x = true -> entry_phase x = "Death")
  /\ (forall r : entry_point,
         Entry_Over r = x -> Entry_Phase (set_entry_phase r) = entry_phase x).
Proof.
  unfold entry_phase. repeat split.
  - intros H. now rewrite H.
  - intros H7 H15. rewrite H15.
    destruct x as [| |q|]; simpl in *; try discriminate.
    now rewrite (Qle_bool_false_above _ _ q six_below_seven H7).
  - intros H16.
    destruct x as [| |q|]; simpl in *; try discriminate; try reflexivity.
    rewrite (Qle_bool_false_above _ _ q six_below_sixteen H16).
    now rewrite (Qle_bool_false_above _ _ q fifteen_below_sixteen H16).
  - intros r <-. reflexivity.
Qed.

(** On whole overs the three cases are all there is. *)
Lemma entry_phase_of_Z (over : Z) :
  entry_phase (of_Z over)
  = if (over <=? 6)%Z then "Powerplay"
    else if (over <=? 15)%Z then "Middle" else "Death".
Proof.
  unfold entry_phase, of_Z, num_leb.
  assert (E : forall a b, Qle_bool (inject_Z a) (inject_Z b) = (a <=? b)%Z).
  { intros a b. unfold Qle_bool, inject_Z. simpl. now rewrite !Z.mul_1_r. }
  now rewrite !E.
Qed.

Lemma entry_phase_thresholds_witness :
  entry_phase (of_Z 3) = "Powerplay"
  /\ entry_phase (Finite (25 # 2)%Q) = "Middle"
  /\ entry_phase PosInf = "Death"
  /\ Entry_Phase (set_entry_phase
                    (mk_entry_point "Test P" "MI" "2024" (of_Z 18) (of_Z 20)
                       (of_Z 100) (of_Z 30) (of_Z 15) (of_Z 3) ""))
     = entry_phase (of_Z 18).
Proof.
  split; [|split; [|split]].
  - apply (proj1 (entry_phase_thresholds (of_Z 3))). reflexivity.
  - apply (proj1 (proj2 (entry_phase_thresholds (Finite (25 # 2)%Q))));
      reflexivity.
  - apply (proj1 (proj2 (proj2 (entry_phase_thresholds PosInf)))); reflexivity.
  - apply (proj2 (proj2 (proj2 (entry_phase_thresholds (of_Z 18))))).
    reflexivity.
Defined.

End AnalyzerFacts.

Module DifflibFacts.
Import Difflib.

(** *** The fuel of [matching_total] is enough

    A match found in the range [alo, ahi) of [a] lies in that range, so
    the ranges handed on are shorter, and any fuel above the length of
    the range gives the same total. *)

Lemma scan_row_within (pop : ascii -> bool) (ai : ascii) (i alo ahi blo bhi : nat)
    (b : list ascii) (j diag : nat) (j2len : list nat) (best : match3) :
  (alo <= i < ahi)%nat ->
  (diag <= i - alo)%nat ->
  Forall (fun k => k <= i - alo)%nat j2len ->
  within alo ahi best ->
  Forall (fun k => k <= S i - alo)%nat
         (fst (scan_row pop ai i blo bhi b j diag j2len best))
  /\ within alo ahi (snd (scan_row pop ai i blo bhi b j diag j2len best)).
Proof.
  intros Hi. revert j diag j2len best.
  induction b as [|bj b IH]; intros j diag j2len best Hd Hrow Hbest; simpl.
  - split; [constructor | exact Hbest].
  - set (k := if (blo <=? j)%nat && (j <? bhi)%nat && Ascii.eqb ai bj
                  && negb (pop bj) then S diag else O).
    assert (Hk : (k <= S i - alo)%nat) by (subst k; destruct (_ && _); lia).
    set (best' := let '(_, _, bestsize) := best in
                  if (bestsize <? k)%nat then (i + 1 - k, j + 1 - k, k)%nat
                  else best).
    assert (Hbest' : within alo ahi best').
    { subst best'. destruct best as [[bi bj'] bk].
      destruct (bk <? k)%nat eqn:E; [|exact Hbest].
      apply Nat.ltb_lt in E. simpl. lia. }
    assert (Hd' : (hd O j2len <= i - alo)%nat).
    { destruct j2len as [|x r]; simpl; [lia|]. now inversion Hrow. }
    assert (Hrow' : Forall (fun k => k <= i - alo)%nat (tl j2len)).
    { destruct j2len as [|x r]; simpl; [constructor|]. now inversion Hrow. }
    destruct (IH (S j) (hd O j2len) (tl j2len) best' Hd' Hrow' Hbest')
      as [H1 H2].
    destruct (scan_row pop ai i blo bhi b (S j) (hd O j2len) (tl j2len) best')
      as [row best'']. simpl in *. split; [now constructor | exact H2].
Qed.

Lemma scan_rows_within (pop : ascii -> bool) (a_rest : list ascii)
    (i alo ahi blo bhi : nat) (b : list ascii) (j2len : list nat)
    (best : match3) :
  (alo <= i)%nat ->
  Forall (fun k => k <= i - alo)%nat j2len ->
  within alo ahi best ->
  within alo ahi (scan_rows pop a_rest i ahi blo bhi b j2len best).
Proof.
  revert i j2len best.
  induction a_rest as [|ai a_rest IH]; intros i j2len best Hi Hrow Hbest;
    simpl; [exact Hbest|].
  destruct (i <? ahi)%nat eqn:E; [|exact Hbest].
  apply Nat.ltb_lt in E.
  destruct (scan_row_within pop ai i alo ahi blo bhi b O O j2len best)
    as [H1 H2]; try lia; auto.
  destruct (scan_row pop ai i blo bhi b O O j2len best) as [row best'].
  simpl in *. apply IH; [lia| |exact H2].
  exact H1.
Qed.

Lemma extend_left_within (fuel : nat) (a b : list ascii) (alo ahi blo : nat)
    (m : match3) :
  within alo ahi m -> within alo ahi (extend_left fuel a b alo blo m).
Proof.
  revert m. induction fuel as [|fuel IH]; intros [[i j] k] H; simpl; [exact H|].
  destruct (_ && _) eqn:E; [|exact H].
  apply IH. apply andb_true_iff in E as [E _].
  apply andb_true_iff in E as [E _]. apply Nat.ltb_lt in E.
  simpl in *. lia.
Qed.

Lemma extend_right_within (fuel : nat) (a b : list ascii) (alo ahi bhi : nat)
    (m : match3) :
  within alo ahi m -> within alo ahi (extend_right fuel a b ahi bhi m).
Proof.
  revert m. induction fuel as [|fuel IH]; intros [[i j] k] H; simpl; [exact H|].
  destruct (_ && _) eqn:E; [|exact H].
  apply IH. apply andb_true_iff in E as [E _].
  apply andb_true_iff in E as [E _]. apply Nat.ltb_lt in E.
  simpl in *. lia.
Qed.

(** The two loops that grow a match stop by their tests: fuel above the
    number of steps left changes nothing. *)
Lemma extend_left_fuel (fuel1 fuel2 : nat) (a b : list ascii) (alo blo : nat)
    (m : match3) :
  (fst (fst m) <= fuel1)%nat -> (fst (fst m) <= fuel2)%nat ->
  extend_left fuel1 a b alo blo m = extend_left fuel2 a b alo blo m.
Proof.
  revert fuel2 m.
  induction fuel1 as [|fuel1 IH]; intros [|fuel2] [[i j] k] H1 H2; simpl in *;
    try reflexivity.
  - replace i with O by lia. now destruct (alo <? 0)%nat eqn:E.
  - replace i with O by lia. now destruct (alo <? 0)%nat eqn:E.
  - destruct (_ && _); [|reflexivity]. apply IH; simpl; lia.
Qed.

Lemma extend_right_fuel (fuel1 fuel2 : nat) (a b : list ascii) (ahi bhi : nat)
    (m : match3) :
  (ahi - (fst (fst m) + snd m) <= fuel1)%nat ->
  (ahi - (fst (fst m) + snd m) <= fuel2)%nat ->
  extend_right fuel1 a b ahi bhi m = extend_right fuel2 a b ahi bhi m.
Proof.
  revert fuel2 m.
  induction fuel1 as [|fuel1 IH]; intros [|fuel2] [[i j] k] H1 H2; simpl in *;
    try reflexivity.
  - destruct (i + k <? ahi)%nat eqn:E; [|reflexivity].
    apply Nat.ltb_lt in E. lia.
  - destruct (i + k <? ahi)%nat eqn:E; [|reflexivity].
    apply Nat.ltb_lt in E. lia.
  - destruct (_ && _); [|reflexivity]. apply IH; simpl; lia.
Qed.

Lemma find_longest_match_within (a b : list ascii) (alo ahi blo bhi : nat) :
  (alo <= ahi)%nat ->
  within alo ahi (find_longest_match a b alo ahi blo bhi).
Proof.
  intros H. unfold find_longest_match.
  set (best := scan_rows _ _ _ _ _ _ _ _ _).
  assert (Hb : within alo ahi best).
  { apply scan_rows_within; [lia | constructor | simpl; lia]. }
  set (best1 := extend_left _ a b alo blo best).
  assert (Hb1 : within alo ahi best1) by now apply extend_left_within.
  destruct best1 as [[i j] k]. now apply extend_right_within.
Qed.

(** Any fuel above the length of the range gives the same total. *)
Lemma matching_total_fuel (fuel1 fuel2 : nat) (a b : list ascii)
    (alo ahi blo bhi : nat) :
  (alo <= ahi)%nat -> (ahi - alo < fuel1)%nat -> (ahi - alo < fuel2)%nat ->
  matching_total fuel1 a b alo ahi blo bhi
  = matching_total fuel2 a b alo ahi blo bhi.
Proof.
  revert fuel2 alo ahi blo bhi.
  induction fuel1 as [|fuel1 IH]; intros fuel2 alo ahi blo bhi Hr H1 H2;
    [lia|].
  destruct fuel2 as [|fuel2]; [lia|]. simpl.
  pose proof (find_longest_match_within a b alo ahi blo bhi Hr) as Hw.
  destruct (find_longest_match a b alo ahi blo bhi) as [[i j] k].
  simpl in Hw. destruct (k =? 0)%nat eqn:Ek; [reflexivity|].
  apply Nat.eqb_neq in Ek. f_equal; [f_equal|].
  - destruct ((alo <? i)%nat && (blo <? j)%nat) eqn:E; [|reflexivity].
    apply andb_true_iff in E as [E _]. apply Nat.ltb_lt in E.
    apply IH; lia.
  - destruct ((i + k <? ahi)%nat && (j + k <? bhi)%nat) eqn:E; [|reflexivity].
    apply andb_true_iff in E as [E _]. apply Nat.ltb_lt in E.
    apply IH; lia.
Qed.

(** The ratio does not depend on the fuel it is computed with. *)
Lemma ratio_fuel (fuel : nat) (a b : list ascii) :
  (List.length a < fuel)%nat ->
  ratio a b
  = calculate_ratio
      (matching_total fuel a b O (List.length a) O (List.length b))
      (List.length a + List.length b).
Proof.
  intros H. unfold ratio. f_equal. apply matching_total_fuel; lia.
Qed.

(** *** The best close match

    The sort puts first a pair whose score is above the score of every
    other pair. *)

Lemma insert_pair_In (p q : Q * string) (l : list (Q * string)) :
  In q (insert_pair p l) <-> q = p \/ In q l.
Proof.
  induction l as [|h t IH]; simpl; [intuition|].
  destruct (pair_geb p h); simpl; [intuition|]. rewrite IH. intuition.
Qed.

Lemma sort_pairs_In (q : Q * string) (l : list (Q * string)) :
  In q (sort_pairs l) <-> In q l.
Proof.
  induction l as [|h t IH]; simpl; [tauto|].
  rewrite insert_pair_In, IH. intuition.
Qed.

Lemma pair_geb_refl (p : Q * string) : pair_geb p p = true.
Proof.
  unfold pair_geb. rewrite (proj1 (Qeq_alt (fst p) (fst p)) (Qeq_refl _)).
  destruct (String.leb_total (snd p) (snd p)); assumption.
Qed.

Lemma sort_pairs_best (best : Q * string) (l : list (Q * string)) :
  In best l ->
  (forall q, In q l -> q = best \/ (fst q < fst best)%Q) ->
  exists rest, sort_pairs l = best :: rest.
Proof.
  induction l as [|x t IH]; intros Hin Hall; [destruct Hin|].
  simpl. destruct (Hall x (or_introl eq_refl)) as [->|Hlt].
  - destruct (sort_pairs t) as [|h r] eqn:E; simpl; [now exists []|].
    assert (Hh : In h t) by (apply sort_pairs_In; rewrite E; now left).
    destruct (Hall h (or_intror Hh)) as [->|Hlt].
    + rewrite pair_geb_refl. eauto.
    + assert (E' : (fst best ?= fst h)%Q = Gt) by now apply Qgt_alt.
      unfold pair_geb. rewrite E'. eauto.
  - destruct Hin as [->|Hin]; [now apply Qlt_irrefl in Hlt|].
    destruct (IH Hin (fun q Hq => Hall q (or_intror Hq))) as [rest ->].
    assert (E' : (fst x ?= fst best)%Q = Lt) by now apply Qlt_alt.
    simpl. unfold pair_geb. rewrite E'. eauto.
Qed.

(** A close match is one of the possibilities. *)
Lemma get_close_matches_In (word : string) (possibilities : list string)
    (n : nat) (cutoff : Q) (m : string) :
  In m (get_close_matches word possibilities n cutoff) -> In m possibilities.
Proof.
  unfold get_close_matches. intros H.
  apply in_map_iff in H as ([s x] & <- & H). simpl.
  assert (H' : In (s, x) (sort_pairs
    (flat_map
       (fun x0 =>
          if Qle_bool cutoff (real_quick_ratio (list_ascii_of_string x0)
                                               (list_ascii_of_string word))
             && Qle_bool cutoff (quick_ratio (list_ascii_of_string x0)
                                             (list_ascii_of_string word))
             && Qle_bool cutoff (ratio (list_ascii_of_string x0)
                                       (list_ascii_of_string word))
          then [(ratio (list_ascii_of_string x0) (list_ascii_of_string word), x0)]
          else []) possibilities))).
  { rewrite <- (firstn_skipn n). apply in_or_app. now left. }
  apply sort_pairs_In, in_flat_map in H' as (x0 & Hx0 & Hin).
  cbv beta in Hin. revert Hin.
  destruct (Qle_bool cutoff (real_quick_ratio (list_ascii_of_string x0) _)
              && _ && _);
    intros Hin; [|destruct Hin].
  destruct Hin as [[= _ ->]|[]]. exact Hx0.
Qed.

(** A possibility that passes the cutoff and is more similar to the word
    than every other possibility is the first close match. *)
Lemma get_close_matches_best (word best : string) (possibilities : list string)
    (n : nat) (cutoff : Q) :
  In best possibilities ->
  Qle_bool cutoff (real_quick_ratio (list_ascii_of_string best)
                                    (list_ascii_of_string word))
  && Qle_bool cutoff (quick_ratio (list_ascii_of_string best)
                                  (list_ascii_of_string word))
  && Qle_bool cutoff (ratio (list_ascii_of_string best)
                            (list_ascii_of_string word)) = true ->
  (forall x, In x possibilities -> x <> best ->
     (ratio (list_ascii_of_string x) (list_ascii_of_string word)
      < ratio (list_ascii_of_string best) (list_ascii_of_string word))%Q) ->
  exists rest,
    get_close_matches word possibilities (S n) cutoff = best :: rest.
Proof.
  intros Hin Hpass Hbest. unfold get_close_matches.
  set (score := fun x => ratio (list_ascii_of_string x) (list_ascii_of_string word)).
  set (result := flat_map _ possibilities).
  destruct (sort_pairs_best (score best, best) result) as [rest Hrest].
  - apply in_flat_map. exists best. split; [exact Hin|].
    rewrite Hpass. now left.
  - intros [s x] Hq. apply in_flat_map in Hq as (x0 & Hx0 & Hq).
    cbv beta in Hq. revert Hq.
    destruct (Qle_bool cutoff (real_quick_ratio (list_ascii_of_string x0) _)
              && _ && _);
      intros Hq; [|destruct Hq].
    destruct Hq as [[= <- <-]|[]].
    destruct (string_dec x0 best) as [->|Hne]; [now left|].
    right. simpl. now apply Hbest.
  - rewrite Hrest. simpl. eauto.
Qed.

End DifflibFacts.

Module LeaderboardFacts.
Import Analyzer.

(** *** The order of the descending sort *)

Lemma sorts_before_total (x y : number) :
  sorts_before x y = false -> sorts_before y x = true.
Proof.
  destruct x as [| |p|], y as [| |q|]; simpl; try discriminate; auto.
  intros H. apply Qle_bool_iff.
  destruct (Qlt_le_dec q p) as [Hlt|Hle].
  - apply Qlt_le_weak in Hlt. apply Qle_bool_iff in Hlt.
    rewrite Hlt in H. discriminate.
  - exact Hle.
Qed.

Lemma sorts_before_trans (x y z : number) :
  sorts_before x y = true -> sorts_before y z = true ->
  sorts_before x z = true.
Proof.
  destruct x as [| |p|], y as [| |q|], z as [| |r|]; simpl;
    try discriminate; auto.
  intros H1 H2. apply Qle_bool_iff in H1, H2. apply Qle_bool_iff.
  now apply Qle_trans with q.
Qed.

Lemma insert_performance_In (r x : performance) (l : list performance) :
  In x (insert_performance r l) <-> x = r \/ In x l.
Proof.
  induction l as [|h t IH]; simpl.
  - intuition.
  - destruct (sorts_before _ _); simpl; [intuition|].
    rewrite IH. intuition.
Qed.

Lemma sort_values_desc_In (x : performance) (l : list performance) :
  In x (sort_values_desc l) <-> In x l.
Proof.
  induction l as [|h t IH]; simpl; [tauto|].
  rewrite insert_performance_In, IH. intuition.
Qed.

Lemma insert_performance_sorted (r : performance) (l : list performance) :
  StronglySorted in_order l -> StronglySorted in_order (insert_performance r l).
Proof.
  induction 1 as [|h t Hs IH Hall]; simpl.
  - repeat constructor.
  - destruct (sorts_before (perf_Final_Strike_Rate r)
                           (perf_Final_Strike_Rate h)) eqn:E.
    + constructor; [now constructor|].
      constructor; [exact E|].
      apply Forall_forall. intros x Hx.
      rewrite Forall_forall in Hall. unfold in_order in *.
      eapply sorts_before_trans; [exact E | now apply Hall].
    + constructor; [exact IH|].
      apply Forall_forall. intros x Hx.
      apply insert_performance_In in Hx as [->|Hx].
      * now apply sorts_before_total.
      * rewrite Forall_forall in Hall. now apply Hall.
Qed.

Lemma sort_values_desc_sorted (l : list performance) :
  StronglySorted in_order (sort_values_desc l).
Proof.
  induction l as [|h t IH]; simpl; [constructor|].
  now apply insert_performance_sorted.
Qed.

Lemma firstn_In {A : Type} (n : nat) (l : list A) (x : A) :
  In x (firstn n l) -> In x l.
Proof.
  intros H. rewrite <- (firstn_skipn n l). apply in_or_app. now left.
Qed.

Lemma firstn_sorted {A : Type} (R : A -> A -> Prop) (n : nat) (l : list A) :
  StronglySorted R l -> StronglySorted R (firstn n l).
Proof.
  revert n. induction l as [|h t IH]; intros [|n] Hs; simpl; try constructor.
  - apply IH. now inversion Hs.
  - inversion Hs as [|? ? _ Hall]; subst.
    apply Forall_forall. intros x Hx. rewrite Forall_forall in Hall.
    apply Hall. eapply firstn_In. exact Hx. 
Qed.

Lemma head_sorted {A : Type} (R : A -> A -> Prop) (n : Z) (l : list A) :
  StronglySorted R l -> StronglySorted R (head n l).
Proof. unfold head. destruct (0 <=? n)%Z; apply firstn_sorted. Qed.

Lemma head_In {A : Type} (n : Z) (l : list A) (x : A) :
  In x (head n l) -> In x l.
Proof. unfold head. destruct (0 <=? n)%Z; apply firstn_In. Qed.

Lemma count_values_le (l : list number) : (count_values l <= len_Z l)%Z.
Proof.
  unfold count_values, len_Z. apply Nat2Z.inj_le.
  induction l as [|x l IH]; simpl; [lia|].
  destruct (negb (is_nan x)); simpl; lia.
Qed.

Lemma StronglySorted_map_in {A B : Type} (R : A -> A -> Prop)
    (R' : B -> B -> Prop) (f : A -> B) (l : list A) :
  (forall x y, In x l -> In y l -> R x y -> R' (f x) (f y)) ->
  StronglySorted R l -> StronglySorted R' (map f l).
Proof.
  intros H Hs. induction Hs as [|h t Hs IH Hall]; simpl; constructor.
  - apply IH. intros x y Hx Hy. apply H; now right.
  - apply Forall_forall. intros b Hb.
    apply in_map_iff in Hb as (y & <- & Hy).
    rewrite Forall_forall in Hall.
    apply H; [now left | now right | now apply Hall].
Qed.

(** *** The code against what it is read against *)

Lemma target_phase_expected (phase : string) :
  target_phase_of phase = Expected.phase_name_of phase.
Proof.
  unfold target_phase_of, Expected.phase_name_of, Expected.phase_names.
  cbn [find fst snd].
  rewrite (String.eqb_sym "powerplay"), (String.eqb_sym "middle"),
    (String.eqb_sym "death").
  destruct (lower phase =? "powerplay"); [reflexivity|].
  destruct (lower phase =? "middle"); [reflexivity|].
  now destruct (lower phase =? "death").
Qed.

(** The rows of a player among the rows of a phase are the records of
    the player in the phase. *)
Lemma phase_entries_expected (entry_points : list entry_point)
    (target_phase p : string) :
  player_rows p (phase_rows entry_points target_phase)
  = Expected.records_in_phase entry_points target_phase p.
Proof.
  unfold player_rows, phase_rows, Expected.records_in_phase.
  induction entry_points as [|r l IH]; [reflexivity|].
  cbn [filter].
  destruct (Entry_Phase r =? target_phase); cbn [filter];
    destruct (Player r =? p); cbn [andb]; now rewrite IH.
Qed.

Lemma sorts_before_descending (x y : number) :
  sorts_before x y = true -> Expected.descending x y.
Proof.
  destruct x as [| |a|], y as [| |b|]; simpl; try discriminate; auto.
  apply Qle_bool_iff.
Qed.

Section Leaderboard.

Variable mean : list number -> number.
Variable round1 : number -> number.

(** A row of the aggregation holds the mean strike rate of its player and
    the count of its entry overs. *)
Lemma aggregate_players_row (rows : list entry_point) (r : performance) :
  In r (aggregate_players mean rows) ->
  perf_Final_Strike_Rate r
  = mean (map Final_Strike_Rate (player_rows (perf_Player r) rows))
  /\ perf_Entry_Over r
     = count_values (map Entry_Over (player_rows (perf_Player r) rows)).
Proof.
  unfold aggregate_players. intros H.
  apply in_map_iff in H as (p & <- & _). now split.
Qed.

Lemma best_performance_In (entry_points : list entry_point) (phase : string)
    (min_matches : Z) (top_n : option Z) (min_sr max_sr : option number)
    (r : performance) :
  In r (best_performance mean entry_points phase min_matches top_n min_sr max_sr) ->
  In r (aggregate_players mean (phase_rows entry_points (target_phase_of phase)))
  /\ (min_matches <= perf_Entry_Over r)%Z.
Proof.
  unfold best_performance. cbv zeta. intros H.
  assert (H1 : forall l, In r (match top_n with
                               | Some n => head n (sort_values_desc l)
                               | None => sort_values_desc l
                               end) -> In r l).
  { intros l Hl. apply sort_values_desc_In.
    destruct top_n; [now apply head_In in Hl | exact Hl]. }
  apply H1 in H.
  destruct max_sr; [apply filter_In in H as [H _]|];
    (destruct min_sr; [apply filter_In in H as [H _]|]);
    apply filter_In in H as [H Hm]; (split; [exact H | now apply Z.leb_le]).
Qed.

Lemma best_performance_sorted (entry_points : list entry_point) (phase : string)
    (min_matches : Z) (top_n : option Z) (min_sr max_sr : option number) :
  StronglySorted in_order
    (best_performance mean entry_points phase min_matches top_n min_sr max_sr).
Proof.
  unfold best_performance.
  destruct top_n; [apply head_sorted|]; apply sort_values_desc_sorted.
Qed.

(** C4.  Every player of the list returned by
    [get_best_players_for_phase] has at least [min_matches] entry-point
    records in the phase, the list is in descending order of the mean
    strike rate of its players over those records (a mean that is NaN
    comes last), and each entry shows that mean, rounded; in particular
    the list for [death] with [min_matches = 3] holds only players with at
    least 3 records whose entry phase is [Death]. *)
Theorem best_players_filtered_and_sorted (entry_points : list entry_point)
    (phase : string) (min_matches : Z) (top_n : option Z)
    (min_sr max_sr : option number) :
  let phase_name := Expected.phase_name_of phase in
  let result :=
    get_best_players_for_phase mean round1 entry_points phase min_matches
                               top_n min_sr max_sr in
  let mean_strike_rate (p : string) :=
    mean (map Final_Strike_Rate
              (Expected.records_in_phase entry_points phase_name p)) in
  (forall b, In b result ->
     (min_matches
      <= len_Z (Expected.records_in_phase entry_points phase_name (player b)))%Z
     /\ avg_strike_rate b = round1 (mean_strike_rate (player b)))
  /\ StronglySorted
       (fun b1 b2 =>
          Expected.descending (mean_strike_rate (player b1))
                              (mean_strike_rate (player b2)))
       result
  /\ (forall b,
        In b (get_best_players_for_phase mean round1 entry_points "death" 3
                                         None None None) ->
        (3 <= len_Z (filter (fun r => String.eqb (Player r) (player b)
                                      && String.eqb (Entry_Phase r) "Death")
                            entry_points))%Z).
Proof.
  assert (Hin : forall ph mm tn lo hi b,
            In b (get_best_players_for_phase mean round1 entry_points ph mm
                                             tn lo hi) ->
            (mm <= len_Z (Expected.records_in_phase entry_points
                            (Expected.phase_name_of ph) (player b)))%Z
            /\ avg_strike_rate b
               = round1 (mean (map Final_Strike_Rate
                                   (Expected.records_in_phase entry_points
                                      (Expected.phase_name_of ph) (player b))))).
  { intros ph mm tn lo hi b Hb. unfold get_best_players_for_phase in Hb.
    apply in_map_iff in Hb as (r & <- & Hr).
    apply best_performance_In in Hr as [Hr Hm].
    apply aggregate_players_row in Hr as [Hsr Hcount].
    rewrite phase_entries_expected, target_phase_expected in Hsr, Hcount.
    cbn [player avg_strike_rate format_best]. split.
    - rewrite Hcount in Hm.
      pose proof (count_values_le
                    (map Entry_Over
                       (Expected.records_in_phase entry_points
                          (Expected.phase_name_of ph) (perf_Player r)))) as Hle.
      unfold len_Z in Hle. rewrite length_map in Hle.
      unfold len_Z. lia.
    - now rewrite Hsr. }
  cbv zeta. split; [|split].
  - intros b Hb. now apply Hin in Hb.
  - unfold get_best_players_for_phase.
    apply StronglySorted_map_in with (R := in_order);
      [|apply best_performance_sorted].
    intros x y Hx Hy Hxy. cbn [player format_best].
    apply best_performance_In in Hx as [Hx _], Hy as [Hy _].
    apply aggregate_players_row in Hx as [Hx _], Hy as [Hy _].
    rewrite phase_entries_expected, target_phase_expected in Hx, Hy.
    rewrite <- Hx, <- Hy. now apply sorts_before_descending.
  - intros b Hb. apply Hin in Hb as [Hb _]. exact Hb.
Qed.

End Leaderboard.

(** The scenario of one player with three entries in the death overs, of
    strike rates 100, 150 and 200: the leaderboard holds that player, with
    a mean of 150 over 3 matches. *)
Example test_p_leaderboard :
  Exact.best_players Samples.test_p "death" 1 None None None
  = [ mk_best_player "Test P" (of_Z 150) (of_Z 30) (of_Z 30) (of_Z 15) 3 ].
Proof. vm_compute. reflexivity. Qed.

(** The league: in the death overs Dhoni and Russell have three entries
    each and Rinku Singh two of his four; with [min_matches = 3] the
    leaderboard holds Dhoni before Russell. *)
Example league_death_leaderboard :
  Exact.best_players Samples.league "death" 3 None None None
  = [ mk_best_player "MS Dhoni" (of_Z 200) (of_Z 20) (of_Z 30) (of_Z 15) 3;
      mk_best_player "Andre Russell" (of_Z 140) (of_Z 40) (of_Z 30) (of_Z 15) 3 ].
Proof. vm_compute. reflexivity. Qed.

Lemma best_players_filtered_and_sorted_witness :
  let result := Exact.best_players Samples.league "death" 3 None None None in
  let mean_strike_rate (p : string) :=
    Exact.mean (map Final_Strike_Rate
                    (Expected.records_in_phase Samples.league "Death" p)) in
  map (fun b => (player b, avg_strike_rate b, matches b)) result
  = [ ("MS Dhoni", of_Z 200, 3%Z); ("Andre Russell", of_Z 140, 3%Z) ]
  /\ (forall b, In b result ->
        (3 <= len_Z (Expected.records_in_phase Samples.league "Death"
                       (player b)))%Z
        /\ avg_strike_rate b = Exact.round1 (mean_strike_rate (player b)))
  /\ StronglySorted
       (fun b1 b2 =>
          Expected.descending (mean_strike_rate (player b1))
                              (mean_strike_rate (player b2)))
       result
  /\ len_Z (Expected.records_in_phase Samples.league "Death" "Rinku Singh")
     = 2%Z
  /\ len_Z (filter (fun r => String.eqb (Player r) "Rinku Singh")
                   Samples.league) = 4%Z.
Proof.
  cbv zeta. split; [vm_compute; reflexivity|].
  pose proof (best_players_filtered_and_sorted Exact.mean Exact.round1
                Samples.league "death" 3 None None None) as (H1 & H2 & _).
  split; [exact H1|]. split; [exact H2|].
  split; vm_compute; reflexivity.
Defined.

End LeaderboardFacts.

Module ResolutionFacts.
Import Analyzer.

(** *** Lower case and white space *)

Lemma is_space_lower (c : ascii) : is_space (ascii_lower c) = is_space c.
Proof.
  destruct c as [[] [] [] [] [] [] [] []]; reflexivity.
Qed.

Lemma space_eqb_lower (c : ascii) :
  Ascii.eqb (ascii_lower c) " " = Ascii.eqb c " ".
Proof.
  destruct c as [[] [] [] [] [] [] [] []]; reflexivity.
Qed.

Lemma lower_empty_iff (s : string) : (lower s =? "") = (s =? "").
Proof. now destruct s. Qed.

Lemma split_ws_go_lower (s cur : string) :
  split_ws_go (lower s) (lower cur) = map lower (split_ws_go s cur).
Proof.
  revert cur. induction s as [|c s IH]; intros cur; simpl.
  - rewrite lower_empty_iff. now destruct (cur =? "").
  - rewrite is_space_lower, lower_empty_iff.
    destruct (is_space c).
    + destruct (cur =? ""); simpl; [apply (IH "") | f_equal; apply (IH "")].
    + rewrite <- IH. f_equal. now rewrite PyStrFacts.lower_app.
Qed.

Lemma split_ws_lower (s : string) :
  split_ws (lower s) = map lower (split_ws s).
Proof. apply (split_ws_go_lower s ""). Qed.

Lemma contains_space_cons (c : ascii) (s : string) :
  contains " " (String c s) = Ascii.eqb c " " || contains " " s.
Proof.
  rewrite PyStrFacts.contains_cons. f_equal.
  change (String.prefix " " (String c s))
    with (if ascii_dec " " c then String.prefix "" s else false).
  destruct (ascii_dec " " c) as [<-|ne].
  - now destruct s.
  - symmetry. apply Ascii.eqb_neq. congruence.
Qed.

Lemma contains_space_lower (s : string) :
  contains " " (lower s) = contains " " s.
Proof.
  induction s as [|c s IH]; [reflexivity|].
  cbn [lower]. now rewrite !contains_space_cons, space_eqb_lower, IH.
Qed.

(** *** The resolution reads the name through its lower case *)

Lemma last_name_of_lower (player_name : string) :
  last_name_of (lower player_name) = lowered (last_name_of player_name).
Proof.
  unfold last_name_of. rewrite contains_space_lower, split_ws_lower.
  destruct (contains " " player_name); [|reflexivity].
  rewrite <- map_rev. now destruct (rev (split_ws player_name)).
Qed.

Lemma last_name_match_lower (entry_points : list entry_point)
    (all_players : list string) (l1 l2 : string) :
  lower l1 = lower l2 ->
  last_name_match entry_points all_players l1
  = last_name_match entry_points all_players l2.
Proof. intros H. unfold last_name_match. now rewrite H. Qed.

Lemma first_name_match_lower (all_players : list string) (n1 n2 : string) :
  lower n1 = lower n2 ->
  first_name_match all_players n1 = first_name_match all_players n2.
Proof.
  intros H. unfold first_name_match.
  assert (E : forall n, lower (hd "" (split_ws n)) = hd "" (split_ws (lower n))).
  { intros n. rewrite split_ws_lower. now destruct (split_ws n). }
  now rewrite !E, H.
Qed.

Lemma fuzzy_match_lower (all_players : list string) (n1 n2 : string) :
  lower n1 = lower n2 ->
  fuzzy_match all_players n1 = fuzzy_match all_players n2.
Proof. intros H. unfold fuzzy_match. now rewrite H. Qed.

Lemma resolve_fuzzy_lower (entry_points : list entry_point) (n1 n2 : string) :
  lower n1 = lower n2 ->
  resolve_fuzzy entry_points n1 = resolve_fuzzy entry_points n2.
Proof.
  intros H. unfold resolve_fuzzy.
  rewrite (fuzzy_match_lower _ n1 n2 H).
  destruct (is_set (fuzzy_match _ n2)); [reflexivity|].
  assert (Hl : lowered (last_name_of n1) = lowered (last_name_of n2))
    by now rewrite <- !last_name_of_lower, H.
  assert (Hs : contains " " n1 = contains " " n2)
    by now rewrite <- (contains_space_lower n1), H, contains_space_lower.
  destruct (last_name_of n1) as [e1|l1], (last_name_of n2) as [e2|l2];
    simpl in Hl; try discriminate; [congruence|].
  injection Hl as Hl.
  rewrite (last_name_match_lower _ _ l1 l2 Hl), Hs,
    (first_name_match_lower _ n1 n2 H).
  reflexivity.
Qed.

(** Two names that differ by the case of their letters select the same
    rows. *)
Lemma resolve_player_data_lower (entry_points : list entry_point)
    (n1 n2 : string) :
  lower n1 = lower n2 ->
  resolve_player_data entry_points n1 = resolve_player_data entry_points n2.
Proof.
  intros H. unfold resolve_player_data.
  assert (E : filter (name_contains n1) entry_points
              = filter (name_contains n2) entry_points).
  { apply filter_ext. intros r. unfold name_contains. now rewrite H. }
  rewrite E, (resolve_fuzzy_lower _ n1 n2 H). reflexivity.
Qed.

(** *** A misspelt name *)

Lemma exact_rows_of_kohli (entry_points : list entry_point) :
  (forall r, In r entry_points ->
             name_contains "Virat Kohli" r = true -> Player r = "Virat Kohli") ->
  filter (name_contains "Virat Kohli") entry_points
  = player_rows "Virat Kohli" entry_points.
Proof.
  intros H. unfold player_rows. apply filter_ext_in. intros r Hr.
  destruct (name_contains "Virat Kohli" r) eqn:E.
  - rewrite (H r Hr E). reflexivity.
  - destruct (Player r =? "Virat Kohli") eqn:E'; [|reflexivity].
    apply String.eqb_eq in E'. unfold name_contains in E.
    rewrite E' in E. discriminate E.
Qed.

Lemma unique_go_In (x : string) (seen l : list string) :
  In x (unique_go seen l) <-> In x l /\ mem x seen = false.
Proof.
  revert seen. induction l as [|h t IH]; intros seen; simpl; [tauto|].
  destruct (mem h seen) eqn:E.
  - rewrite IH. split; [tauto|]. intros [[->|H] Hs]; [congruence | tauto].
  - simpl. rewrite IH. simpl.
    destruct (String.eqb_spec x h) as [->|Hne]; simpl.
    + tauto.
    + split.
      * intros [->|[H1 H2]]; [congruence | tauto].
      * intros [[->|H1] H2]; [congruence | tauto].
Qed.

Lemma unique_In (x : string) (l : list string) : In x (unique l) <-> In x l.
Proof. unfold unique. rewrite unique_go_In. simpl. tauto. Qed.

Lemma find_all_false {A : Type} (f : A -> bool) (l : list A) :
  (forall x, In x l -> f x = false) -> find f l = None.
Proof.
  induction l as [|h t IH]; intros H; simpl; [reflexivity|].
  rewrite (H h (or_introl eq_refl)). apply IH. intros x Hx. apply H. now right.
Qed.

Lemma find_only {A : Type} (f : A -> bool) (l : list A) (a : A) :
  In a l -> f a = true ->
  (forall x, In x l -> f x = true -> x = a) ->
  find f l = Some a.
Proof.
  intros Hin Hfa Honly. destruct (find f l) as [y|] eqn:E.
  - apply find_some in E as [Hy Hfy]. now rewrite (Honly y Hy Hfy).
  - rewrite (find_none f l E a Hin) in Hfa. discriminate.
Qed.

Lemma contains_refl (s : string) : contains s s = true.
Proof.
  apply PyStrFacts.contains_iff. exists "", "". simpl.
  induction s as [|c s IH]; simpl; [reflexivity | now rewrite <- IH].
Qed.

(** The two words of the misspelt name are covered when both are there. *)
Lemma words_covered_virat_kohly (ws : list string) :
  words_covered ["virat"; "kohly"] ws = mem "virat" ws && mem "kohly" ws.
Proof.
  unfold words_covered.
  change (nodup string_dec ["virat"; "kohly"]) with ["virat"; "kohly"].
  simpl. destruct (mem "virat" ws), (mem "kohly" ws); reflexivity.
Qed.

(** The close-match strategy settles on Virat Kohli when every other
    name is less similar to the misspelling, none has its two words, and
    no other name reads [virat kohli] in lower case. *)
Lemma fuzzy_match_kohly (entry_points : list entry_point) :
  In "Virat Kohli" (map Player entry_points) ->
  (forall r, In r entry_points -> Player r <> "Virat Kohli" ->
     (Difflib.ratio (list_ascii_of_string (lower (Player r)))
                    (list_ascii_of_string "virat kohly")
      < Difflib.ratio (list_ascii_of_string "virat kohli")
                      (list_ascii_of_string "virat kohly"))%Q) ->
  (forall r, In r entry_points ->
     mem "virat" (split_ws (lower (Player r)))
     && mem "kohly" (split_ws (lower (Player r))) = false) ->
  (forall r, In r entry_points ->
     name_contains "Virat Kohli" r = true -> Player r = "Virat Kohli") ->
  fuzzy_match (unique (map Player entry_points)) "Virat Kohly"
  = Some "Virat Kohli".
Proof.
  intros H0 Ha Hb H3.
  set (all_players := unique (map Player entry_points)).
  assert (Hrow : forall p, In p all_players ->
                           exists r, In r entry_points /\ Player r = p).
  { intros p Hp. apply unique_In, in_map_iff in Hp as (r & <- & Hr). eauto. }
  assert (Hall : In "Virat Kohli" all_players) by now apply unique_In.
  assert (Hspell : forall p, In p all_players ->
                     (lower p =? "virat kohli") = true -> p = "Virat Kohli").
  { intros p Hp E. apply String.eqb_eq in E.
    destruct (Hrow p Hp) as (r & Hr & <-). apply (H3 r Hr).
    unfold name_contains. rewrite E. apply contains_refl. }
  destruct (DifflibFacts.get_close_matches_best "virat kohly" "virat kohli"
              (map lower all_players) 2 (6 # 10)%Q) as [rest Hclose].
  - change "virat kohli" with (lower "Virat Kohli"). now apply in_map.
  - vm_compute. reflexivity.
  - intros x Hx Hne. apply in_map_iff in Hx as (p & <- & Hp).
    destruct (Hrow p Hp) as (r & Hr & <-). apply (Ha r Hr).
    intros E. apply Hne. now rewrite E.
  - unfold fuzzy_match.
    change (lower "Virat Kohly") with "virat kohly".
    fold all_players. rewrite Hclose.
    change (split_ws "virat kohly") with ["virat"; "kohly"].
    cbn [truthy_list hd].
    rewrite find_all_false.
    + cbn [is_set]. unfold player_spelled.
      apply find_only; [exact Hall | reflexivity | exact Hspell].
    + intros m Hm. rewrite words_covered_virat_kohly.
      assert (Hm' : In m (map lower all_players)).
      { apply (DifflibFacts.get_close_matches_In "virat kohly" _ 3 (6 # 10)%Q).
        rewrite Hclose. exact Hm. }
      apply in_map_iff in Hm' as (p & <- & Hp).
      destruct (Hrow p Hp) as (r & Hr & <-). now apply Hb.
Qed.

Lemma find_none_filter (entry_points : list entry_point) :
  (forall r, In r entry_points -> name_contains "Virat Kohly" r = false) ->
  filter (name_contains "Virat Kohly") entry_points = [].
Proof.
  induction entry_points as [|h t IH]; intros H; simpl; [reflexivity|].
  rewrite (H h (or_introl eq_refl)). apply IH. intros r Hr. apply H. now right.
Qed.

Section Resolution.

Variable mean : list number -> number.
Variable round1 : number -> number.
Variable frame_round1 : number -> number.
Variable series_max : list number -> number.
Variable int_of_sum : list number -> Z.
Variable py_int : string -> option Z.

Local Abbreviation stats_of :=
  (get_player_stats mean round1 frame_round1 series_max int_of_sum py_int).

(** C7 (amended).  On a dataset whose player names are ASCII text, the
    resolution of a name is case-insensitive: plain names (ASCII text
    without metacharacters of regular expressions) with the same lower
    case get the same answer.  In such a dataset that contains Virat
    Kohli, in which no player name contains the misspelt [virat kohly],
    every other name is less similar to the misspelling than
    [virat kohli] is, no name has the two words of the misspelling, and
    no other name contains [virat kohli] (letter case ignored), the
    misspelt name selects the rows, and gets the summary, of the right
    name. *)
Theorem misspelt_name_resolves (entry_points : list entry_point) :
  ascii_names entry_points = true ->
  (forall n1 n2,
      plain_text n1 = true -> plain_text n2 = true -> lower n1 = lower n2 ->
      stats_of entry_points n1 = stats_of entry_points n2)
  /\ (In "Virat Kohli" (map Player entry_points) ->
      (forall r, In r entry_points -> name_contains "Virat Kohly" r = false) ->
      (forall r, In r entry_points -> Player r <> "Virat Kohli" ->
         (Difflib.ratio (list_ascii_of_string (lower (Player r)))
                        (list_ascii_of_string "virat kohly")
          < Difflib.ratio (list_ascii_of_string "virat kohli")
                          (list_ascii_of_string "virat kohly"))%Q) ->
      (forall r, In r entry_points ->
         mem "virat" (split_ws (lower (Player r)))
         && mem "kohly" (split_ws (lower (Player r))) = false) ->
      (forall r, In r entry_points ->
                 name_contains "Virat Kohli" r = true ->
                 Player r = "Virat Kohli") ->
      resolve_player_data entry_points "Virat Kohly"
      = Ok (player_rows "Virat Kohli" entry_points)
      /\ resolve_player_data entry_points "Virat Kohli"
         = Ok (player_rows "Virat Kohli" entry_points)
      /\ stats_of entry_points "Virat Kohly" = stats_of entry_points "Virat Kohli"
      /\ exists summary, stats_of entry_points "Virat Kohly" = Ok (Some summary)).
Proof.
  intros _. split.
  - intros n1 n2 _ _ H. unfold get_player_stats.
    now rewrite (resolve_player_data_lower entry_points n1 n2 H).
  - intros H0 Hnone Ha Hb Honly.
    pose proof (fuzzy_match_kohly entry_points H0 Ha Hb Honly) as Hfuzzy.
    apply in_map_iff in H0 as (r0 & Hp0 & Hr0).
    assert (Hrows : player_rows "Virat Kohli" entry_points <> []).
    { intros E. assert (Hin : In r0 (player_rows "Virat Kohli" entry_points)).
      { apply filter_In. split; [exact Hr0 | now rewrite Hp0]. }
      rewrite E in Hin. destruct Hin. }
    assert (H1 : resolve_player_data entry_points "Virat Kohly"
                 = Ok (player_rows "Virat Kohli" entry_points)).
    { unfold resolve_player_data, resolve_fuzzy.
      rewrite (find_none_filter entry_points Hnone), Hfuzzy. reflexivity. }
    assert (H2 : resolve_player_data entry_points "Virat Kohli"
                 = Ok (player_rows "Virat Kohli" entry_points)).
    { unfold resolve_player_data.
      rewrite (exact_rows_of_kohli entry_points Honly).
      destruct (player_rows "Virat Kohli" entry_points); [now elim Hrows|].
      reflexivity. }
    repeat split; auto.
    + unfold get_player_stats. now rewrite H1, H2.
    + unfold get_player_stats. rewrite H1.
      destruct (player_rows "Virat Kohli" entry_points); [now elim Hrows|].
      eexists. reflexivity.
Qed.

End Resolution.

(** C7 (as stated, refuted).  Three datasets contain Virat Kohli, and the
    similarity of the two spellings is above the cutoff; yet the misspelt
    name goes to another player (one whose name is closer, one whose name
    it is), or to fewer rows than the right name (which also selects the
    rows of the name in capitals). *)
Lemma misspelt_name_counterexample :
  Qle_bool (6 # 10)
    (Difflib.ratio (list_ascii_of_string "virat kohli")
                   (list_ascii_of_string "virat kohly")) = true
  /\ (In "Virat Kohli" (map Player Samples.squad_with_kohl)
      /\ resolve_player_data Samples.squad_with_kohl "Virat Kohly"
         = Ok (player_rows "Virat Kohl" Samples.squad_with_kohl)
      /\ resolve_player_data Samples.squad_with_kohl "Virat Kohli"
         = Ok (player_rows "Virat Kohli" Samples.squad_with_kohl)
      /\ Exact.player_stats Samples.squad_with_kohl "Virat Kohly"
         <> Exact.player_stats Samples.squad_with_kohl "Virat Kohli")
  /\ (In "Virat Kohli" (map Player Samples.squad_with_kohly)
      /\ resolve_player_data Samples.squad_with_kohly "Virat Kohly"
         = Ok (player_rows "Virat Kohly" Samples.squad_with_kohly)
      /\ Exact.player_stats Samples.squad_with_kohly "Virat Kohly"
         <> Exact.player_stats Samples.squad_with_kohly "Virat Kohli")
  /\ (In "Virat Kohli" (map Player Samples.squad_with_capitals)
      /\ resolve_player_data Samples.squad_with_capitals "Virat Kohly"
         = Ok (player_rows "Virat Kohli" Samples.squad_with_capitals)
      /\ resolve_player_data Samples.squad_with_capitals "Virat Kohli"
         = Ok (player_rows "Virat Kohli" Samples.squad_with_capitals
               ++ player_rows "VIRAT KOHLI" Samples.squad_with_capitals)%list
      /\ Exact.player_stats Samples.squad_with_capitals "Virat Kohly"
         <> Exact.player_stats Samples.squad_with_capitals "Virat Kohli").
Proof.
  repeat split; try (vm_compute; reflexivity); try (vm_compute; tauto);
    vm_compute; discriminate.
Qed.

Lemma misspelt_name_resolves_witness :
  ascii_names Samples.squad = true
  /\ Exact.player_stats Samples.squad "VIRAT KOHLI"
     = Exact.player_stats Samples.squad "virat kohli"
  /\ (resolve_player_data Samples.squad "Virat Kohly"
      = Ok (player_rows "Virat Kohli" Samples.squad)
      /\ resolve_player_data Samples.squad "Virat Kohli"
         = Ok (player_rows "Virat Kohli" Samples.squad)
      /\ Exact.player_stats Samples.squad "Virat Kohly"
         = Exact.player_stats Samples.squad "Virat Kohli"
      /\ exists summary,
           Exact.player_stats Samples.squad "Virat Kohly" = Ok (Some summary)).
Proof.
  assert (Hascii : ascii_names Samples.squad = true) by (vm_compute; reflexivity).
  split; [exact Hascii|]. split.
  - apply (proj1 (misspelt_name_resolves Exact.mean Exact.round1 Exact.round1
                    Exact.series_max Exact.int_of_sum Exact.py_int
                    Samples.squad Hascii)); vm_compute; reflexivity.
  - apply (proj2 (misspelt_name_resolves Exact.mean Exact.round1 Exact.round1
                    Exact.series_max Exact.int_of_sum Exact.py_int
                    Samples.squad Hascii)).
    + vm_compute. tauto.
    + intros r Hr. vm_compute in Hr.
      repeat (destruct Hr as [<-|Hr]; [vm_compute; reflexivity|]). destruct Hr.
    + intros r Hr Hne. vm_compute in Hr.
      repeat (destruct Hr as [<-|Hr];
              [first [now elim Hne | vm_compute; reflexivity]|]).
      destruct Hr.
    + intros r Hr. vm_compute in Hr.
      repeat (destruct Hr as [<-|Hr]; [vm_compute; reflexivity|]). destruct Hr.
    + intros r Hr Hc. vm_compute in Hr.
      repeat (destruct Hr as [<-|Hr];
              [first [reflexivity | vm_compute in Hc; discriminate Hc]|]).
      destruct Hr.
Defined.

End ResolutionFacts.

(** ** More on the question validator *)

Module ValidatorMore.
Import PyStrMore.

Lemma scan_keywords_all_excused (concept_type : string)
    (keywords : list string) (ql : string) :
  (forall keyword, In keyword keywords -> contains keyword ql = true ->
                   excused keyword ql = true) ->
  scan_keywords concept_type keywords ql = None.
Proof.
  induction keywords as [|k rest IH]; intros H; [reflexivity|].
  simpl. destruct (contains k ql) eqn:E.
  - rewrite (H k (or_introl eq_refl) E). apply IH.
    intros kw Hin. apply H. now right.
  - apply IH. intros kw Hin. apply H. now right.
Qed.

Lemma scan_concepts_all_excused (concepts : list (string * list string))
    (ql : string) :
  (forall keyword, In keyword (flat_map snd concepts) ->
                   contains keyword ql = true -> excused keyword ql = true) ->
  scan_concepts concepts ql = None.
Proof.
  induction concepts as [|[c kws] rest IH]; intros H; [reflexivity|].
  simpl. rewrite scan_keywords_all_excused.
  - apply IH. intros kw Hin. apply H. simpl. apply in_or_app. now right.
  - intros kw Hin. apply H. simpl. apply in_or_app. now left.
Qed.

(** Without the keyword [against] in the list, the inner loop returns at
    the first keyword that occurs. *)
Lemma scan_keywords_first (concept_type : string) (keywords : list string)
    (ql : string) :
  ~ In "against" keywords ->
  scan_keywords concept_type keywords ql
  = match find (fun k => contains k ql) keywords with
    | Some k => Some (rejection concept_type k)
    | None => None
    end.
Proof.
  induction keywords as [|k rest IH]; intros Hno; [reflexivity|].
  simpl. destruct (contains k ql); [|apply IH; intros H; apply Hno; now right].
  unfold excused. destruct (String.eqb_spec k "against") as [->|_].
  - elim Hno. now left.
  - reflexivity.
Qed.

Section Validity.

Variable lower : string -> string.

(** X1.  A question is valid exactly when every forbidden keyword that
    occurs in its lower-cased text is the keyword [against] excused by a
    team word or a comparison of players; so a question with [against]
    and a team word, and no other keyword, passes. *)
Theorem validate_question_valid_iff (question : string) :
  is_valid (_validate_question lower question) = true
  <-> (forall keyword,
         In keyword forbidden_keywords ->
         contains keyword (lower question) = true ->
         keyword = "against" /\ against_allowed (lower question) = true).
Proof.
  split.
  - intros Hv keyword Hin Hc.
    destruct (excused keyword (lower question)) eqn:E.
    + unfold excused in E. apply andb_true_iff in E as [E1 E2].
      apply String.eqb_eq in E1. now split.
    + unfold _validate_question, forbidden_keywords in *.
      destruct (scan_concepts_hit _ _ _ Hin Hc E) as (c & k & Hs).
      rewrite Hs, rejection_is_invalid in Hv. discriminate.
  - intros H. unfold _validate_question.
    rewrite scan_concepts_all_excused; [reflexivity|].
    intros keyword Hin Hc. destruct (H keyword Hin Hc) as [-> Ha].
    unfold excused. now rewrite Ha.
Qed.

(** X2.  Every rejection carries a message, and the message of every
    rejection opens with the out-of-bounds heading and lists the
    available data fields. *)
Theorem rejection_message_lists_fields (question : string) :
  is_valid (_validate_question lower question) = false ->
  exists m,
    message (_validate_question lower question) = Some m
    /\ startswith m (nl ++ "⚠️ **Question Out of Bounds**" ++ nl) = true
    /\ contains ("**Available data fields:** " ++ join ", " available_data) m
       = true.
Proof.
  unfold _validate_question.
  destruct (scan_concepts unavailable_concepts (lower question)) as [v|] eqn:E;
    [|discriminate].
  intros _. apply scan_concepts_some in E as (c & k & ->).
  unfold rejection.
  destruct (c =? "bowling_type"); [|destruct (c =? "bowler_identity")];
    (eexists; split; [reflexivity|]); (split; [reflexivity|]).
  - unfold bowling_type_message.
    apply contains_app_r, contains_app_r, contains_app_r, contains_app_r.
    vm_compute. reflexivity.
  - vm_compute. reflexivity.
  - unfold other_concept_message.
    apply contains_app_r, contains_app_r. vm_compute. reflexivity.
Qed.

(** X3.  The bowling-type concept is looked at first: a question whose
    lower-cased text contains one of its keywords is rejected with the
    bowling-type message, quoting the first such keyword of the list,
    whatever other keywords the question holds. *)
Theorem bowling_type_rejected_first (question keyword : string) :
  find (fun k => contains k (lower question))
       ["spin"; "pace"; "fast"; "seam"; "off-spin"; "leg-spin"; "left-arm";
        "right-arm"] = Some keyword ->
  _validate_question lower question
  = mk_validation false (Some (bowling_type_message keyword)).
Proof.
  intros H. unfold _validate_question.
  change unavailable_concepts with
    (("bowling_type", ["spin"; "pace"; "fast"; "seam"; "off-spin"; "leg-spin";
                       "left-arm"; "right-arm"]) :: tl unavailable_concepts).
  cbn [scan_concepts]. rewrite scan_keywords_first, H; [reflexivity|].
  simpl. intros Hin.
  repeat (destruct Hin as [Hin|Hin]; [discriminate Hin|]). exact Hin.
Qed.

End Validity.

Lemma rejection_message_lists_fields_witness :
  exists m,
    message (_validate_question lower "Which venue suits Rohit?") = Some m
    /\ startswith m (nl ++ "⚠️ **Question Out of Bounds**" ++ nl) = true
    /\ contains ("**Available data fields:** " ++ join ", " available_data) m
       = true.
Proof.
  apply (rejection_message_lists_fields lower "Which venue suits Rohit?").
  reflexivity.
Defined.

Lemma bowling_type_rejected_first_witness :
  _validate_question lower "Who wins against pace and spin at the stadium?"
  = mk_validation false (Some (bowling_type_message "spin")).
Proof.
  apply (bowling_type_rejected_first lower
           "Who wins against pace and spin at the stadium?" "spin").
  reflexivity.
Defined.

(** A question with [against] beside a team code, and no other keyword,
    is valid. *)
Example against_team_is_valid :
  is_valid (_validate_question lower "How does Kohli bat against CSK?") = true.
Proof. reflexivity. Qed.

End ValidatorMore.

(** ** Executing the plan and generating the answer *)

Module AgentMore.
Import PyStrMore ExecutionFacts.

Section Actions.

Import Analyzer Lookups.

Variable analyzer_get_player_stats
  : string -> Analyzer.result (option PlayerStats.player_stats).
Variable analyzer_get_best_players_for_phase
  : string -> Analyzer.result (list best_player).
Variable analyzer_get_diverse_players_for_phase
  : string -> Analyzer.result Diverse.categories.
Variable analyzer_compare_players
  : list string -> Analyzer.result (list (string * PlayerStats.player_stats)).
Variable analyzer_get_team_strategy
  : string -> Analyzer.result (option TeamStrategy.team_strategy).

Local Abbreviation execute :=
  (_execute_action analyzer_get_player_stats
     analyzer_get_best_players_for_phase
     analyzer_get_diverse_players_for_phase analyzer_compare_players
     analyzer_get_team_strategy).
Local Abbreviation run :=
  (run_actions analyzer_get_player_stats analyzer_get_best_players_for_phase
     analyzer_get_diverse_players_for_phase analyzer_compare_players
     analyzer_get_team_strategy).
Local Abbreviation found := (first_found analyzer_get_player_stats).

(** X7.  The parameter of an action is everything after its first colon,
    further colons included, and each kind of action hands it to its own
    lookup: the best-players, diverse-players and team lookups get it
    whole, the comparison gets it cut at the commas.  What the lookup
    returns is the result; when the lookup raises, the result is the
    text of the handler, which names the action and the exception. *)
Theorem execute_action_passes_parameter (param : string) :
  execute ("get_best_players_for_phase:" ++ param)
  = match analyzer_get_best_players_for_phase param with
    | Ok rows => RBest rows
    | Raise exn =>
        RText ("Error executing " ++ "get_best_players_for_phase:" ++ param
               ++ ": " ++ exn)
    end
  /\ execute ("get_diverse_players_for_phase:" ++ param)
     = match analyzer_get_diverse_players_for_phase param with
       | Ok pools => RDiverse pools
       | Raise exn =>
           RText ("Error executing " ++ "get_diverse_players_for_phase:"
                  ++ param ++ ": " ++ exn)
       end
  /\ execute ("get_team_strategy:" ++ param)
     = match analyzer_get_team_strategy param with
       | Ok strategy => RTeam strategy
       | Raise exn =>
           RText ("Error executing " ++ "get_team_strategy:" ++ param
                  ++ ": " ++ exn)
       end
  /\ execute ("compare_players:" ++ param)
     = match analyzer_compare_players (split "," param) with
       | Ok comparison => RCompare comparison
       | Raise exn =>
           RText ("Error executing " ++ "compare_players:" ++ param
                  ++ ": " ++ exn)
       end.
Proof.
  split; [|split; [|split]].
  - rewrite execute_best_players.
    now destruct (analyzer_get_best_players_for_phase param).
  - rewrite execute_diverse_players.
    now destruct (analyzer_get_diverse_players_for_phase param).
  - destruct (action_parts "get_team_strategy" param eq_refl) as [Hc Hp].
    change ("get_team_strategy" ++ ":" ++ param)
      with ("get_team_strategy:" ++ param) in Hc, Hp.
    unfold _execute_action. rewrite Hc, Hp.
    now destruct (analyzer_get_team_strategy param).
  - destruct (action_parts "compare_players" param eq_refl) as [Hc Hp].
    change ("compare_players" ++ ":" ++ param)
      with ("compare_players:" ++ param) in Hc, Hp.
    unfold _execute_action. rewrite Hc, Hp.
    now destruct (analyzer_compare_players (split "," param)).
Qed.

(** X8.  A statistics lookup gives nothing only when the analyzer finds
    neither the name nor any of its words; the statistics it returns are
    those of the name when the analyzer finds it, and otherwise those of
    one of its words; and when a lookup of the name or of one of its
    words raises, the result is the text of the handler for that
    exception. *)
Theorem player_lookup_falls_back_to_words (param : string) :
  (execute ("get_player_stats:" ++ param) = RNone
   <-> analyzer_get_player_stats param = Ok None
       /\ forall part, In part (split_ws param) ->
                       analyzer_get_player_stats part = Ok None)
  /\ (forall stats,
        analyzer_get_player_stats param = Ok (Some stats) ->
        execute ("get_player_stats:" ++ param) = RStats stats)
  /\ (forall exn,
        analyzer_get_player_stats param = Raise exn ->
        execute ("get_player_stats:" ++ param)
        = RText (error_text ("get_player_stats:" ++ param) exn))
  /\ (forall result,
        execute ("get_player_stats:" ++ param) = result ->
        result = RNone
        \/ (exists stats,
               result = RStats stats
               /\ (analyzer_get_player_stats param = Ok (Some stats)
                   \/ exists part,
                        In part (split_ws param)
                        /\ analyzer_get_player_stats part = Ok (Some stats)))
        \/ (exists exn,
               result = RText (error_text ("get_player_stats:" ++ param) exn)
               /\ (analyzer_get_player_stats param = Raise exn
                   \/ exists part,
                        In part (split_ws param)
                        /\ analyzer_get_player_stats part = Raise exn))).
Proof.
  rewrite execute_player_stats. split; [split|split; [|split]].
  - intros H.
    destruct (analyzer_get_player_stats param) as [exn|[stats|]];
      [discriminate H | discriminate H|].
    split; [reflexivity|]. apply first_found_None.
    now destruct (found (split_ws param)) as [exn|[stats|]].
  - intros [H1 H2]. rewrite H1.
    apply (proj2 (first_found_None analyzer_get_player_stats _)) in H2.
    now rewrite H2.
  - intros stats ->. reflexivity.
  - intros exn ->. reflexivity.
  - intros result <-.
    destruct (analyzer_get_player_stats param) as [exn|[stats|]] eqn:E.
    + right. right. exists exn. split; [reflexivity | now left].
    + right. left. exists stats. split; [reflexivity | now left].
    + destruct (found (split_ws param)) as [exn|[stats|]] eqn:F.
      * right. right. exists exn. split; [reflexivity|]. right.
        now apply first_found_Raise.
      * right. left. exists stats. split; [reflexivity|]. right.
        now apply first_found_Some.
      * now left.
Qed.

(** X9.  The results dictionary has one entry per distinct planned
    action and no other: its keys are the planned actions without
    repetition, and each is bound to what [_execute_action] gives for
    it. *)
Theorem run_actions_results (planned_actions : list string) :
  NoDup (map fst (run planned_actions))
  /\ (forall action,
        In action (map fst (run planned_actions)) <-> In action planned_actions)
  /\ (forall action result,
        In (action, result) (run planned_actions) -> result = execute action)
  /\ (List.length (run planned_actions) <= List.length planned_actions)%nat.
Proof.
  destruct (run_actions_from analyzer_get_player_stats
              analyzer_get_best_players_for_phase
              analyzer_get_diverse_players_for_phase analyzer_compare_players
              analyzer_get_team_strategy planned_actions [])
    as (H1 & H2 & H3 & H4); [constructor | intros a r [] |].
  unfold run_actions. split; [exact H1|]. split; [|split; [exact H3 | exact H4]].
  intros action. split.
  - intros H. apply H2 in H as [[]|H]. exact H.
  - intros H. apply H2. now right.
Qed.

End Actions.

(** Observations without the marker give no player. *)
Lemma players_with_data_none (observations : string) :
  contains "PLAYER DATA FOR" observations = false ->
  players_with_data_of observations = [].
Proof.
  intros H. unfold players_with_data_of.
  assert (Hall : forall l,
             (forall line, In line l ->
                           contains "PLAYER DATA FOR" line = false) ->
             filter (fun line => contains "PLAYER DATA FOR" line) l = []).
  { induction l as [|y ys IH]; intros Hl; simpl; [reflexivity|].
    rewrite (Hl y (or_introl eq_refl)). apply IH.
    intros line Hin. apply Hl. now right. }
  rewrite Hall; [reflexivity|].
  intros line Hin.
  destruct (contains "PLAYER DATA FOR" line) eqn:E; [|reflexivity].
  apply split_piece in Hin.
  rewrite (contains_trans _ _ _ E Hin) in H. discriminate.
Qed.

Section Execution.

Import Analyzer Lookups.

Variable lower : string -> string.
Variable re_findall : string -> string -> list string.
Variable json_dumps : entities -> string.
Variable upper : string -> string.
Variable title : string -> string.
Variable str_of_float : number -> string.
Variable repr_phase_performance : list (string * list (string * number)) -> string.
Variable repr_value : action_result -> string.
Variable analyzer_get_player_stats
  : string -> Analyzer.result (option PlayerStats.player_stats).
Variable analyzer_get_best_players_for_phase
  : string -> Analyzer.result (list best_player).
Variable analyzer_get_diverse_players_for_phase
  : string -> Analyzer.result Diverse.categories.
Variable analyzer_compare_players
  : list string -> Analyzer.result (list (string * PlayerStats.player_stats)).
Variable analyzer_get_team_strategy
  : string -> Analyzer.result (option TeamStrategy.team_strategy).
Variable AI : Type.
Variable generate_content : AI -> string -> AI * reply.

Local Abbreviation validate := (_validate_question lower).
Local Abbreviation extract := (_extract_entities lower re_findall).
Local Abbreviation generate :=
  (_generate_response lower json_dumps AI generate_content).
Local Abbreviation execute :=
  (_execute_action analyzer_get_player_stats
     analyzer_get_best_players_for_phase
     analyzer_get_diverse_players_for_phase analyzer_compare_players
     analyzer_get_team_strategy).
Local Abbreviation run :=
  (run_actions analyzer_get_player_stats analyzer_get_best_players_for_phase
     analyzer_get_diverse_players_for_phase analyzer_compare_players
     analyzer_get_team_strategy).
Local Abbreviation caught :=
  (handler_returned analyzer_get_player_stats
     analyzer_get_best_players_for_phase
     analyzer_get_diverse_players_for_phase analyzer_compare_players
     analyzer_get_team_strategy).
Local Abbreviation answer :=
  (answer_question lower re_findall json_dumps upper title str_of_float
     repr_phase_performance repr_value analyzer_get_player_stats
     analyzer_get_best_players_for_phase analyzer_get_diverse_players_for_phase
     analyzer_compare_players analyzer_get_team_strategy AI generate_content).
Local Abbreviation observations_for :=
  (observations_of lower re_findall upper title str_of_float
     repr_phase_performance repr_value analyzer_get_player_stats
     analyzer_get_best_players_for_phase analyzer_get_diverse_players_for_phase
     analyzer_compare_players analyzer_get_team_strategy).
Local Abbreviation answer_all :=
  (answer_questions lower re_findall json_dumps upper title str_of_float
     repr_phase_performance repr_value analyzer_get_player_stats
     analyzer_get_best_players_for_phase analyzer_get_diverse_players_for_phase
     analyzer_compare_players analyzer_get_team_strategy AI generate_content).

(** X10.  What the session loop looks up for a valid question: each
    entry of the results dictionary is a statistics lookup for a name,
    bound to a summary, to nothing, or to the text of the handler when a
    lookup raised; or a best-players or diverse-players lookup for
    [powerplay], [middle] or [death], bound to what the analyzer gives
    for the phase, or to the text of the handler when the analyzer
    raises; the note on bowling types is never among the results. *)
Theorem valid_question_results (question action : string)
    (result : action_result) :
  is_valid (validate question) = true ->
  In (action, result)
     (run (_reason_and_plan lower question (extract question))) ->
  (exists p,
      action = "get_player_stats:" ++ p
      /\ (result = RNone
          \/ (exists stats, result = RStats stats)
          \/ exists exn, result = RText (error_text action exn)))
  \/ (exists phase,
         In phase ["powerplay"; "middle"; "death"]
         /\ ((action = "get_best_players_for_phase:" ++ phase
              /\ result
                 = match analyzer_get_best_players_for_phase phase with
                   | Ok rows => RBest rows
                   | Raise exn => RText (error_text action exn)
                   end)
             \/ (action = "get_diverse_players_for_phase:" ++ phase
                 /\ result
                    = match analyzer_get_diverse_players_for_phase phase with
                      | Ok pools => RDiverse pools
                      | Raise exn => RText (error_text action exn)
                      end))).
Proof.
  intros Hv Hin. apply run_actions_In in Hin as [Hin ->].
  pose proof (PipelineMore.valid_question_no_bowling_types lower re_findall
                question Hv) as Hb.
  apply PipelineMore.plan_In in Hin
    as [(p & _ & ->) | [[H _] | [[_ H] | [(_ & ph & Hph & ->) | (_ & _ & H)]]]].
  - left. exists p. split; [reflexivity|]. rewrite execute_player_stats.
    destruct (analyzer_get_player_stats p) as [exn|[stats|]];
      [right; right; eauto | right; left; eauto|].
    destruct (first_found _ _) as [exn|[stats|]];
      [right; right; eauto | right; left; eauto | now left].
  - now elim H.
  - right. simpl in H. destruct H as [<-|[<-|[<-|[]]]].
    + exists "powerplay". split; [now left|]. right.
      split; [reflexivity | apply execute_diverse_players].
    + exists "middle". split; [right; now left|]. right.
      split; [reflexivity | apply execute_diverse_players].
    + exists "death". split; [right; right; now left|]. right.
      split; [reflexivity | apply execute_diverse_players].
  - right. exists ph. split.
    + apply PipelineMore.extracted_phases in Hph. exact Hph.
    + left. split; [reflexivity | apply execute_best_players].
  - right. simpl in H. destruct H as [<-|[<-|[]]].
    + exists "death". split; [right; right; now left|]. left.
      split; [reflexivity | apply execute_best_players].
    + exists "powerplay". split; [now left|]. left.
      split; [reflexivity | apply execute_best_players].
Qed.

(** X14.  The loop over a list of questions stops at the first question
    on which [answer_question] raises, which is a valid question whose
    observations could not be built.  There is one answer per question
    asked before that point (all of them when nothing is raised), the
    history grows by one turn for each of these that passes validation,
    in the order the questions were asked, and the turns it held before
    stay in front. *)
Theorem answer_questions_history (self : agent AI)
    (test_questions : list string) :
  exists asked turns,
    List.length (fst (snd (answer_all self test_questions)))
    = List.length asked
    /\ conversation_history (fst (answer_all self test_questions))
       = (conversation_history self ++ turns)%list
    /\ map turn_question turns
       = filter (fun question => is_valid (validate question)) asked
    /\ match snd (snd (answer_all self test_questions)) with
       | None => test_questions = asked
       | Some exn =>
           exists question rest,
             test_questions = (asked ++ question :: rest)%list
             /\ is_valid (validate question) = true
             /\ observations_for question = Raise exn
       end.
Proof.
  revert self. induction test_questions as [|q l IH]; intros self.
  - exists [], []. simpl. rewrite app_nil_r. now repeat split.
  - cbn [answer_questions]. destruct (is_valid (validate q)) eqn:Hv.
    + destruct (observations_for q) as [exn|built] eqn:Ho.
      * rewrite (answer_question_raises lower re_findall json_dumps upper
                   title str_of_float repr_phase_performance repr_value
                   analyzer_get_player_stats
                   analyzer_get_best_players_for_phase
                   analyzer_get_diverse_players_for_phase
                   analyzer_compare_players analyzer_get_team_strategy
                   AI generate_content self q exn Hv Ho).
        exists [], []. cbn [fst snd List.length map filter].
        rewrite app_nil_r. split; [reflexivity|]. split; [reflexivity|].
        split; [reflexivity|]. exists q, l. now repeat split.
      * pose proof (answer_question_valid lower re_findall json_dumps upper
                      title str_of_float repr_phase_performance repr_value
                      analyzer_get_player_stats
                      analyzer_get_best_players_for_phase
                      analyzer_get_diverse_players_for_phase
                      analyzer_compare_players analyzer_get_team_strategy
                      AI generate_content self q built Hv Ho) as Ha.
        cbv zeta in Ha. rewrite Ha.
        match goal with
        | |- context [answer_all ?s l] =>
            destruct (IH s) as (asked & turns & Hlen & Hh & Hq & Hend);
            destruct (answer_all s l) as [self2 [answers raised]] eqn:E
        end.
        cbn [fst snd conversation_history] in *.
        eexists (q :: asked), (_ :: turns).
        cbn [List.length map filter turn_question]. rewrite Hv, Hlen, Hh, Hq.
        rewrite <- app_assoc. split; [reflexivity|].
        split; [reflexivity|]. split; [reflexivity|].
        destruct raised as [exn|]; [|now rewrite Hend].
        destruct Hend as (question & rest & -> & Hvq & Hoq).
        exists question, rest. now repeat split.
    + rewrite (answer_question_rejected lower re_findall json_dumps upper
                 title str_of_float repr_phase_performance repr_value
                 analyzer_get_player_stats
                 analyzer_get_best_players_for_phase
                 analyzer_get_diverse_players_for_phase
                 analyzer_compare_players analyzer_get_team_strategy
                 AI generate_content self q Hv).
      destruct (IH self) as (asked & turns & Hlen & Hh & Hq & Hend).
      destruct (answer_all self l) as [self2 [answers raised]] eqn:E.
      cbn [fst snd] in *.
      exists (q :: asked), turns.
      cbn [List.length filter]. rewrite Hv, Hlen.
      split; [reflexivity|]. split; [exact Hh|]. split; [exact Hq|].
      destruct raised as [exn|]; [|now rewrite Hend].
      destruct Hend as (question & rest & -> & Hvq & Hoq).
      exists question, rest. now repeat split.
Qed.

(** X27.  For a question that passes validation, [answer_question]
    returns a reply and stores one turn exactly when none of the planned
    lookups ended in the handler of [_execute_action]: the turn holds the
    question, the plan, the results and the reply returned.  When the
    handler made one of the results, [answer_question] raises
    [TypeError] or [AttributeError] and the agent is as it was. *)
Theorem answer_question_outcome (self : agent AI) (question : string) :
  is_valid (validate question) = true ->
  let plan := _reason_and_plan lower question (extract question) in
  ((forall action exn, In action plan -> ~ caught action exn) ->
   exists final_answer,
     snd (answer self question) = Ok (Some final_answer)
     /\ conversation_history (fst (answer self question))
        = (conversation_history self
           ++ [mk_turn question (extract question) plan (run plan)
                       final_answer])%list)
  /\ (forall action exn,
         In action plan -> caught action exn ->
         exists exn',
           answer self question = (self, Raise exn')
           /\ (exn' = "TypeError" \/ exn' = "AttributeError")).
Proof.
  intros Hv plan. split.
  - intros Hclean.
    destruct (observations_built lower re_findall upper title str_of_float
                repr_phase_performance repr_value analyzer_get_player_stats
                analyzer_get_best_players_for_phase
                analyzer_get_diverse_players_for_phase
                analyzer_compare_players analyzer_get_team_strategy
                question Hclean) as [built Hb].
    rewrite (answer_question_valid lower re_findall json_dumps upper title
               str_of_float repr_phase_performance repr_value
               analyzer_get_player_stats analyzer_get_best_players_for_phase
               analyzer_get_diverse_players_for_phase analyzer_compare_players
               analyzer_get_team_strategy AI generate_content self question
               built Hv Hb).
    eexists. split; reflexivity.
  - intros action exn Hin Hc.
    destruct (observations_not_built lower re_findall upper title str_of_float
                repr_phase_performance repr_value analyzer_get_player_stats
                analyzer_get_best_players_for_phase
                analyzer_get_diverse_players_for_phase
                analyzer_compare_players analyzer_get_team_strategy
                question action exn Hin Hc) as (exn' & Ho & Hk).
    exists exn'. split; [|exact Hk].
    now apply answer_question_raises.
Qed.

End Execution.

Section Generation.

Variable lower : string -> string.
Variable json_dumps : entities -> string.
Variable AI : Type.
Variable generate_content : AI -> string -> AI * reply.

Local Abbreviation generate :=
  (_generate_response lower json_dumps AI generate_content).

(** X11.  When the observations hold no line of player data, the model is
    called once, on the prompt, and its text is the answer as it stands;
    if that call raises, the answer is the data-only text. *)
Theorem no_player_data_single_call (ai : AI) (question : string)
    (e : entities) (observations : string) :
  contains "PLAYER DATA FOR" observations = false ->
  generate ai question e observations
  = (fst (generate_content ai (prompt_of json_dumps question e observations)),
     match snd (generate_content ai
                  (prompt_of json_dumps question e observations)) with
     | Text response_text => response_text
     | Raises exn => fallback_response observations exn
     end).
Proof.
  intros H. unfold _generate_response, generate_response_try.
  rewrite (players_with_data_none observations H).
  destruct (generate_content ai _) as [ai1 [exn|t]]; reflexivity.
Qed.

(** X12.  [_generate_response] calls the model on the prompt and at most
    once more: the second call is made on the simplified prompt, only
    when there is player data and the first reply opens like the
    data-only answer and holds the observations. *)
Theorem generate_response_calls (ai : AI) (question : string)
    (e : entities) (observations : string) :
  let first := generate_content ai (prompt_of json_dumps question e observations) in
  fst (generate ai question e observations) = fst first
  \/ (exists response_text,
         snd first = Text response_text
         /\ truthy (players_with_data_of observations) = true
         /\ startswith response_text "Based on the data analysis:" = true
         /\ contains observations response_text = true
         /\ fst (generate ai question e observations)
            = fst (generate_content (fst first)
                     (simplified_prompt_of question observations))).
Proof.
  cbv zeta. unfold _generate_response, generate_response_try.
  destruct (generate_content ai _) as [ai1 [exn|t]]; [now left|].
  destruct (truthy (players_with_data_of observations)) eqn:Ep; [|now left].
  destruct (startswith t "Based on the data analysis:") eqn:Es;
    [destruct (contains observations t) eqn:Ec|]; cbn [andb].
  - right. exists t. repeat split; auto. simpl.
    destruct (generate_content ai1 _) as [ai2 [exn|t2]]; [reflexivity|].
    now destruct (negb _).
  - left. now destruct (negb _).
  - left. now destruct (negb _).
Qed.

(** X13.  A reply in the format of the data-only answer is taken for an
    echo: with player data in the observations, a first reply equal to a
    data-only text makes the agent ask again with the simplified prompt,
    and the answer ends with the second reply. *)
Theorem data_only_reply_is_asked_again (ai ai1 ai2 : AI)
    (question : string) (e : entities) (observations exn second : string) :
  truthy (players_with_data_of observations) = true ->
  generate_content ai (prompt_of json_dumps question e observations)
  = (ai1, Text (fallback_response observations exn)) ->
  generate_content ai1 (simplified_prompt_of question observations)
  = (ai2, Text second) ->
  fst (generate ai question e observations) = ai2
  /\ exists before, snd (generate ai question e observations) = before ++ second.
Proof.
  intros Hp H1 H2. unfold _generate_response, generate_response_try.
  rewrite H1, Hp.
  replace (startswith (fallback_response observations exn)
             "Based on the data analysis:") with true by reflexivity.
  rewrite fallback_contains_observations. cbn [andb]. rewrite H2.
  destruct (negb _); cbn [fst snd]; (split; [reflexivity|]).
  - exists ("Analyzing " ++ join ", " (players_with_data_of observations)
            ++ ":" ++ nl ++ nl).
    rewrite !app_assoc_str. reflexivity.
  - now exists "".
Qed.

End Generation.

(** X15.  With player data in the observations and a first reply that is
    no echo, the answer names a player of the data, letter case aside
    (ASCII lower-casing): it is the reply itself when the reply names
    one, and otherwise the reply under a heading that lists the
    players. *)
Theorem answer_names_a_player (json_dumps : entities -> string) (AI : Type)
    (generate_content : AI -> string -> AI * reply) (ai ai1 : AI)
    (question : string) (e : entities) (observations response_text : string) :
  players_with_data_of observations <> [] ->
  generate_content ai (prompt_of json_dumps question e observations)
  = (ai1, Text response_text) ->
  startswith response_text "Based on the data analysis:"
  && contains observations response_text = false ->
  let final_answer :=
    snd (_generate_response lower json_dumps AI generate_content ai question e
           observations) in
  (exists player,
      In player (players_with_data_of observations)
      /\ contains (lower player) (lower final_answer) = true)
  /\ (final_answer = response_text
      \/ final_answer
         = "Analyzing " ++ join ", " (players_with_data_of observations)
           ++ ":" ++ nl ++ nl ++ response_text).
Proof.
  intros Hne H1 Hecho. cbv zeta.
  unfold _generate_response, generate_response_try. rewrite H1.
  destruct (players_with_data_of observations) as [|p ps] eqn:Ep;
    [contradiction|].
  cbn [truthy]. rewrite Hecho.
  destruct (existsb (fun player => contains (lower player) (lower response_text))
                    (p :: ps)) eqn:Ex; cbn [negb snd].
  - split; [|now left].
    apply existsb_exists in Ex as (player & Hin & Hc). now exists player.
  - split; [|now right]. exists p. split; [now left|].
    apply PyStrFacts.contains_lower.
    apply contains_app_r, contains_app_l, join_contains. now left.
Qed.

Lemma player_lookup_falls_back_to_words_witness :
  (exists stats,
      Replay.surname_only "Kohli" = Analyzer.Ok (Some stats)
      /\ Analyzer.PlayerStats.name stats = "Virat Kohli"
      /\ _execute_action Replay.surname_only (fun _ => Analyzer.Ok [])
           (fun _ => Analyzer.Ok Session.no_pools) (fun _ => Analyzer.Ok [])
           (fun _ => Analyzer.Ok None) "get_player_stats:Virat Kohli"
         = RStats stats)
  /\ _execute_action Replay.surname_only (fun _ => Analyzer.Ok [])
       (fun _ => Analyzer.Ok Session.no_pools) (fun _ => Analyzer.Ok [])
       (fun _ => Analyzer.Ok None) "get_player_stats:Virat K"
     = RNone
  /\ _execute_action Replay.without_dot_pct (fun _ => Analyzer.Ok [])
       (fun _ => Analyzer.Ok Session.no_pools) (fun _ => Analyzer.Ok [])
       (fun _ => Analyzer.Ok None) "get_player_stats:Kohli"
     = RText "Error executing get_player_stats:Kohli: 'Dot_Pct'".
Proof.
  pose proof (player_lookup_falls_back_to_words Replay.surname_only
                (fun _ => Analyzer.Ok [])
                (fun _ => Analyzer.Ok Session.no_pools)
                (fun _ => Analyzer.Ok [])
                (fun _ => Analyzer.Ok None)) as H.
  split; [|split].
  - destruct (Replay.surname_only "Kohli") as [e|[stats|]] eqn:E;
      try (vm_compute in E; discriminate E).
    exists stats. split; [reflexivity|]. split.
    + vm_compute in E. injection E as <-. reflexivity.
    + destruct (proj2 (proj2 (proj2 (H "Virat Kohli"))) _ eq_refl)
        as [Hn|[(stats' & Hr & Hs)|(exn & Hr & Hx)]].
      * vm_compute in Hn. discriminate Hn.
      * refine (eq_trans Hr _). f_equal.
        destruct Hs as [Hs|(part & Hin & Hs)];
          [vm_compute in Hs; discriminate Hs|].
        simpl in Hin. destruct Hin as [<-|[<-|[]]].
        -- vm_compute in Hs. discriminate Hs.
        -- rewrite E in Hs. now injection Hs.
      * vm_compute in Hr. discriminate Hr.
  - apply (proj2 (proj1 (H "Virat K"))).
    split; [reflexivity|].
    intros part Hin. simpl in Hin.
    destruct Hin as [<-|[<-|[]]]; reflexivity.
  - apply (proj1 (proj2 (proj2 (player_lookup_falls_back_to_words
                                  Replay.without_dot_pct
                                  (fun _ => Analyzer.Ok [])
                                  (fun _ => Analyzer.Ok Session.no_pools)
                                  (fun _ => Analyzer.Ok [])
                                  (fun _ => Analyzer.Ok None) "Kohli")))
             "'Dot_Pct'").
    vm_compute. reflexivity.
Defined.

Lemma valid_question_results_witness :
  (exists p,
      "get_best_players_for_phase:death" = "get_player_stats:" ++ p
      /\ (RText "Error executing get_best_players_for_phase:death: 'Dot_Pct'"
          = RNone
          \/ (exists stats,
                 RText "Error executing get_best_players_for_phase:death: 'Dot_Pct'"
                 = RStats stats)
          \/ exists exn,
               RText "Error executing get_best_players_for_phase:death: 'Dot_Pct'"
               = RText (error_text "get_best_players_for_phase:death" exn)))
  \/ (exists phase,
         In phase ["powerplay"; "middle"; "death"]
         /\ (("get_best_players_for_phase:death"
               = "get_best_players_for_phase:" ++ phase
              /\ RText "Error executing get_best_players_for_phase:death: 'Dot_Pct'"
                 = RText (error_text "get_best_players_for_phase:death"
                            "'Dot_Pct'"))
             \/ ("get_best_players_for_phase:death"
                  = "get_diverse_players_for_phase:" ++ phase
                 /\ RText "Error executing get_best_players_for_phase:death: 'Dot_Pct'"
                    = RText (error_text "get_best_players_for_phase:death"
                               "'Dot_Pct'")))).
Proof.
  apply (valid_question_results lower Session.no_names
           (fun _ => Analyzer.Ok None) (fun _ => Analyzer.Raise "'Dot_Pct'")
           (fun _ => Analyzer.Raise "'Dot_Pct'") (fun _ => Analyzer.Ok [])
           (fun _ => Analyzer.Ok None)
           "Who are the best death over batsmen?"
           "get_best_players_for_phase:death"
           (RText "Error executing get_best_players_for_phase:death: 'Dot_Pct'")).
  - vm_compute. reflexivity.
  - vm_compute. left. reflexivity.
Defined.

Lemma answer_question_outcome_witness :
  (exists final_answer,
      snd (Session.ask Session.answering Session.fresh
             "Who are the best death over batsmen?")
      = Analyzer.Ok (Some final_answer)
      /\ conversation_history
           (fst (Session.ask Session.answering Session.fresh
                   "Who are the best death over batsmen?"))
         = [mk_turn "Who are the best death over batsmen?"
              (mk_entities [] [] [] ["death"] "recommendation")
              ["get_best_players_for_phase:death"]
              [("get_best_players_for_phase:death", RBest [])]
              final_answer])
  /\ exists exn',
       Session.ask_without_dot_pct "'Dot_Pct'" Session.answering Session.fresh
         "Who are the best death over batsmen?"
       = (Session.fresh, Analyzer.Raise exn')
       /\ (exn' = "TypeError" \/ exn' = "AttributeError").
Proof.
  assert (Hv : is_valid (_validate_question lower
                           "Who are the best death over batsmen?") = true)
    by (vm_compute; reflexivity).
  split.
  - apply (proj1 (answer_question_outcome lower Session.no_names Session.dumps
                    upper title Session.no_number Session.no_performance
                    Session.no_value
                    (fun _ => Analyzer.Ok None) (fun _ => Analyzer.Ok [])
                    (fun _ => Analyzer.Ok Session.no_pools)
                    (fun _ => Analyzer.Ok []) (fun _ => Analyzer.Ok None)
                    nat Session.answering Session.fresh
                    "Who are the best death over batsmen?" Hv)).
    intros action exn Hin Hc. vm_compute in Hin.
    destruct Hin as [<-|[]]. vm_compute in Hc. discriminate Hc.
  - apply (proj2 (answer_question_outcome lower Session.no_names Session.dumps
                    upper title Session.no_number Session.no_performance
                    Session.no_value
                    (fun _ => Analyzer.Ok None)
                    (fun _ => Analyzer.Raise "'Dot_Pct'")
                    (fun _ => Analyzer.Raise "'Dot_Pct'")
                    (fun _ => Analyzer.Ok []) (fun _ => Analyzer.Ok None)
                    nat Session.answering Session.fresh
                    "Who are the best death over batsmen?" Hv)
             "get_best_players_for_phase:death" "'Dot_Pct'").
    + vm_compute. left. reflexivity.
    + vm_compute. reflexivity.
Defined.

Lemma no_player_data_single_call_witness :
  _generate_response lower Session.dumps nat Session.answering O
    "Who are the best death over batsmen?"
    (mk_entities [] [] [] ["death"] "recommendation")
    "No specific data retrieved"
  = (1%nat, "Based on the data, use the top performers listed.").
Proof.
  apply (no_player_data_single_call lower Session.dumps nat Session.answering O
           "Who are the best death over batsmen?"
           (mk_entities [] [] [] ["death"] "recommendation")
           "No specific data retrieved").
  reflexivity.
Defined.

Lemma data_only_reply_is_asked_again_witness :
  fst (_generate_response lower Session.dumps nat Replay.echoing O
         "When should Kohli bat?" (mk_entities ["kohli"] [] [] [] "deployment")
         Replay.observed) = 2%nat
  /\ exists before,
       snd (_generate_response lower Session.dumps nat Replay.echoing O
              "When should Kohli bat?"
              (mk_entities ["kohli"] [] [] [] "deployment") Replay.observed)
       = before ++ "Kohli suits the powerplay.".
Proof.
  apply (data_only_reply_is_asked_again lower Session.dumps nat Replay.echoing
           O 1%nat 2%nat "When should Kohli bat?"
           (mk_entities ["kohli"] [] [] [] "deployment") Replay.observed
           "timeout" "Kohli suits the powerplay."); reflexivity.
Defined.

Lemma answer_names_a_player_witness :
  (exists player,
      In player (players_with_data_of Replay.observed)
      /\ contains (lower player)
           (lower (snd (_generate_response lower Session.dumps nat Replay.terse
                          O "When should Kohli bat?"
                          (mk_entities ["kohli"] [] [] [] "deployment")
                          Replay.observed))) = true)
  /\ (snd (_generate_response lower Session.dumps nat Replay.terse O
             "When should Kohli bat?"
             (mk_entities ["kohli"] [] [] [] "deployment") Replay.observed)
      = "Use him early."
      \/ snd (_generate_response lower Session.dumps nat Replay.terse O
                "When should Kohli bat?"
                (mk_entities ["kohli"] [] [] [] "deployment") Replay.observed)
         = "Analyzing " ++ join ", " (players_with_data_of Replay.observed)
           ++ ":" ++ nl ++ nl ++ "Use him early.").
Proof.
  apply (answer_names_a_player Session.dumps nat Replay.terse O 1%nat
           "When should Kohli bat?"
           (mk_entities ["kohli"] [] [] [] "deployment") Replay.observed
           "Use him early.").
  - vm_compute. discriminate.
  - reflexivity.
  - reflexivity.
Defined.

(** The prepended heading in the session above. *)
Example terse_answer_gets_heading :
  snd (_generate_response lower Session.dumps nat Replay.terse O
         "When should Kohli bat?"
         (mk_entities ["kohli"] [] [] [] "deployment") Replay.observed)
  = "Analyzing VIRAT KOHLI:" ++ nl ++ nl ++ "Use him early.".
Proof. vm_compute. reflexivity. Qed.

End AgentMore.

(** ** More on the leaderboard of a phase *)

Module LeaderboardMore.
Import Analyzer Lookups.

(** *** Lists: sorting and selecting keep the rows *)

Lemma insert_asc_perm (s : string) (l : list string) :
  Permutation (insert_asc s l) (s :: l).
Proof.
  induction l as [|h t IH]; simpl; [reflexivity|].
  destruct (String.leb s h); [reflexivity|].
  rewrite IH. apply perm_swap.
Qed.

Lemma sort_asc_perm (l : list string) : Permutation (sort_asc l) l.
Proof.
  induction l as [|h t IH]; simpl; [reflexivity|].
  rewrite insert_asc_perm. now constructor.
Qed.

Lemma insert_performance_perm (r : performance) (l : list performance) :
  Permutation (insert_performance r l) (r :: l).
Proof.
  induction l as [|h t IH]; simpl; [reflexivity|].
  destruct (sorts_before _ _); [reflexivity|].
  rewrite IH. apply perm_swap.
Qed.

Lemma sort_values_desc_perm (l : list performance) :
  Permutation (sort_values_desc l) l.
Proof.
  induction l as [|h t IH]; simpl; [reflexivity|].
  rewrite insert_performance_perm. now constructor.
Qed.

Lemma insert_row_perm {A : Type} (before : A -> A -> bool) (r : A) (l : list A) :
  Permutation (insert_row before r l) (r :: l).
Proof.
  induction l as [|h t IH]; simpl; [reflexivity|].
  destruct (before r h); [reflexivity|].
  rewrite IH. apply perm_swap.
Qed.

Lemma sort_rows_perm {A : Type} (before : A -> A -> bool) (l : list A) :
  Permutation (sort_rows before l) l.
Proof.
  induction l as [|h t IH]; simpl; [reflexivity|].
  rewrite insert_row_perm. now constructor.
Qed.

Lemma mem_In (x : string) (l : list string) : mem x l = true <-> In x l.
Proof.
  unfold mem. rewrite existsb_exists. split.
  - intros (y & Hy & E). apply String.eqb_eq in E. now subst.
  - intros H. exists x. split; [exact H | apply String.eqb_refl].
Qed.

Lemma unique_go_NoDup (seen l : list string) : NoDup (unique_go seen l).
Proof.
  revert seen. induction l as [|h t IH]; intros seen; simpl; [constructor|].
  destruct (mem h seen) eqn:E; [apply IH|].
  constructor; [|apply IH].
  intros Hin. apply ResolutionFacts.unique_go_In in Hin as [_ Hm].
  simpl in Hm. now rewrite String.eqb_refl in Hm.
Qed.

Lemma unique_NoDup (l : list string) : NoDup (unique l).
Proof. apply unique_go_NoDup. Qed.

Lemma unique_length (l : list string) :
  (List.length (unique l) <= List.length l)%nat.
Proof.
  unfold unique. generalize (@nil string) as seen.
  induction l as [|h t IH]; intros seen; simpl; [lia|].
  destruct (mem h seen); simpl; [specialize (IH seen) | specialize (IH (h :: seen))];
    lia.
Qed.

Lemma NoDup_map_filter {A B : Type} (g : A -> B) (f : A -> bool) (l : list A) :
  NoDup (map g l) -> NoDup (map g (filter f l)).
Proof.
  induction l as [|h t IH]; simpl; [auto|].
  intros H. inversion H as [|? ? Hn Hd]; subst.
  destruct (f h); simpl; [|auto].
  constructor; [|auto].
  intros Hin. apply Hn. apply in_map_iff in Hin as (x & E & Hx).
  apply in_map_iff. exists x. split; [exact E|].
  now apply filter_In in Hx as [Hx _].
Qed.

Lemma NoDup_firstn {A : Type} (n : nat) (l : list A) :
  NoDup l -> NoDup (firstn n l).
Proof.
  intros H. rewrite <- (firstn_skipn n l) in H.
  now apply NoDup_app_remove_r in H.
Qed.

Lemma NoDup_head {A : Type} (n : Z) (l : list A) : NoDup l -> NoDup (head n l).
Proof. unfold head. destruct (0 <=? n)%Z; apply NoDup_firstn. Qed.

Lemma head_map {A B : Type} (f : A -> B) (n : Z) (l : list A) :
  head n (map f l) = map f (head n l).
Proof.
  unfold head. rewrite length_map.
  destruct (0 <=? n)%Z; apply firstn_map.
Qed.

Lemma filter_nil_all {A : Type} (f : A -> bool) (l : list A) :
  (forall x, In x l -> f x = false) -> filter f l = [].
Proof.
  induction l as [|h t IH]; intros H; simpl; [reflexivity|].
  rewrite (H h (or_introl eq_refl)). apply IH. intros x Hx. apply H. now right.
Qed.

(** A player has records in a phase exactly when the name is in the
    column [Player] of the rows of the phase. *)
Lemma records_in_phase_some (entry_points : list entry_point)
    (target_phase p : string) :
  In p (map Player (phase_rows entry_points target_phase))
  <-> Expected.records_in_phase entry_points target_phase p <> [].
Proof.
  unfold phase_rows, Expected.records_in_phase. split.
  - intros H. apply in_map_iff in H as (r & <- & Hr).
    apply filter_In in Hr as [Hr Hp].
    intros E.
    assert (Hin : In r (filter (fun r0 => (Player r0 =? Player r)
                                          && (Entry_Phase r0 =? target_phase))
                               entry_points)).
    { apply filter_In. split; [exact Hr|].
      now rewrite String.eqb_refl, Hp. }
    rewrite E in Hin. destruct Hin.
  - intros H.
    destruct (filter _ entry_points) as [|r rest] eqn:E; [now elim H|].
    assert (Hin : In r (r :: rest)) by now left.
    rewrite <- E in Hin. apply filter_In in Hin as [Hr Hb].
    apply andb_true_iff in Hb as [Hp Ht]. apply String.eqb_eq in Hp.
    subst p. apply in_map, filter_In. now split.
Qed.

Section Leaderboard.

Variable mean : list number -> number.
Variable round1 : number -> number.

Local Abbreviation best := (get_best_players_for_phase mean round1).

(** The rows of the aggregation: one for each player of the frame. *)
Lemma aggregate_players_names (rows : list entry_point) :
  map perf_Player (aggregate_players mean rows)
  = sort_asc (unique (map Player rows)).
Proof.
  unfold aggregate_players. rewrite map_map. simpl. apply map_id.
Qed.

Lemma aggregate_players_NoDup (rows : list entry_point) :
  NoDup (map perf_Player (aggregate_players mean rows)).
Proof.
  rewrite aggregate_players_names.
  apply (Permutation_NoDup (Permutation_sym (sort_asc_perm _))).
  apply unique_NoDup.
Qed.

Lemma aggregate_players_has (rows : list entry_point) (p : string) :
  In p (map Player rows) ->
  exists r, In r (aggregate_players mean rows) /\ perf_Player r = p.
Proof.
  intros H.
  assert (Hin : In p (map perf_Player (aggregate_players mean rows))).
  { rewrite aggregate_players_names.
    apply (Permutation_in _ (Permutation_sym (sort_asc_perm _))).
    exact (proj2 (ResolutionFacts.unique_In _ _) H). }
  apply in_map_iff in Hin as (r & E & Hr). now exists r.
Qed.

Lemma aggregate_players_player (rows : list entry_point) (r : performance) :
  In r (aggregate_players mean rows) -> In (perf_Player r) (map Player rows).
Proof.
  intros H. apply (in_map perf_Player) in H.
  rewrite aggregate_players_names in H.
  apply (Permutation_in _ (sort_asc_perm _)) in H.
  exact (proj1 (ResolutionFacts.unique_In _ _) H).
Qed.

(** The frame before the cut is a reordering of the frame after the
    filters. *)
Lemma best_performance_uncut (entry_points : list entry_point)
    (phase : string) (min_matches : Z) (top_n : option Z)
    (min_sr max_sr : option number) :
  best_performance mean entry_points phase min_matches top_n min_sr max_sr
  = match top_n with
    | Some n => head n (best_performance mean entry_points phase min_matches
                                         None min_sr max_sr)
    | None => best_performance mean entry_points phase min_matches
                               None min_sr max_sr
    end.
Proof. unfold best_performance. now destruct top_n. Qed.

Lemma best_performance_NoDup (entry_points : list entry_point)
    (phase : string) (min_matches : Z) (top_n : option Z)
    (min_sr max_sr : option number) :
  NoDup (map perf_Player
           (best_performance mean entry_points phase min_matches top_n
                             min_sr max_sr)).
Proof.
  rewrite best_performance_uncut.
  assert (H : NoDup (map perf_Player
                       (best_performance mean entry_points phase min_matches
                                         None min_sr max_sr))).
  { unfold best_performance. cbv zeta.
    eapply Permutation_NoDup;
      [apply Permutation_map, Permutation_sym, sort_values_desc_perm|].
    destruct max_sr; [apply NoDup_map_filter|];
      (destruct min_sr; [apply NoDup_map_filter|]);
      apply NoDup_map_filter, aggregate_players_NoDup. }
  destruct top_n as [n|]; [|exact H].
  rewrite <- head_map. now apply NoDup_head.
Qed.

(** X16.  Without a cut and without bounds on the strike rate, a player
    is on the leaderboard of a phase exactly when he has records in the
    phase and at least [min_matches] of them carry an entry over; the
    entry shows that number as [matches], so a record whose over is
    missing does not count as a match. *)
Theorem leaderboard_lists_every_qualified_player
    (entry_points : list entry_point) (phase : string) (min_matches : Z) :
  let phase_name := Expected.phase_name_of phase in
  let result := best entry_points phase min_matches None None None in
  (forall p,
      In p (map player result)
      <-> Expected.records_in_phase entry_points phase_name p <> []
          /\ (min_matches
              <= count_values
                   (map Entry_Over
                        (Expected.records_in_phase entry_points phase_name p)))%Z)
  /\ (forall b,
        In b result ->
        matches b
        = count_values
            (map Entry_Over
                 (Expected.records_in_phase entry_points phase_name (player b)))).
Proof.
  cbv zeta. rewrite <- LeaderboardFacts.target_phase_expected.
  unfold get_best_players_for_phase, best_performance. cbv zeta.
  split.
  - intros p. rewrite map_map. cbn [player format_best].
    rewrite <- records_in_phase_some,
      <- LeaderboardFacts.phase_entries_expected. split.
    + intros H. apply in_map_iff in H as (r & <- & Hr).
      apply LeaderboardFacts.sort_values_desc_In, filter_In in Hr as [Hr Hm].
      apply Z.leb_le in Hm. split.
      * now apply aggregate_players_player in Hr.
      * apply LeaderboardFacts.aggregate_players_row in Hr as [_ Hc].
        now rewrite <- Hc.
    + intros [Hp Hm].
      apply aggregate_players_has in Hp as (r & Hr & <-).
      apply in_map_iff. exists r. split; [reflexivity|].
      apply LeaderboardFacts.sort_values_desc_In, filter_In.
      split; [exact Hr|]. apply Z.leb_le.
      apply LeaderboardFacts.aggregate_players_row in Hr as [_ Hc].
      now rewrite Hc.
  - intros b Hb. apply in_map_iff in Hb as (r & <- & Hr).
    apply LeaderboardFacts.sort_values_desc_In, filter_In in Hr as [Hr _].
    rewrite <- LeaderboardFacts.phase_entries_expected.
    now apply LeaderboardFacts.aggregate_players_row in Hr as [_ Hc].
Qed.

(** X17.  No player is listed twice, whatever the options; and [top_n]
    cuts the sorted list from the front: the first [top_n] rows of the
    uncut list, so at most [top_n] of them when [top_n] is not negative
    (and all rows but the last [-top_n] when it is). *)
Theorem leaderboard_cut_and_distinct (entry_points : list entry_point)
    (phase : string) (min_matches : Z) (top_n : option Z)
    (min_sr max_sr : option number) :
  NoDup (map player (best entry_points phase min_matches top_n min_sr max_sr))
  /\ forall n,
       top_n = Some n ->
       best entry_points phase min_matches top_n min_sr max_sr
       = head n (best entry_points phase min_matches None min_sr max_sr)
       /\ ((0 <= n)%Z ->
           (len_Z (best entry_points phase min_matches top_n min_sr max_sr)
            <= n)%Z
           /\ best entry_points phase min_matches top_n min_sr max_sr
              = firstn (Z.to_nat n)
                  (best entry_points phase min_matches None min_sr max_sr)).
Proof.
  split.
  - unfold get_best_players_for_phase. rewrite map_map. cbn [player format_best].
    apply best_performance_NoDup.
  - intros n ->.
    assert (E : best entry_points phase min_matches (Some n) min_sr max_sr
                = head n (best entry_points phase min_matches None min_sr max_sr)).
    { unfold get_best_players_for_phase.
      rewrite best_performance_uncut. symmetry. apply head_map. }
    split; [exact E|]. intros Hn. rewrite E. unfold head.
    apply Z.leb_le in Hn. rewrite Hn. split; [|reflexivity].
    unfold len_Z. pose proof (firstn_le_length (Z.to_nat n)
      (best entry_points phase min_matches None min_sr max_sr)).
    apply Z.leb_le in Hn. lia.
Qed.

(** X18.  The bounds on the strike rate are kept: the mean strike rate
    of every listed player over his records in the phase is at least
    [min_sr] and at most [max_sr] when these are given, and a player
    whose mean is NaN is never listed under a bound. *)
Theorem leaderboard_respects_bounds (entry_points : list entry_point)
    (phase : string) (min_matches : Z) (top_n : option Z)
    (min_sr max_sr : option number) (b : best_player) :
  In b (best entry_points phase min_matches top_n min_sr max_sr) ->
  let sr :=
    mean (map Final_Strike_Rate
              (Expected.records_in_phase entry_points
                 (Expected.phase_name_of phase) (player b))) in
  (forall lo, min_sr = Some lo -> num_geb sr lo = true)
  /\ (forall hi, max_sr = Some hi -> num_leb sr hi = true)
  /\ (min_sr <> None \/ max_sr <> None -> is_nan sr = false).
Proof.
  intros Hb. cbv zeta.
  unfold get_best_players_for_phase in Hb.
  apply in_map_iff in Hb as (r & <- & Hr). cbn [player format_best].
  pose proof (LeaderboardFacts.best_performance_In mean _ _ _ _ _ _ _ Hr)
    as [Hagg _].
  apply LeaderboardFacts.aggregate_players_row in Hagg as [Hsr _].
  rewrite LeaderboardFacts.phase_entries_expected,
    LeaderboardFacts.target_phase_expected in Hsr.
  rewrite <- Hsr.
  rewrite best_performance_uncut in Hr.
  assert (Hr' : In r (best_performance mean entry_points phase min_matches
                                       None min_sr max_sr)).
  { destruct top_n; [now apply LeaderboardFacts.head_In in Hr | exact Hr]. }
  clear Hr. unfold best_performance in Hr'. cbv zeta in Hr'.
  apply (proj1 (LeaderboardFacts.sort_values_desc_In _ _)) in Hr'.
  assert (Hlo : forall lo, min_sr = Some lo ->
                           num_geb (perf_Final_Strike_Rate r) lo = true).
  { intros lo ->.
    destruct max_sr; [apply filter_In in Hr' as [Hr' _]|];
      now apply filter_In in Hr' as [_ Hr']. }
  assert (Hhi : forall hi, max_sr = Some hi ->
                           num_leb (perf_Final_Strike_Rate r) hi = true).
  { intros hi ->. now apply filter_In in Hr' as [_ Hr']. }
  split; [exact Hlo | split; [exact Hhi|]].
  intros [H|H].
  - destruct min_sr as [lo|]; [|contradiction].
    specialize (Hlo lo eq_refl). unfold num_geb in Hlo.
    destruct (perf_Final_Strike_Rate r), lo; simpl in *; congruence.
  - destruct max_sr as [hi|]; [|contradiction].
    specialize (Hhi hi eq_refl).
    destruct (perf_Final_Strike_Rate r), hi; simpl in *; congruence.
Qed.

End Leaderboard.

Lemma leaderboard_cut_and_distinct_witness :
  Exact.best_players Samples.squad "powerplay" 1 (Some 1%Z) None None
  = head 1 (Exact.best_players Samples.squad "powerplay" 1 None None None)
  /\ (len_Z (Exact.best_players Samples.squad "powerplay" 1 (Some 1%Z) None None)
      <= 1)%Z
  /\ Exact.best_players Samples.squad "powerplay" 1 (Some 1%Z) None None
     = firstn 1 (Exact.best_players Samples.squad "powerplay" 1 None None None).
Proof.
  destruct (proj2 (leaderboard_cut_and_distinct Exact.mean Exact.round1
                     Samples.squad "powerplay" 1 (Some 1%Z) None None)
                  1%Z eq_refl) as [H1 H2].
  split; [exact H1|]. apply H2. lia.
Defined.

(** The league in the death overs with two matches or more: Rinku Singh
    (220), Dhoni (200) and Russell (140); between 150 and 210 only Dhoni
    is left. *)
Example league_death_bounded :
  map player (Exact.best_players Samples.league "death" 2 None None None)
  = ["Rinku Singh"; "MS Dhoni"; "Andre Russell"]
  /\ map player (Exact.best_players Samples.league "death" 2 None
                   (Some (of_Z 150)) (Some (of_Z 210)))
     = ["MS Dhoni"].
Proof. split; vm_compute; reflexivity. Qed.

Lemma leaderboard_lists_every_qualified_player_witness :
  In "MS Dhoni"
     (map player (Exact.best_players Samples.league "death" 3 None None None))
  /\ ~ In "Rinku Singh"
       (map player (Exact.best_players Samples.league "death" 3 None None None))
  /\ ~ In "Virat Kohli"
       (map player (Exact.best_players Samples.league "death" 3 None None None)).
Proof.
  pose proof (proj1 (leaderboard_lists_every_qualified_player Exact.mean
                       Exact.round1 Samples.league "death" 3)) as H.
  split; [|split].
  - apply (proj2 (H "MS Dhoni")). split; [discriminate | vm_compute; discriminate].
  - intros Hin. apply (proj1 (H "Rinku Singh")) in Hin as [_ Hin].
    vm_compute in Hin. now apply Hin.
  - intros Hin. apply (proj1 (H "Virat Kohli")) in Hin as [Hin _].
    now apply Hin.
Defined.

Lemma leaderboard_respects_bounds_witness :
  let sr :=
    Exact.mean (map Final_Strike_Rate
                    (Expected.records_in_phase Samples.league "Death"
                                               "MS Dhoni")) in
  sr = of_Z 200
  /\ (forall lo, Some (of_Z 150) = Some lo -> num_geb sr lo = true)
  /\ (forall hi, Some (of_Z 210) = Some hi -> num_leb sr hi = true)
  /\ (Some (of_Z 150) <> None \/ Some (of_Z 210) <> None -> is_nan sr = false).
Proof.
  cbv zeta. split; [vm_compute; reflexivity|].
  apply (leaderboard_respects_bounds Exact.mean Exact.round1 Samples.league
           "death" 2 None (Some (of_Z 150)) (Some (of_Z 210))
           (mk_best_player "MS Dhoni" (of_Z 200) (of_Z 20) (of_Z 30) (of_Z 15) 3)).
  vm_compute. left. reflexivity.
Defined.

End LeaderboardMore.

(** ** The other lookups of the analyzer *)

Module LookupsMore.
Import Analyzer Lookups LeaderboardMore.

Lemma insert_row_sorted {A : Type} (before : A -> A -> bool) (r : A)
    (l : list A) :
  (forall x y, before x y = false -> before y x = true) ->
  (forall x y z, before x y = true -> before y z = true -> before x z = true) ->
  StronglySorted (fun x y => before x y = true) l ->
  StronglySorted (fun x y => before x y = true) (insert_row before r l).
Proof.
  intros Htotal Htrans. induction 1 as [|h t Hs IH Hall]; simpl.
  - repeat constructor.
  - destruct (before r h) eqn:E.
    + constructor; [now constructor|].
      constructor; [exact E|].
      apply Forall_forall. intros x Hx. rewrite Forall_forall in Hall.
      eapply Htrans; [exact E | now apply Hall].
    + constructor; [exact IH|].
      apply Forall_forall. intros x Hx.
      apply (Permutation_in _ (insert_row_perm before r t)) in Hx.
      destruct Hx as [<-|Hx]; [now apply Htotal|].
      rewrite Forall_forall in Hall. now apply Hall.
Qed.

Lemma sort_rows_sorted {A : Type} (before : A -> A -> bool) (l : list A) :
  (forall x y, before x y = false -> before y x = true) ->
  (forall x y z, before x y = true -> before y z = true -> before x z = true) ->
  StronglySorted (fun x y => before x y = true) (sort_rows before l).
Proof.
  intros Htotal Htrans. induction l as [|h t IH]; simpl; [constructor|].
  now apply insert_row_sorted.
Qed.

Lemma sorts_before_asc_total (x y : number) :
  sorts_before_asc x y = false -> sorts_before_asc y x = true.
Proof.
  destruct x as [| |p|], y as [| |q|]; simpl; try discriminate; auto.
  intros H. apply Qle_bool_iff.
  destruct (Qlt_le_dec q p) as [Hlt|Hle].
  - now apply Qlt_le_weak.
  - apply Qle_bool_iff in Hle. rewrite Hle in H. discriminate.
Qed.

Lemma sorts_before_asc_trans (x y z : number) :
  sorts_before_asc x y = true -> sorts_before_asc y z = true ->
  sorts_before_asc x z = true.
Proof.
  destruct x as [| |p|], y as [| |q|], z as [| |r|]; simpl;
    try discriminate; auto.
  intros H1 H2. apply Qle_bool_iff in H1, H2. apply Qle_bool_iff.
  now apply Qle_trans with q.
Qed.

Lemma nlargest_sorted {A : Type} (n : nat) (column : A -> number) (l : list A) :
  StronglySorted (fun x y => sorts_before (column x) (column y) = true)
                 (nlargest n column l).
Proof.
  unfold nlargest. apply LeaderboardFacts.firstn_sorted.
  apply (sort_rows_sorted (fun r h => sorts_before (column r) (column h))).
  - intros x y. apply LeaderboardFacts.sorts_before_total.
  - intros x y z. apply LeaderboardFacts.sorts_before_trans.
Qed.

Lemma nsmallest_sorted {A : Type} (n : nat) (column : A -> number) (l : list A) :
  StronglySorted (fun x y => sorts_before_asc (column x) (column y) = true)
                 (nsmallest n column l).
Proof.
  unfold nsmallest. apply LeaderboardFacts.firstn_sorted.
  apply (sort_rows_sorted (fun r h => sorts_before_asc (column r) (column h))).
  - intros x y. apply sorts_before_asc_total.
  - intros x y z. apply sorts_before_asc_trans.
Qed.

Lemma nlargest_In {A : Type} (n : nat) (column : A -> number) (l : list A)
    (x : A) :
  In x (nlargest n column l) -> In x l.
Proof.
  intros H. apply LeaderboardFacts.firstn_In in H.
  now apply (Permutation_in _ (sort_rows_perm _ l)) in H.
Qed.

Lemma nsmallest_In {A : Type} (n : nat) (column : A -> number) (l : list A)
    (x : A) :
  In x (nsmallest n column l) -> In x l.
Proof.
  intros H. apply LeaderboardFacts.firstn_In in H.
  now apply (Permutation_in _ (sort_rows_perm _ l)) in H.
Qed.

Lemma nlargest_length {A : Type} (n : nat) (column : A -> number) (l : list A) :
  List.length (nlargest n column l) = Nat.min n (List.length l).
Proof.
  unfold nlargest. rewrite length_firstn.
  now rewrite (Permutation_length (sort_rows_perm _ l)).
Qed.

Lemma nsmallest_length {A : Type} (n : nat) (column : A -> number) (l : list A) :
  List.length (nsmallest n column l) = Nat.min n (List.length l).
Proof.
  unfold nsmallest. rewrite length_firstn.
  now rewrite (Permutation_length (sort_rows_perm _ l)).
Qed.

Lemma nlargest_all {A : Type} (n : nat) (column : A -> number) (l : list A) :
  (List.length l <= n)%nat -> Permutation (nlargest n column l) l.
Proof.
  intros H. unfold nlargest. rewrite firstn_all2; [apply sort_rows_perm|].
  now rewrite (Permutation_length (sort_rows_perm _ l)).
Qed.

Lemma nsmallest_all {A : Type} (n : nat) (column : A -> number) (l : list A) :
  (List.length l <= n)%nat -> Permutation (nsmallest n column l) l.
Proof.
  intros H. unfold nsmallest. rewrite firstn_all2; [apply sort_rows_perm|].
  now rewrite (Permutation_length (sort_rows_perm _ l)).
Qed.

Lemma nlargest_NoDup {A B : Type} (g : A -> B) (n : nat)
    (column : A -> number) (l : list A) :
  NoDup (map g l) -> NoDup (map g (nlargest n column l)).
Proof.
  intros H. unfold nlargest. rewrite <- firstn_map. apply NoDup_firstn.
  eapply Permutation_NoDup;
    [apply Permutation_map, Permutation_sym, sort_rows_perm | exact H].
Qed.

Lemma nsmallest_NoDup {A B : Type} (g : A -> B) (n : nat)
    (column : A -> number) (l : list A) :
  NoDup (map g l) -> NoDup (map g (nsmallest n column l)).
Proof.
  intros H. unfold nsmallest. rewrite <- firstn_map. apply NoDup_firstn.
  eapply Permutation_NoDup;
    [apply Permutation_map, Permutation_sym, sort_rows_perm | exact H].
Qed.

Lemma filter_all {A : Type} (f : A -> bool) (l : list A) :
  (forall x, In x l -> f x = true) -> filter f l = l.
Proof.
  induction l as [|h t IH]; intros H; simpl; [reflexivity|].
  rewrite (H h (or_introl eq_refl)). f_equal. apply IH.
  intros x Hx. apply H. now right.
Qed.

Lemma count_values_nonneg (l : list number) : (0 <= count_values l)%Z.
Proof. unfold count_values. lia. Qed.

(** Every row of a categorised table is in one of the three phases. *)
Lemma entry_phase_cases (x : number) :
  In (entry_phase x) ["Powerplay"; "Middle"; "Death"].
Proof.
  unfold entry_phase.
  destruct (num_leb x (of_Z 6)); [|destruct (num_leb x (of_Z 15))];
    simpl; tauto.
Qed.

Lemma phase_rows_other (rows : list entry_point) (target_phase : string) :
  ~ In target_phase ["Powerplay"; "Middle"; "Death"] ->
  phase_rows (categorise rows) target_phase = [].
Proof.
  intros H. unfold phase_rows. apply filter_nil_all.
  intros r Hr. apply in_map_iff in Hr as (r0 & <- & _). cbn [Entry_Phase set_entry_phase].
  destruct (String.eqb_spec (entry_phase (Entry_Over r0)) target_phase)
    as [E|]; [|reflexivity].
  elim H. rewrite <- E. apply entry_phase_cases.
Qed.

Section Lookups.

Variable mean : list number -> number.
Variable round1 : number -> number.

Local Abbreviation best := (get_best_players_for_phase mean round1).
Local Abbreviation summary := (get_phase_summary mean round1).
Local Abbreviation diverse := (get_diverse_players_for_phase mean round1).
Local Abbreviation strategy := (get_team_strategy mean round1).

(** X19.  The summary of a phase never counts more players than
    entries, and the uncut leaderboard of the phase has at most as many
    rows as the summary counts players: exactly as many when
    [min_matches] is zero or less. *)
Theorem phase_summary_counts (entry_points : list entry_point)
    (phase : string) (min_matches : Z) :
  let s := summary entry_points phase in
  let board := best entry_points phase min_matches None None None in
  (0 <= PhaseSummary.unique_players s <= PhaseSummary.total_entries s)%Z
  /\ (len_Z board <= PhaseSummary.unique_players s)%Z
  /\ ((min_matches <= 0)%Z -> len_Z board = PhaseSummary.unique_players s).
Proof.
  cbv zeta. unfold get_phase_summary, get_best_players_for_phase,
    best_performance. cbv zeta. cbn [PhaseSummary.unique_players
    PhaseSummary.total_entries].
  set (rows := phase_rows entry_points (target_phase_of phase)).
  assert (Hagg : List.length (aggregate_players mean rows)
                 = List.length (unique (map Player rows))).
  { rewrite <- (length_map perf_Player), aggregate_players_names.
    apply Permutation_length, sort_asc_perm. }
  unfold len_Z. rewrite length_map.
  rewrite (Permutation_length (sort_values_desc_perm _)).
  repeat split.
  - lia.
  - pose proof (unique_length (map Player rows)) as H.
    rewrite length_map in H. lia.
  - pose proof (filter_length_le
                  (fun r => (min_matches <=? perf_Entry_Over r)%Z)
                  (aggregate_players mean rows)). lia.
  - intros Hm. rewrite filter_all; [now rewrite Hagg|].
    intros r Hr. apply Z.leb_le.
    apply LeaderboardFacts.aggregate_players_row in Hr as [_ ->].
    pose proof (count_values_nonneg
                  (map Entry_Over (player_rows (perf_Player r) rows))).
    lia.
Qed.

(** X20.  On a table whose phases come from the entry overs, a phase
    name that is none of [powerplay], [middle] and [death] in any letter
    case gives empty answers: no leaderboard, a summary of zero entries
    and players, and six empty pools. *)
Theorem unknown_phase_gives_nothing (rows : list entry_point)
    (phase : string) (min_matches : Z) (top_n : option Z)
    (min_sr max_sr : option number) :
  ~ In (PyStr.lower phase) ["powerplay"; "middle"; "death"] ->
  best (categorise rows) phase min_matches top_n min_sr max_sr = []
  /\ PhaseSummary.total_entries (summary (categorise rows) phase) = 0%Z
  /\ PhaseSummary.unique_players (summary (categorise rows) phase) = 0%Z
  /\ forall category pool,
       In (category, pool) (Diverse.items (diverse (categorise rows) phase
                                                   min_matches)) ->
       pool = [].
Proof.
  intros Hl.
  assert (Hp : ~ In phase ["Powerplay"; "Middle"; "Death"]).
  { intros [<-|[<-|[<-|[]]]]; apply Hl; simpl; tauto. }
  assert (Ht : target_phase_of phase = phase).
  { unfold target_phase_of. cbv zeta.
    destruct (String.eqb_spec (PyStr.lower phase) "powerplay") as [E|_];
      [elim Hl; rewrite E; simpl; tauto|].
    destruct (String.eqb_spec (PyStr.lower phase) "middle") as [E|_];
      [elim Hl; rewrite E; simpl; tauto|].
    destruct (String.eqb_spec (PyStr.lower phase) "death") as [E|_];
      [elim Hl; rewrite E; simpl; tauto|].
    reflexivity. }
  assert (Hrows : phase_rows (categorise rows) (target_phase_of phase) = []).
  { rewrite Ht. now apply phase_rows_other. }
  repeat split.
  - unfold get_best_players_for_phase, best_performance. cbv zeta.
    rewrite Hrows.
    destruct max_sr as [hi|], min_sr as [lo|], top_n as [k|]; cbn;
      try reflexivity;
      unfold head; destruct (0 <=? k)%Z; cbn; now rewrite ?firstn_nil.
  - unfold get_phase_summary. cbv zeta. now rewrite Hrows.
  - unfold get_phase_summary. cbv zeta. now rewrite Hrows.
  - intros category pool.
    unfold get_diverse_players_for_phase, diverse_performance. cbv zeta.
    rewrite Hrows. cbn.
    intros H. repeat (destruct H as [[= _ <-]|H]; [reflexivity|]). destruct H.
Qed.

(** The rows the pools of a phase are drawn from. *)
Lemma diverse_performance_row (entry_points : list entry_point)
    (phase : string) (min_matches : Z) (r : performance) :
  In r (diverse_performance mean entry_points phase min_matches) ->
  let records :=
    Expected.records_in_phase entry_points (Expected.phase_name_of phase)
                              (perf_Player r) in
  records <> []
  /\ (min_matches <= perf_Entry_Over r)%Z
  /\ perf_Entry_Over r = count_values (map Entry_Over records)
  /\ perf_Final_Strike_Rate r = mean (map Final_Strike_Rate records).
Proof.
  unfold diverse_performance. cbv zeta. intros H.
  apply filter_In in H as [H Hm]. apply Z.leb_le in Hm.
  pose proof (aggregate_players_player mean _ _ H) as Hp.
  apply records_in_phase_some in Hp.
  apply LeaderboardFacts.aggregate_players_row in H as [Hsr Hc].
  rewrite LeaderboardFacts.phase_entries_expected in Hsr, Hc.
  rewrite LeaderboardFacts.target_phase_expected in Hp, Hsr, Hc.
  split; [exact Hp|]. split; [exact Hm|]. split; [exact Hc | exact Hsr].
Qed.

Lemma diverse_performance_NoDup (entry_points : list entry_point)
    (phase : string) (min_matches : Z) :
  NoDup (map perf_Player
           (diverse_performance mean entry_points phase min_matches)).
Proof.
  unfold diverse_performance. cbv zeta.
  apply NoDup_map_filter, aggregate_players_NoDup.
Qed.

(** Each pool is a selection of rows of the frame, formatted. *)
Lemma pool_of_items (entry_points : list entry_point) (phase : string)
    (min_matches : Z) (category : string) (pool : list Diverse.diverse_player) :
  In (category, pool)
     (Diverse.items (diverse entry_points phase min_matches)) ->
  exists (selected : list performance) (description : string),
    pool = _format_player_list round1 selected description
    /\ (List.length selected <= 15)%nat
    /\ NoDup (map perf_Player selected)
    /\ (forall r, In r selected ->
                  In r (diverse_performance mean entry_points phase min_matches))
    /\ (category <> "balanced" ->
        List.length selected
        = Nat.min 15 (List.length (diverse_performance mean entry_points phase
                                                       min_matches))).
Proof.
  unfold get_diverse_players_for_phase, Diverse.items. cbv zeta.
  cbn [Diverse.aggressive_strikers Diverse.consistent_scorers
       Diverse.boundary_hitters Diverse.strike_rotators Diverse.experienced
       Diverse.balanced].
  pose proof (diverse_performance_NoDup entry_points phase min_matches) as Hnd.
  intros H.
  destruct H as [[= <- <-]|[[= <- <-]|[[= <- <-]|[[= <- <-]|[[= <- <-]|[[= <- <-]|[]]]]]]];
    eexists; eexists; (split; [reflexivity|]).
  1-3, 5:
    (split; [rewrite nlargest_length; lia|];
     split; [now apply nlargest_NoDup|];
     split; [intros r; apply nlargest_In | intros _; apply nlargest_length]).
  - split; [rewrite nsmallest_length; lia|].
    split; [now apply nsmallest_NoDup|].
    split; [intros r; apply nsmallest_In | intros _; apply nsmallest_length].
  - split; [rewrite nlargest_length; lia|].
    split; [now apply nlargest_NoDup, NoDup_map_filter|].
    split; [|intros H; now elim H].
    intros r Hr. apply nlargest_In, filter_In in Hr. tauto.
Qed.

(** X21.  Each of the six pools of a phase holds at most 15 players, no
    player twice, and only players with records in the phase of which at
    least [min_matches] carry an entry over; an entry shows that number
    as [matches] and the rounded mean strike rate of the player over his
    records in the phase. *)
Theorem diverse_pools_are_qualified (entry_points : list entry_point)
    (phase : string) (min_matches : Z) (category : string)
    (pool : list Diverse.diverse_player) :
  In (category, pool)
     (Diverse.items (diverse entry_points phase min_matches)) ->
  (List.length pool <= 15)%nat
  /\ NoDup (map Diverse.player pool)
  /\ forall d,
       In d pool ->
       let records :=
         Expected.records_in_phase entry_points (Expected.phase_name_of phase)
                                   (Diverse.player d) in
       records <> []
       /\ (min_matches <= Diverse.matches d)%Z
       /\ Diverse.matches d = count_values (map Entry_Over records)
       /\ Diverse.avg_strike_rate d
          = round1 (mean (map Final_Strike_Rate records)).
Proof.
  intros H.
  apply pool_of_items in H as (selected & description & -> & Hlen & Hnd & Hin & _).
  unfold _format_player_list. rewrite length_map, map_map.
  cbn [Diverse.player]. split; [exact Hlen|]. split; [exact Hnd|].
  intros d Hd. apply in_map_iff in Hd as (r & <- & Hr).
  cbn [Diverse.player Diverse.matches Diverse.avg_strike_rate].
  apply Hin, diverse_performance_row in Hr as (H1 & H2 & H3 & H4).
  cbv zeta. split; [exact H1|]. split; [exact H2|]. split; [exact H3|].
  now rewrite H4.
Qed.

(** X22.  When at most 15 players qualify in a phase, the first five
    pools list the same players, each pool all of them, and differ in
    order and description only; when more qualify, each of the five
    holds exactly 15. *)
Theorem diverse_pools_same_players (entry_points : list entry_point)
    (phase : string) (min_matches : Z) (category : string)
    (pool : list Diverse.diverse_player) :
  In (category, pool)
     (Diverse.items (diverse entry_points phase min_matches)) ->
  category <> "balanced" ->
  let qualified := diverse_performance mean entry_points phase min_matches in
  List.length pool = Nat.min 15 (List.length qualified)
  /\ ((List.length qualified <= 15)%nat ->
      Permutation (map Diverse.player pool) (map perf_Player qualified)).
Proof.
  intros H Hne. cbv zeta.
  pose proof (pool_of_items _ _ _ _ _ H)
    as (selected & description & -> & _ & Hnd & Hin & Hlen).
  specialize (Hlen Hne).
  unfold _format_player_list. rewrite length_map, map_map.
  cbn [Diverse.player]. split; [exact Hlen|]. intros Hq.
  apply NoDup_Permutation_bis.
  - exact Hnd.
  - rewrite !length_map. lia.
  - intros p Hp. apply in_map_iff in Hp as (r & <- & Hr).
    apply in_map. now apply Hin.
Qed.

(** X23.  The pool [balanced] holds only players whose mean strike rate
    over their records in the phase is at least 120 and at most 150,
    never one whose mean is NaN; and the pool [aggressive_strikers] is in
    descending order of that mean. *)
Theorem diverse_pools_balanced_and_ordered (entry_points : list entry_point)
    (phase : string) (min_matches : Z) :
  let pools := diverse entry_points phase min_matches in
  let sr (p : string) :=
    mean (map Final_Strike_Rate
              (Expected.records_in_phase entry_points
                 (Expected.phase_name_of phase) p)) in
  (forall d,
      In d (Diverse.balanced pools) ->
      num_geb (sr (Diverse.player d)) (of_Z 120) = true
      /\ num_leb (sr (Diverse.player d)) (of_Z 150) = true
      /\ is_nan (sr (Diverse.player d)) = false)
  /\ StronglySorted
       (fun d1 d2 =>
          Expected.descending (sr (Diverse.player d1)) (sr (Diverse.player d2)))
       (Diverse.aggressive_strikers pools).
Proof.
  cbv zeta. unfold get_diverse_players_for_phase. cbv zeta.
  cbn [Diverse.balanced Diverse.aggressive_strikers]. split.
  - intros d Hd. unfold _format_player_list in Hd.
    apply in_map_iff in Hd as (r & <- & Hr). cbn [Diverse.player].
    apply nlargest_In, filter_In in Hr as [Hr Hb].
    apply diverse_performance_row in Hr as (_ & _ & _ & <-).
    apply andb_true_iff in Hb as [H1 H2].
    split; [exact H1|]. split; [exact H2|].
    destruct (perf_Final_Strike_Rate r); simpl in *; congruence.
  - unfold _format_player_list.
    apply LeaderboardFacts.StronglySorted_map_in
      with (R := fun x y => sorts_before (perf_Final_Strike_Rate x)
                                         (perf_Final_Strike_Rate y) = true);
      [|apply nlargest_sorted].
    intros x y Hx Hy Hxy. cbn [Diverse.player].
    apply nlargest_In, diverse_performance_row in Hx as (_ & _ & _ & <-).
    apply nlargest_In, diverse_performance_row in Hy as (_ & _ & _ & <-).
    now apply LeaderboardFacts.sorts_before_descending.
Qed.

(** *** The strategy of a team *)

Lemma sum_indicator (h : string) (ks : list string) :
  NoDup ks -> In h ks ->
  fold_right Z.add 0%Z (map (fun k => if String.eqb k h then 1%Z else 0%Z) ks) = 1%Z.
Proof.
  induction ks as [|k ks IH]; intros Hnd Hin; [destruct Hin|].
  inversion Hnd as [|? ? Hk Hnd']; subst. simpl.
  destruct (String.eqb_spec k h) as [->|Hne].
  - assert (E : fold_right Z.add 0%Z
                  (map (fun k => if String.eqb k h then 1%Z else 0%Z) ks) = 0%Z).
    { clear IH Hnd Hnd' Hin. induction ks as [|x ks IH]; [reflexivity|].
      simpl. destruct (String.eqb_spec x h) as [->|_].
      - elim Hk. now left.
      - rewrite IH; [reflexivity|]. intros H. apply Hk. now right. }
    rewrite E. reflexivity.
  - destruct Hin as [->|Hin]; [contradiction|]. now rewrite IH.
Qed.

Lemma sum_counts (ks l : list string) :
  NoDup ks -> (forall x, In x l -> In x ks) ->
  fold_right Z.add 0%Z (map (fun k => len_Z (filter (String.eqb k) l)) ks)
  = len_Z l.
Proof.
  intros Hnd. induction l as [|h t IH]; intros Hin.
  - clear Hnd Hin. unfold len_Z. simpl.
    induction ks as [|k ks IHk]; simpl; [reflexivity | now rewrite IHk].
  - assert (E : forall ks',
               fold_right Z.add 0%Z
                 (map (fun k => len_Z (filter (String.eqb k) (h :: t))) ks')
               = (fold_right Z.add 0%Z
                    (map (fun k => if String.eqb k h then 1%Z else 0%Z) ks')
                  + fold_right Z.add 0%Z
                      (map (fun k => len_Z (filter (String.eqb k) t)) ks'))%Z).
    { induction ks' as [|k ks' IHk]; [reflexivity|].
      cbn [map fold_right]. rewrite IHk. unfold len_Z. cbn [filter].
      destruct (String.eqb k h); cbn [List.length]; lia. }
    rewrite E, IH, sum_indicator; auto.
    + unfold len_Z. cbn [List.length]. lia.
    + apply Hin. now left.
    + intros x Hx. apply Hin. now right.
Qed.

Lemma value_counts_perm (l : list string) :
  Permutation (value_counts l)
              (map (fun v => (v, len_Z (filter (String.eqb v) l))) (unique l)).
Proof. apply sort_rows_perm. Qed.

Lemma sum_perm (l1 l2 : list Z) :
  Permutation l1 l2 -> fold_right Z.add 0%Z l1 = fold_right Z.add 0%Z l2.
Proof. induction 1; simpl; lia. Qed.

(** X24.  A strategy is returned exactly when some row is of a team
    whose name contains the given one, letter case aside (a name without
    regular-expression metacharacters, as for [team_contains]); it counts
    those rows, names the team of the first of them, and its
    [phase_distribution] has one entry for each phase met, bound to the
    number of these rows in the phase: the numbers add up to
    [total_entries]. *)
Theorem team_strategy_counts (entry_points : list entry_point)
    (team_name : string) :
  let team_data := filter (team_contains team_name) entry_points in
  (strategy entry_points team_name = None <-> team_data = [])
  /\ forall s,
       strategy entry_points team_name = Some s ->
       (1 <= TeamStrategy.total_entries s)%Z
       /\ TeamStrategy.total_entries s = len_Z team_data
       /\ Some (TeamStrategy.team s) = option_map Team (List.hd_error team_data)
       /\ contains (PyStr.lower team_name) (PyStr.lower (TeamStrategy.team s))
          = true
       /\ NoDup (map fst (TeamStrategy.phase_distribution s))
       /\ (forall phase n,
             In (phase, n) (TeamStrategy.phase_distribution s) ->
             n = len_Z (phase_rows team_data phase) /\ (1 <= n)%Z)
       /\ fold_right Z.add 0%Z (map snd (TeamStrategy.phase_distribution s))
          = TeamStrategy.total_entries s.
Proof.
  cbv zeta. unfold get_team_strategy. cbv zeta.
  destruct (filter (team_contains team_name) entry_points) as [|r rest] eqn:E.
  - split; [tauto|]. discriminate.
  - split; [split; discriminate|]. intros s [= <-].
    cbn [TeamStrategy.total_entries TeamStrategy.team
         TeamStrategy.phase_distribution hd_error option_map].
    assert (Hr : team_contains team_name r = true).
    { assert (H : In r (filter (team_contains team_name) entry_points))
        by (rewrite E; now left).
      now apply filter_In in H. }
    set (phases_met := map Entry_Phase (r :: rest)).
    change (Entry_Phase r :: map Entry_Phase rest) with phases_met.
    split; [unfold len_Z; cbn [List.length]; lia|].
    split; [reflexivity|]. split; [reflexivity|]. split; [exact Hr|].
    split; [|split].
    + eapply Permutation_NoDup;
        [apply Permutation_map, Permutation_sym, value_counts_perm|].
      rewrite map_map. cbn [fst]. rewrite map_id. apply unique_NoDup.
    + intros phase n Hin.
      apply (Permutation_in _ (value_counts_perm phases_met)) in Hin.
      apply in_map_iff in Hin as (v & [= <- <-] & Hv).
      apply (proj1 (ResolutionFacts.unique_In _ _)) in Hv.
      assert (Hc : forall rows,
                 List.length (filter (String.eqb v) (map Entry_Phase rows))
                 = List.length (phase_rows rows v)).
      { induction rows as [|x rows IH]; [reflexivity|].
        simpl. rewrite (String.eqb_sym v (Entry_Phase x)).
        destruct (Entry_Phase x =? v); simpl; now rewrite IH. }
      unfold len_Z. split; [f_equal; apply (Hc (r :: rest))|].
      assert (Hpos : In v (filter (String.eqb v) phases_met)).
      { apply filter_In. split; [exact Hv | apply String.eqb_refl]. }
      change (1 <= Z.of_nat (List.length (filter (String.eqb v) phases_met)))%Z.
      destruct (filter (String.eqb v) phases_met); [destruct Hpos|].
      cbn [List.length]. lia.
    + rewrite (sum_perm _ _ (Permutation_map snd (value_counts_perm phases_met))).
      rewrite map_map. cbn [snd].
      rewrite sum_counts.
      * unfold phases_met, len_Z. now rewrite length_map.
      * apply unique_NoDup.
      * intros x Hx. now apply ResolutionFacts.unique_In.
Qed.

(** X25.  The top performers of a team are five of its rows, or all of
    them when it has fewer, in descending order of the strike rate with
    NaN last; no row of the team has a strike rate that sorts before the
    first of them. *)
Theorem team_top_performers (entry_points : list entry_point)
    (team_name : string) (s : TeamStrategy.team_strategy) :
  strategy entry_points team_name = Some s ->
  let team_data := filter (team_contains team_name) entry_points in
  List.length (TeamStrategy.top_performers s)
  = Nat.min 5 (List.length team_data)
  /\ (forall t,
        In t (TeamStrategy.top_performers s) ->
        exists r,
          In r entry_points /\ team_contains team_name r = true
          /\ t = TeamStrategy.mk_top_performer (Player r) (Final_Strike_Rate r)
                                               (Entry_Over r))
  /\ StronglySorted
       (fun t1 t2 =>
          sorts_before (TeamStrategy.top_Final_Strike_Rate t1)
                       (TeamStrategy.top_Final_Strike_Rate t2) = true)
       (TeamStrategy.top_performers s)
  /\ (forall t others r,
        TeamStrategy.top_performers s = t :: others ->
        In r team_data ->
        sorts_before (TeamStrategy.top_Final_Strike_Rate t)
                     (Final_Strike_Rate r) = true).
Proof.
  cbv zeta. unfold get_team_strategy. cbv zeta.
  destruct (filter (team_contains team_name) entry_points) as [|r0 rest] eqn:E;
    [discriminate|].
  intros [= <-]. cbn [TeamStrategy.top_performers].
  set (team_data := r0 :: rest) in *.
  split; [|split; [|split]].
  - now rewrite length_map, nlargest_length.
  - intros t Ht. apply in_map_iff in Ht as (r & <- & Hr).
    apply nlargest_In in Hr.
    assert (Hr' : In r (filter (team_contains team_name) entry_points))
      by (rewrite E; exact Hr).
    apply filter_In in Hr' as [H1 H2]. now exists r.
  - apply LeaderboardFacts.StronglySorted_map_in
      with (R := fun x y => sorts_before (Final_Strike_Rate x)
                                         (Final_Strike_Rate y) = true);
      [|apply nlargest_sorted].
    intros x y _ _ H. exact H.
  - intros t others r Ht Hr.
    unfold nlargest in Ht.
    pose proof (sort_rows_sorted
                  (fun r h : entry_point =>
                     sorts_before (Final_Strike_Rate r) (Final_Strike_Rate h))
                  team_data
                  (fun x y => LeaderboardFacts.sorts_before_total _ _)
                  (fun x y z => LeaderboardFacts.sorts_before_trans _ _ _))
      as Hs.
    apply (Permutation_in _ (Permutation_sym (sort_rows_perm
             (fun r h : entry_point =>
                sorts_before (Final_Strike_Rate r) (Final_Strike_Rate h))
             team_data))) in Hr.
    destruct (sort_rows _ team_data) as [|x xs]; [destruct Hr|].
    simpl in Ht. injection Ht as <- _.
    cbn [TeamStrategy.top_Final_Strike_Rate].
    destruct Hr as [<-|Hr].
    + destruct (sorts_before (Final_Strike_Rate x) (Final_Strike_Rate x)) eqn:Ex;
        [reflexivity|].
      now apply LeaderboardFacts.sorts_before_total in Ex as Ex'; rewrite Ex' in Ex.
    + inversion Hs as [|? ? _ Hall]; subst.
      rewrite Forall_forall in Hall. now apply Hall.
Qed.

End Lookups.

(** *** Comparing players *)

Section Comparison.

Variable mean : list number -> number.
Variable round1 : number -> number.
Variable frame_round1 : number -> number.
Variable series_max : list number -> number.
Variable int_of_sum : list number -> Z.
Variable py_int : string -> option Z.

Local Abbreviation stats_of :=
  (get_player_stats mean round1 frame_round1 series_max int_of_sum py_int).
Local Abbreviation compare :=
  (compare_players mean round1 frame_round1 series_max int_of_sum py_int).

Local Abbreviation compare_from :=
  (fun (entry_points : list entry_point) =>
     fold_left
       (fun (comparison : result (list (string * PlayerStats.player_stats)))
            (name : string) =>
          match comparison with
          | Raise e => Raise e
          | Ok comparison =>
              match stats_of entry_points name with
              | Raise e => Raise e
              | Ok (Some stats) =>
                  Ok (dict_set comparison (PlayerStats.name stats) stats)
              | Ok None => Ok comparison
              end
          end)).

Lemma compare_raised (entry_points : list entry_point)
    (player_names : list string) (e : string) :
  compare_from entry_points player_names (Raise e) = Raise e.
Proof. induction player_names as [|n l IH]; simpl; auto. Qed.

Lemma dict_set_key_kept {V : Type} (d : list (string * V)) (k k0 : string)
    (v : V) :
  In k0 (map fst d) \/ k0 = k -> In k0 (map fst (dict_set d k v)).
Proof.
  rewrite ExecutionFacts.dict_set_keys.
  destruct (existsb _ (map fst d)) eqn:E.
  - intros [H| ->]; [exact H | now apply ExecutionFacts.existsb_eqb_In].
  - intros [H| ->]; apply in_or_app; simpl; tauto.
Qed.

Lemma compare_players_from (entry_points : list entry_point)
    (player_names : list string)
    (d d' : list (string * PlayerStats.player_stats)) :
  compare_from entry_points player_names (Ok d) = Ok d' ->
  NoDup (map fst d) ->
  NoDup (map fst d')
  /\ (List.length d' <= List.length d + List.length player_names)%nat
  /\ (forall key stats,
        In (key, stats) d' ->
        In (key, stats) d
        \/ (key = PlayerStats.name stats
            /\ exists name, In name player_names
                            /\ stats_of entry_points name = Ok (Some stats)))
  /\ (forall key, In key (map fst d) -> In key (map fst d'))
  /\ (forall name stats,
        In name player_names ->
        stats_of entry_points name = Ok (Some stats) ->
        In (PlayerStats.name stats) (map fst d'))
  /\ (forall name, In name player_names ->
                   exists r, stats_of entry_points name = Ok r).
Proof.
  revert d. induction player_names as [|n l IH]; intros d H Hnd.
  - simpl in H. injection H as <-. repeat split; auto; try lia.
    + intros name stats [].
    + intros name [].
  - simpl in H.
    destruct (stats_of entry_points n) as [e|[stats|]] eqn:En.
    + rewrite compare_raised in H. discriminate.
    + apply IH in H as (H1 & H2 & H3 & H4 & H5 & H6);
        [|now apply ExecutionFacts.dict_set_NoDup].
      pose proof (ExecutionFacts.dict_set_length d (PlayerStats.name stats) stats).
      repeat split; auto.
      * simpl. lia.
      * intros key st Hin. apply H3 in Hin as [Hin|(-> & name & Hn & Hs)].
        -- apply ExecutionFacts.dict_set_In in Hin as [[-> ->]|Hin]; [|now left].
           right. split; [reflexivity|]. exists n. split; [now left | exact En].
        -- right. split; [reflexivity|]. exists name. split; [now right | exact Hs].
      * intros key Hk. apply H4, dict_set_key_kept. now left.
      * intros name st [<-|Hin] Hs.
        -- rewrite En in Hs. injection Hs as <-.
           apply H4, dict_set_key_kept. now right.
        -- now apply (H5 name).
      * intros name [<-|Hin]; [eauto | now apply H6].
    + apply IH in H as (H1 & H2 & H3 & H4 & H5 & H6); [|exact Hnd].
      repeat split; auto.
      * simpl. lia.
      * intros key st Hin. apply H3 in Hin as [Hin|(-> & name & Hn & Hs)];
          [now left|].
        right. split; [reflexivity|]. exists name. split; [now right | exact Hs].
      * intros name st [<-|Hin] Hs; [congruence | now apply (H5 name)].
      * intros name [<-|Hin]; [eauto | now apply H6].
Qed.

(** X26.  A comparison holds the summaries found for the given names,
    each under the full name it carries: no key twice, so two spellings
    of one player give one entry, at most one entry per given name, and
    names for which nothing is found are left out; a comparison is
    returned only if no lookup raised. *)
Theorem compare_players_entries (entry_points : list entry_point)
    (player_names : list string)
    (comparison : list (string * PlayerStats.player_stats)) :
  compare entry_points player_names = Ok comparison ->
  NoDup (map fst comparison)
  /\ (List.length comparison <= List.length player_names)%nat
  /\ (forall key stats,
        In (key, stats) comparison ->
        key = PlayerStats.name stats
        /\ exists name, In name player_names
                        /\ stats_of entry_points name = Ok (Some stats))
  /\ (forall name stats,
        In name player_names ->
        stats_of entry_points name = Ok (Some stats) ->
        In (PlayerStats.name stats) (map fst comparison))
  /\ (forall name, In name player_names ->
                   exists r, stats_of entry_points name = Ok r).
Proof.
  intros H. unfold compare_players in H.
  apply compare_players_from in H as (H1 & H2 & H3 & _ & H5 & H6);
    [|constructor].
  split; [exact H1|]. split; [exact H2|].
  split; [|split; [exact H5 | exact H6]].
  intros key stats Hin. apply H3 in Hin as [[]|Hin]. exact Hin.
Qed.

End Comparison.

Lemma phase_summary_counts_witness :
  len_Z (Exact.best_players Samples.squad "powerplay" 0 None None None)
  = PhaseSummary.unique_players (exact_phase_summary Samples.squad "powerplay").
Proof.
  apply (proj2 (proj2 (phase_summary_counts Exact.mean Exact.round1
                         Samples.squad "powerplay" 0))).
  lia.
Defined.

Lemma unknown_phase_gives_nothing_witness :
  Exact.best_players (categorise Samples.squad) "final" 1 None None None = []
  /\ PhaseSummary.total_entries
       (exact_phase_summary (categorise Samples.squad) "final") = 0%Z
  /\ PhaseSummary.unique_players
       (exact_phase_summary (categorise Samples.squad) "final") = 0%Z
  /\ forall category pool,
       In (category, pool)
          (Diverse.items (exact_diverse_players (categorise Samples.squad)
                                                "final" 1)) ->
       pool = [].
Proof.
  apply (unknown_phase_gives_nothing Exact.mean Exact.round1 Samples.squad
           "final" 1 None None None).
  vm_compute. intros [H|[H|[H|[]]]]; discriminate H.
Defined.

(** The pools of the league in the death overs, for two matches or
    more: the strikers in descending order of their mean strike rate,
    and Russell alone between 120 and 150. *)
Example league_death_pools :
  let pools := exact_diverse_players Samples.league "death" 2 in
  map Diverse.player (Diverse.aggressive_strikers pools)
  = ["Rinku Singh"; "MS Dhoni"; "Andre Russell"]
  /\ map Diverse.avg_strike_rate (Diverse.aggressive_strikers pools)
     = [of_Z 220; of_Z 200; of_Z 140]
  /\ map Diverse.player (Diverse.balanced pools) = ["Andre Russell"].
Proof. cbv zeta. repeat split; vm_compute; reflexivity. Qed.

Lemma diverse_pools_are_qualified_witness :
  let pool :=
    Diverse.aggressive_strikers
      (exact_diverse_players Samples.league "death" 2) in
  map Diverse.player pool = ["Rinku Singh"; "MS Dhoni"; "Andre Russell"]
  /\ (List.length pool <= 15)%nat
  /\ NoDup (map Diverse.player pool)
  /\ forall d,
       In d pool ->
       let records :=
         Expected.records_in_phase Samples.league "Death" (Diverse.player d) in
       records <> []
       /\ (2 <= Diverse.matches d)%Z
       /\ Diverse.matches d = count_values (map Entry_Over records)
       /\ Diverse.avg_strike_rate d
          = Exact.round1 (Exact.mean (map Final_Strike_Rate records)).
Proof.
  cbv zeta. split; [vm_compute; reflexivity|].
  apply (diverse_pools_are_qualified Exact.mean Exact.round1 Samples.league
           "death" 2 "aggressive_strikers").
  left. reflexivity.
Defined.

Lemma diverse_pools_balanced_and_ordered_witness :
  let pools := exact_diverse_players Samples.league "death" 2 in
  let sr (p : string) :=
    Exact.mean (map Final_Strike_Rate
                    (Expected.records_in_phase Samples.league "Death" p)) in
  map (fun d => sr (Diverse.player d)) (Diverse.aggressive_strikers pools)
  = [of_Z 220; of_Z 200; of_Z 140]
  /\ (forall d,
        In d (Diverse.balanced pools) ->
        num_geb (sr (Diverse.player d)) (of_Z 120) = true
        /\ num_leb (sr (Diverse.player d)) (of_Z 150) = true
        /\ is_nan (sr (Diverse.player d)) = false)
  /\ StronglySorted
       (fun d1 d2 =>
          Expected.descending (sr (Diverse.player d1)) (sr (Diverse.player d2)))
       (Diverse.aggressive_strikers pools).
Proof.
  cbv zeta. split; [vm_compute; reflexivity|].
  apply (diverse_pools_balanced_and_ordered Exact.mean Exact.round1
           Samples.league "death" 2).
Defined.

Lemma diverse_pools_same_players_witness :
  let qualified :=
    diverse_performance Exact.mean Samples.squad "powerplay" 1 in
  let pool :=
    Diverse.strike_rotators
      (exact_diverse_players Samples.squad "powerplay" 1) in
  List.length pool = Nat.min 15 (List.length qualified)
  /\ Permutation (map Diverse.player pool) (map perf_Player qualified).
Proof.
  destruct (diverse_pools_same_players Exact.mean Exact.round1 Samples.squad
              "powerplay" 1 "strike_rotators"
              (Diverse.strike_rotators
                 (exact_diverse_players Samples.squad "powerplay" 1)))
    as [H1 H2].
  - right; right; right; left. reflexivity.
  - discriminate.
  - split; [exact H1|]. apply H2. vm_compute. lia.
Defined.

Lemma team_top_performers_witness :
  exists s,
    exact_team_strategy Samples.squad "mi" = Some s
    /\ List.length (TeamStrategy.top_performers s)
       = Nat.min 5 (List.length (filter (team_contains "mi") Samples.squad))
    /\ map TeamStrategy.top_Player (TeamStrategy.top_performers s)
       = ["Hardik Pandya"; "Rohit Sharma"].
Proof.
  destruct (exact_team_strategy Samples.squad "mi") as [s|] eqn:E;
    [|vm_compute in E; discriminate E].
  exists s. split; [reflexivity|]. split.
  - apply (team_top_performers Exact.mean Exact.round1 Samples.squad "mi" s E).
  - vm_compute in E. injection E as <-. reflexivity.
Defined.

Lemma compare_players_entries_witness :
  exists comparison,
    exact_compare_players Samples.squad ["Kohli"; "virat kohli"; "nobody here"]
    = Ok comparison
    /\ NoDup (map fst comparison)
    /\ (List.length comparison <= 3)%nat
    /\ map fst comparison = ["Virat Kohli"].
Proof.
  destruct (exact_compare_players Samples.squad
              ["Kohli"; "virat kohli"; "nobody here"]) as [e|comparison] eqn:E;
    [vm_compute in E; discriminate E|].
  exists comparison. split; [reflexivity|].
  pose proof (compare_players_entries Exact.mean Exact.round1 Exact.round1
                Exact.series_max Exact.int_of_sum Exact.py_int Samples.squad
                ["Kohli"; "virat kohli"; "nobody here"] comparison E)
    as (H1 & H2 & _).
  split; [exact H1 | split; [exact H2|]].
  vm_compute in E. injection E as <-. reflexivity.
Defined.

End LookupsMore.

(** ** More on the summary of a player *)

Module StatsMore.
Import Analyzer LeaderboardMore.

Lemma insert_desc_perm (s : string) (l : list string) :
  Permutation (insert_desc s l) (s :: l).
Proof.
  induction l as [|h t IH]; simpl; [reflexivity|].
  destruct (String.leb h s); [reflexivity|].
  rewrite IH. apply perm_swap.
Qed.

Lemma sort_desc_perm (l : list string) : Permutation (sort_desc l) l.
Proof.
  induction l as [|h t IH]; simpl; [reflexivity|].
  rewrite insert_desc_perm. now constructor.
Qed.

Lemma filter_split_length {A : Type} (f : A -> bool) (l : list A) :
  (List.length (filter f l) + List.length (filter (fun x => negb (f x)) l)
   = List.length l)%nat.
Proof.
  induction l as [|h t IH]; simpl; [reflexivity|].
  destruct (f h); simpl; lia.
Qed.

Lemma first_max_step (weight : string -> nat) (l : list string)
    (best : option string) (x : string) :
  fold_left (fun best s =>
               match best with
               | None => Some s
               | Some b => if (weight b <? weight s)%nat then Some s else Some b
               end) l best = Some x ->
  In x l \/ best = Some x.
Proof.
  revert best. induction l as [|h t IH]; intros best H; simpl in H.
  - now right.
  - apply IH in H as [H|H]; [left; now right|].
    destruct best as [b|].
    + destruct (weight b <? weight h)%nat.
      * injection H as <-. left. now left.
      * now right.
    + injection H as <-. left. now left.
Qed.

Lemma first_max_In (weight : string -> nat) (l : list string) (x : string) :
  first_max weight l = Some x -> In x l.
Proof.
  intros H. apply first_max_step in H as [H|H]; [exact H | discriminate].
Qed.

Lemma first_max_some (weight : string -> nat) (l : list string) :
  l <> [] -> exists x, first_max weight l = Some x.
Proof.
  intros H. unfold first_max.
  assert (Hs : forall l best,
             best <> None ->
             exists x,
               fold_left (fun best s =>
                            match best with
                            | None => Some s
                            | Some b =>
                                if (weight b <? weight s)%nat then Some s
                                else Some b
                            end) l best = Some x).
  { clear. induction l as [|h t IH]; intros best Hb; simpl.
    - destruct best as [b|]; [now exists b | now elim Hb].
    - apply IH. destruct best as [b|]; [|discriminate].
      destruct (weight b <? weight h)%nat; discriminate. }
  destruct l as [|h t]; [now elim H|]. simpl. apply Hs. discriminate.
Qed.

(** The most frequent value of a non-empty column is one of its
    values. *)
Lemma mode_In (l : list string) :
  l <> [] -> exists x, mode l = Some x /\ In x l.
Proof.
  intros H. unfold mode.
  assert (Hne : sort_asc (unique l) <> []).
  { destruct l as [|h t]; [now elim H|].
    intros E. pose proof (sort_asc_perm (unique (h :: t))) as P.
    rewrite E in P. apply Permutation_nil in P.
    assert (Hin : In h (unique (h :: t)))
      by (apply ResolutionFacts.unique_In; now left).
    rewrite P in Hin. destruct Hin. }
  destruct (first_max_some (fun s => List.length (filter (String.eqb s) l))
              _ Hne) as [x Hx].
  exists x. split; [exact Hx|].
  apply first_max_In in Hx.
  apply (Permutation_in _ (sort_asc_perm _)) in Hx.
  exact (proj1 (ResolutionFacts.unique_In _ _) Hx).
Qed.

(** What is left of a list without repetition when all of it is among
    its first [n] elements. *)
Lemma NoDup_all_in_firstn {A : Type} (n : nat) (l : list A) :
  NoDup l ->
  ((forall y, In y l -> In y (firstn n l)) <-> (List.length l <= n)%nat).
Proof.
  intros Hnd. split.
  - intros H.
    pose proof (NoDup_incl_length Hnd H) as Hlen.
    pose proof (firstn_le_length n l).
    rewrite length_firstn in Hlen. lia.
  - intros H y Hy. now rewrite firstn_all2.
Qed.

(** The rows a summary is computed from are rows of the table. *)
Lemma resolve_player_data_rows (entry_points : list entry_point)
    (player_name : string) (player_data : list entry_point) :
  resolve_player_data entry_points player_name = Ok player_data ->
  exists f, player_data = filter f entry_points.
Proof.
  unfold resolve_player_data.
  destruct (filter (name_contains player_name) entry_points) as [|r rest] eqn:E.
  - destruct (resolve_fuzzy entry_points player_name) as [e|m]; [discriminate|].
    destruct (is_set m); [destruct m as [p|]|]; intros [= <-].
    + now exists (fun r => Player r =? p).
    + exists (name_contains player_name). now rewrite E.
    + exists (name_contains player_name). now rewrite E.
  - intros [= <-]. exists (name_contains player_name). now rewrite E.
Qed.

Lemma phase_counts_sum (player_data : list entry_point) :
  (len_Z (phase_rows player_data "Powerplay")
   + len_Z (phase_rows player_data "Middle")
   + len_Z (phase_rows player_data "Death") <= len_Z player_data)%Z
  /\ ((forall r, In r player_data ->
                 In (Entry_Phase r) ["Powerplay"; "Middle"; "Death"]) ->
      (len_Z (phase_rows player_data "Powerplay")
       + len_Z (phase_rows player_data "Middle")
       + len_Z (phase_rows player_data "Death") = len_Z player_data)%Z).
Proof.
  unfold len_Z, phase_rows.
  induction player_data as [|r l [IH1 IH2]]; [split; reflexivity|].
  cbn [filter].
  destruct (String.eqb_spec (Entry_Phase r) "Powerplay") as [E|N1].
  - rewrite E. cbn [String.eqb Ascii.eqb Bool.eqb andb]. cbn [List.length].
    split; [lia|]. intros H.
    assert (H' : forall x, In x l ->
                           In (Entry_Phase x) ["Powerplay"; "Middle"; "Death"])
      by (intros x Hx; apply H; now right).
    specialize (IH2 H'). lia.
  - destruct (String.eqb_spec (Entry_Phase r) "Middle") as [E|N2].
    + rewrite E. cbn [String.eqb Ascii.eqb Bool.eqb andb]. cbn [List.length].
      split; [lia|]. intros H.
      assert (H' : forall x, In x l ->
                             In (Entry_Phase x) ["Powerplay"; "Middle"; "Death"])
        by (intros x Hx; apply H; now right).
      specialize (IH2 H'). lia.
    + destruct (String.eqb_spec (Entry_Phase r) "Death") as [E|N3];
        cbn [List.length].
      * split; [lia|]. intros H.
        assert (H' : forall x, In x l ->
                               In (Entry_Phase x) ["Powerplay"; "Middle"; "Death"])
          by (intros x Hx; apply H; now right).
        specialize (IH2 H'). lia.
      * split; [lia|]. intros H.
        destruct (H r (or_introl eq_refl)) as [E|[E|[E|[]]]]; congruence.
Qed.

Section Summary.

Variable mean : list number -> number.
Variable round1 : number -> number.
Variable frame_round1 : number -> number.
Variable series_max : list number -> number.
Variable int_of_sum : list number -> Z.
Variable py_int : string -> option Z.

Local Abbreviation stats_of :=
  (get_player_stats mean round1 frame_round1 series_max int_of_sum py_int).
Local Abbreviation summary_of :=
  (summarize mean round1 frame_round1 series_max int_of_sum py_int).

(** A summary is the summary of the rows the name resolves to. *)
Lemma stats_of_summary (entry_points : list entry_point) (player_name : string)
    (s : PlayerStats.player_stats) :
  stats_of entry_points player_name = Ok (Some s) ->
  exists player_data,
    player_data <> []
    /\ resolve_player_data entry_points player_name = Ok player_data
    /\ s = summary_of entry_points player_data.
Proof.
  unfold get_player_stats.
  destruct (resolve_player_data entry_points player_name) as [e|[|r l]];
    try discriminate.
  intros [= <-]. exists (r :: l). repeat split. discriminate.
Qed.

(** X28.  On an empty table a lookup of a plain name (ASCII text
    without metacharacters of regular expressions) finds nothing, and
    raises [IndexError] when the name holds a space and no word. *)
Theorem player_stats_of_empty_table (player_name : string) :
  plain_text player_name = true ->
  stats_of [] player_name
  = if contains " " player_name
    then match split_ws player_name with
         | [] => Raise "IndexError: list index out of range"
         | _ :: _ => Ok None
         end
    else Ok None.
Proof.
  intros _.
  unfold get_player_stats, resolve_player_data, resolve_fuzzy. cbn [filter].
  change (unique (map Player [])) with (@nil string).
  assert (Hf : fuzzy_match [] player_name = None) by reflexivity.
  rewrite Hf. cbn [is_set]. unfold last_name_of.
  destruct (contains " " player_name) eqn:Hs.
  - destruct (split_ws player_name) as [|w ws] eqn:Ew; [reflexivity|].
    assert (Hr : exists x xs, rev (w :: ws) = x :: xs).
    { destruct (rev (w :: ws)) as [|x xs] eqn:Er; [|eauto].
      apply (f_equal (@List.length string)) in Er.
      rewrite length_rev in Er. discriminate. }
    destruct Hr as (x & xs & ->). reflexivity.
  - reflexivity.
Qed.

(** X29.  On a table whose [Year] column holds text, every summary has
    a window of recent performance, over the two latest years of the
    player; the matches of the recent and of the historical window add
    up to the total, and a historical window is there exactly when the
    player has entries in more than two years. *)
Theorem player_stats_windows (entry_points : list entry_point)
    (player_name : string) (s : PlayerStats.player_stats) :
  stats_of entry_points player_name = Ok (Some s) ->
  exists recent,
    PlayerStats.recent_performance s = Some recent
    /\ PlayerStats.window_years recent = firstn 2 (PlayerStats.years s)
    /\ (1 <= PlayerStats.window_matches recent)%Z
    /\ (PlayerStats.total_matches s
        = PlayerStats.window_matches recent
          + match PlayerStats.historical_performance s with
            | Some historical => PlayerStats.window_matches historical
            | None => 0
            end)%Z
    /\ (PlayerStats.historical_performance s = None
        <-> (List.length (PlayerStats.years s) <= 2)%nat).
Proof.
  intros H. apply stats_of_summary in H as (player_data & Hne & _ & ->).
  unfold summarize. cbv zeta.
  destruct (recency py_int _ _) as [status score].
  cbn [PlayerStats.recent_performance PlayerStats.years
       PlayerStats.total_matches PlayerStats.historical_performance].
  set (years_sorted := sort_desc (unique (map Year player_data))).
  set (recent_years := firstn 2 years_sorted).
  set (recent_data := filter (fun r => mem (Year r) recent_years) player_data).
  set (historical_data :=
         filter (fun r => negb (mem (Year r) recent_years)) player_data).
  assert (Hys : forall y, In y years_sorted <-> In y (map Year player_data)).
  { intros y. unfold years_sorted. split; intros Hy.
    - apply (Permutation_in _ (sort_desc_perm _)) in Hy.
      exact (proj1 (ResolutionFacts.unique_In _ _) Hy).
    - apply (Permutation_in _ (Permutation_sym (sort_desc_perm _))).
      exact (proj2 (ResolutionFacts.unique_In _ _) Hy). }
  assert (Hnd : NoDup years_sorted).
  { apply (Permutation_NoDup (Permutation_sym (sort_desc_perm _))).
    apply unique_NoDup. }
  assert (Hrecent : recent_data <> []).
  { destruct player_data as [|r0 l]; [now elim Hne|].
    destruct years_sorted as [|y ys] eqn:Ey.
    - assert (Hin : In (Year r0) []) by (apply Hys; now left). destruct Hin.
    - assert (Hy : In y (map Year (r0 :: l))) by (apply Hys; now left).
      apply in_map_iff in Hy as (r & Hr & Hin).
      intros E.
      assert (Hrd : In r recent_data).
      { apply filter_In. split; [exact Hin|].
        apply mem_In. rewrite Hr. unfold recent_years. now left. }
      rewrite E in Hrd. destruct Hrd. }
  assert (Hlen : (List.length recent_data + List.length historical_data
                  = List.length player_data)%nat)
    by apply filter_split_length.
  destruct recent_data as [|r1 rd] eqn:Erd; [now elim Hrecent|].
  cbn [truthy_list andb].
  eexists. split; [reflexivity|].
  cbn [window_of PlayerStats.window_years PlayerStats.window_matches].
  split; [reflexivity|].
  split; [unfold len_Z; cbn [List.length]; lia|].
  assert (Hhist : historical_data = [] <-> (List.length years_sorted <= 2)%nat).
  { rewrite <- (NoDup_all_in_firstn 2 years_sorted Hnd). split.
    - intros E y Hy. apply Hys, in_map_iff in Hy as (r & <- & Hr).
      destruct (mem (Year r) recent_years) eqn:Em; [now apply mem_In|].
      assert (Hin : In r historical_data)
        by (apply filter_In; split; [exact Hr | now rewrite Em]).
      rewrite E in Hin. destruct Hin.
    - intros Hall. apply filter_nil_all. intros r Hr.
      assert (Hm : mem (Year r) recent_years = true).
      { apply mem_In, Hall, Hys. now apply in_map. }
      now rewrite Hm. }
  destruct historical_data as [|h1 hd] eqn:Ehd.
  - cbn [truthy_list andb].
    split; [unfold len_Z; cbn [List.length] in *; lia|].
    split; [intros _; now apply Hhist | reflexivity].
  - cbn [truthy_list andb PlayerStats.window_matches window_of].
    split; [unfold len_Z; cbn [List.length] in *; lia|].
    split; [discriminate|].
    intros Hle. apply Hhist in Hle. discriminate.
Qed.

(** X30.  A summary is about the table: it carries the name of a player
    of the table, counts between one and all of its rows, its teams are
    teams of the table, and its phase breakdown counts no row twice; on
    a table whose phases are the three of the entry overs, the breakdown
    adds up to the total. *)
Theorem player_stats_within_table (entry_points : list entry_point)
    (player_name : string) (s : PlayerStats.player_stats) :
  stats_of entry_points player_name = Ok (Some s) ->
  let breakdown := PlayerStats.phase_breakdown s in
  In (PlayerStats.name s) (map Player entry_points)
  /\ (1 <= PlayerStats.total_matches s <= len_Z entry_points)%Z
  /\ (forall team, In team (PlayerStats.teams s) ->
                   In team (map Team entry_points))
  /\ (PlayerStats.powerplay breakdown + PlayerStats.middle breakdown
      + PlayerStats.death breakdown <= PlayerStats.total_matches s)%Z
  /\ ((forall r, In r entry_points ->
                 In (Entry_Phase r) ["Powerplay"; "Middle"; "Death"]) ->
      (PlayerStats.powerplay breakdown + PlayerStats.middle breakdown
       + PlayerStats.death breakdown = PlayerStats.total_matches s)%Z).
Proof.
  intros H. apply stats_of_summary in H as (player_data & Hne & Hres & ->).
  apply resolve_player_data_rows in Hres as [f Hf].
  assert (Hsub : forall r, In r player_data -> In r entry_points).
  { intros r Hr. rewrite Hf in Hr. now apply filter_In in Hr. }
  unfold summarize. cbv zeta.
  destruct (recency py_int _ _) as [status score].
  cbn [PlayerStats.name PlayerStats.total_matches PlayerStats.teams
       PlayerStats.phase_breakdown PlayerStats.powerplay PlayerStats.middle
       PlayerStats.death].
  split; [|split; [|split; [|split]]].
  - destruct (mode_In (map Player player_data)) as (x & -> & Hx).
    + destruct player_data; [now elim Hne | discriminate].
    + apply in_map_iff in Hx as (r & <- & Hr). apply in_map. now apply Hsub.
  - unfold len_Z. split.
    + destruct player_data; [now elim Hne|]. cbn [List.length]. lia.
    + rewrite Hf. pose proof (filter_length_le f entry_points). lia.
  - intros team Ht.
    apply (proj1 (ResolutionFacts.unique_In _ _)), in_map_iff in Ht
      as (r & <- & Hr).
    apply in_map. now apply Hsub.
  - apply phase_counts_sum.
  - intros Hall. apply phase_counts_sum. intros r Hr. apply Hall. now apply Hsub.
Qed.

End Summary.

Lemma player_stats_of_empty_table_witness :
  Exact.player_stats [] "Virat Kohli" = Ok None
  /\ Exact.player_stats [] "  " = Raise "IndexError: list index out of range".
Proof.
  split.
  - apply (player_stats_of_empty_table Exact.mean Exact.round1 Exact.round1
             Exact.series_max Exact.int_of_sum Exact.py_int "Virat Kohli").
    vm_compute. reflexivity.
  - apply (player_stats_of_empty_table Exact.mean Exact.round1 Exact.round1
             Exact.series_max Exact.int_of_sum Exact.py_int "  ").
    vm_compute. reflexivity.
Defined.

Lemma player_stats_windows_witness :
  exists s recent,
    Exact.player_stats Samples.squad "Kohli" = Ok (Some s)
    /\ PlayerStats.recent_performance s = Some recent
    /\ PlayerStats.window_years recent = ["2025"; "2024"]
    /\ PlayerStats.window_matches recent = 2%Z
    /\ PlayerStats.historical_performance s = None.
Proof.
  destruct (Exact.player_stats Samples.squad "Kohli") as [e|[s|]] eqn:E;
    try (vm_compute in E; discriminate E).
  destruct (player_stats_windows Exact.mean Exact.round1 Exact.round1
              Exact.series_max Exact.int_of_sum Exact.py_int Samples.squad
              "Kohli" s E) as (recent & H1 & H2 & H3 & H4 & H5).
  exists s, recent. split; [reflexivity|]. split; [exact H1|].
  vm_compute in E. injection E as <-.
  vm_compute in H1. injection H1 as <-.
  repeat split.
Defined.

Lemma player_stats_within_table_witness :
  exists s,
    Exact.player_stats Samples.squad "Kohli" = Ok (Some s)
    /\ In (PlayerStats.name s) (map Player Samples.squad)
    /\ (1 <= PlayerStats.total_matches s <= 5)%Z
    /\ (PlayerStats.powerplay (PlayerStats.phase_breakdown s)
        + PlayerStats.middle (PlayerStats.phase_breakdown s)
        + PlayerStats.death (PlayerStats.phase_breakdown s)
        = PlayerStats.total_matches s)%Z.
Proof.
  destruct (Exact.player_stats Samples.squad "Kohli") as [e|[s|]] eqn:E;
    try (vm_compute in E; discriminate E).
  destruct (player_stats_within_table Exact.mean Exact.round1 Exact.round1
              Exact.series_max Exact.int_of_sum Exact.py_int Samples.squad
              "Kohli" s E) as (H1 & H2 & _ & _ & H5).
  exists s. split; [reflexivity|]. split; [exact H1|]. split; [exact H2|].
  apply H5. intros r Hr. vm_compute in Hr.
  repeat (destruct Hr as [<-|Hr]; [vm_compute; tauto|]). destruct Hr.
Defined.

End StatsMore.
